(** * WhatsApp sales intelligence: the incremental analysis pipeline

    A shallow embedding of the analysis pipeline of the repository
    (services/aiAnalyzer.js, services/chatService.js,
    services/databaseService.js, utils/logger.js and src/index.js) and the
    properties of its specification, stated and settled over that embedding.

    Conventions of the embedding:
    - a JavaScript object is a finite map from property names to values
      ([gmap string JsValue]); a missing property reads as [VUndefined];
      object spread [{...a, k: v}] is insertion over [a];
    - a JavaScript number is a rational ([Q]); the code only stores and
      compares the confidence literals, it does no arithmetic on them;
    - a string is a [string] of characters, one code unit per character;
    - [async] functions are run to completion in program order; a rejected
      promise or a [throw] is the [Throw] completion, and [try]/[catch] is
      [try_catch];
    - the PostgreSQL client and the OpenAI client are outside the
      repository: they are parameters (a statement executor over an abstract
      database state, a reply function over requests); module [Postgres] is
      a small model of the server, used where a property is about what the
      tables hold and to run the services on concrete inputs. *)

From Stdlib Require Import String Ascii List ZArith QArith Qabs Bool Lia.
From stdpp Require Import base option list gmap strings fin_maps.

Set Default Proof Using "Type".
Set Warnings "-register-all".
Local Open Scope string_scope.
Local Open Scope list_scope.

(** ** JavaScript values *)

Module Js.

Inductive JsValue : Type :=
  | VUndefined
  | VNull
  | VBool (b : bool)
  | VNum (q : Q)
  | VNaN
  | VStr (s : string)
  | VDate (ms : Z)
  | VArr (l : list JsValue)
  | VObj (o : gmap string JsValue).

Abbreviation JsObj := (gmap string JsValue).

(** An [Error] object as the code reads it: [message], [code], [status]. *)
Record JsError : Type := mkError {
  message : string;
  code : JsValue;
  status : JsValue
}.

(** The completion of a call: a returned value or a thrown error. *)
Inductive Completion (A : Type) : Type :=
  | Normal (a : A)
  | Throw (e : JsError).
Arguments Normal {A} a.
Arguments Throw {A} e.

(** Sequencing: the continuation runs only when the call returned. *)
Definition bind {A B} (c : Completion A) (k : A -> Completion B) : Completion B :=
  match c with
  | Normal a => k a
  | Throw e => Throw e
  end.

(** Whether a call returned. *)
Definition completed {A} (c : Completion A) : bool :=
  match c with
  | Normal _ => true
  | Throw _ => false
  end.

(** [try { body } catch (e) { handler(e) }] *)
Definition try_catch {A} (body : Completion A) (handler : JsError -> Completion A)
  : Completion A :=
  match body with
  | Normal a => Normal a
  | Throw e => handler e
  end.

(** ToBoolean. *)
Definition truthy (v : JsValue) : bool :=
  match v with
  | VUndefined | VNull | VNaN => false
  | VBool b => b
  | VNum q => negb (Qeq_bool q 0)
  | VStr s => negb (String.eqb s "")
  | VDate _ | VArr _ | VObj _ => true
  end.

(** [a || b] *)
Definition or_else (a b : JsValue) : JsValue := if truthy a then a else b.

(** Property read [o.k]. *)
Definition get (o : JsObj) (k : string) : JsValue := default VUndefined (o !! k).

(** Optional chaining [v?.k] on a value. *)
Definition get_opt (v : JsValue) (k : string) : JsValue :=
  match v with
  | VObj o => get o k
  | _ => VUndefined
  end.

(** [v === 'lit'] for a string literal. *)
Definition is_str (v : JsValue) (lit : string) : bool :=
  match v with
  | VStr s => String.eqb s lit
  | _ => false
  end.

(** White space and line terminators removed by [String.prototype.trim],
    among the code units a character of the embedding can hold (0 to 255):
    TAB, LF, VT, FF, CR (9 to 13), SPACE (32) and NO-BREAK SPACE (160). The
    others [trim] removes (U+FEFF, U+1680, U+2000 to U+200A, U+2028, U+2029,
    U+202F, U+205F, U+3000) lie above 255. *)
Definition is_space (c : ascii) : bool :=
  let n := nat_of_ascii c in
  ((9 <=? n)%nat && (n <=? 13)%nat) || (n =? 32)%nat || (n =? 160)%nat.

(** NO-BREAK SPACE, U+00A0. *)
Definition nbsp : ascii := ascii_of_nat 160.

Fixpoint trim_start (s : string) : string :=
  match s with
  | EmptyString => EmptyString
  | String c r => if is_space c then trim_start r else s
  end.

Fixpoint rev_string (s : string) (acc : string) : string :=
  match s with
  | EmptyString => acc
  | String c r => rev_string r (String c acc)
  end.

(** [s.trim()] *)
Definition trim (s : string) : string :=
  rev_string (trim_start (rev_string (trim_start s) EmptyString)) EmptyString.

(** Every character of [s] is white space. *)
Fixpoint all_space (s : string) : bool :=
  match s with
  | EmptyString => true
  | String c r => is_space c && all_space r
  end.

End Js.
Import Js.

(** ** The PostgreSQL client *)

(** The statements the services send through a pooled client: transaction
    control and the two parameterised upserts
    ([INSERT INTO "ConversationCache" ... ON CONFLICT ("remoteJid") DO UPDATE]
    and [INSERT INTO "SalesAnalysisReport" ... ON CONFLICT ("remoteJid") DO
    UPDATE]) with their parameter arrays. *)
Inductive Stmt : Type :=
  | SBegin
  | SCommit
  | SRollback
  | SInsertCache (values : list JsValue)
  | SInsertReport (values : list JsValue).

(** ** Data exchanged between the services *)

(** One element of [conversationData], as [ChatService.processChatsBatch]
    builds it: [{remoteJid, chatName, conversation, metadata, hasMessages,
    fromCache}] or, for a failed load, [{remoteJid, error, hasMessages}]. *)
Record ConvData : Type := mkConv {
  remoteJid : string;
  chatName : JsValue;
  conversation : JsValue;
  metadata : JsValue;
  hasMessages : bool;
  fromCache : bool;
  error : JsValue
}.

(** ** services/aiAnalyzer.js *)

Module AIAnalyzer.

(** The request sent to [openai.chat.completions.create]: model, system
    message and user message (temperature, token limit and response format
    are constants of the call). *)
Record Request : Type := mkRequest {
  req_model : JsValue;
  req_system : string;
  req_user : string
}.

(** What comes back: the call rejects, or [JSON.parse] of the returned
    content throws, or it yields the parsed object. *)
Inductive Reply : Type :=
  | ApiError (e : JsError)
  | Malformed (e : JsError)
  | Content (analysis : JsObj).

(** A flush of the checkpoint accumulator, as the console shows it:
    "Incremental save completed successfully" or "Incremental save failed". *)
Inductive FlushEvent : Type :=
  | SaveCompleted (saved : list JsObj)
  | SaveFailed (attempted : list JsObj) (msg : string).

(** [const SAVE_INTERVAL = 50], chunks between two incremental saves. *)
Definition SAVE_INTERVAL : nat := 50.

(** [getEmptyAnalysis(remoteJid)] *)
Definition getEmptyAnalysis (remoteJid : string) : JsObj :=
  list_to_map [
    ("remoteJid", VStr remoteJid);
    ("product_category", VStr "No Product Mentioned");
    ("specific_products", VArr []);
    ("product_models", VArr []);
    ("quantity_mentioned", VNull);
    ("primary_sales_agent", VNull);
    ("additional_agents", VArr []);
    ("agent_handoff_detected", VBool false);
    ("lead_stage", VStr "Inquiry");
    ("next_action_required", VStr "Initial contact or follow-up needed");
    ("sales_status", VStr "No meaningful conversation detected");
    ("customer_objections", VArr []);
    ("urgency_level", VStr "Low");
    ("customer_name", VNull);
    ("customer_location", VNull);
    ("budget_range", VNull);
    ("purchase_timeline", VNull);
    ("decision_maker_status", VNull);
    ("product_specifications", VNull);
    ("accessories_discussed", VArr []);
    ("warranty_service_needs", VNull);
    ("color_preferences", VArr []);
    ("lead_source", VNull);
    ("competitive_products", VArr []);
    ("upsell_opportunities", VArr []);
    ("customer_sentiment", VStr "Neutral");
    ("pain_points_identified", VArr []);
    ("pricing_discussed", VBool false);
    ("demo_scheduled", VBool false);
    ("follow_up_required", VBool true);
    ("analysisConfidence", VNum 0.3)
  ].

(** The fields of the JSON schema that [getSystemPrompt()] asks the
    classifier to return. *)
Definition schemaFields : list string :=
  [ "product_category"; "specific_products"; "product_models"; "quantity_mentioned";
    "primary_sales_agent"; "additional_agents"; "agent_handoff_detected"; "lead_stage";
    "next_action_required"; "sales_status"; "customer_objections"; "urgency_level";
    "customer_name"; "customer_location"; "budget_range"; "purchase_timeline";
    "decision_maker_status"; "product_specifications"; "accessories_discussed";
    "warranty_service_needs"; "color_preferences"; "lead_source"; "competitive_products";
    "upsell_opportunities"; "customer_sentiment"; "pain_points_identified";
    "pricing_discussed"; "demo_scheduled"; "follow_up_required"; "analysis_confidence" ].

(** [buildAnalysisPrompt(conversation)] *)
Definition buildAnalysisPrompt (conversation : string) : string :=
  "Please analyze this WhatsApp sales conversation and extract all relevant sales intelligence:

CONVERSATION:
" ++ conversation ++ "

Extract comprehensive sales data including product categories, sales agent information, customer intelligence, sales process status, and business insights. Return the analysis as a JSON object following the exact schema provided in the system message.".

Section Analyzer.

(** [process.env.OPENAI_MODEL] (a string, or undefined when unset). *)
Variable OPENAI_MODEL : JsValue.
(** The text returned by [getSystemPrompt()], a constant of the source. *)
Variable systemPrompt : string.
(** The external classifier, and the milliseconds [Date.now() - startTime]
    measured around the call. *)
Variable openai : Request -> Reply.
Variable elapsed : Request -> Z.

Definition modelUsed : JsValue := or_else OPENAI_MODEL (VStr "gpt-3.5-turbo").

(** [conversation.trim] on a value that is not a string. *)
Definition trimTypeError : JsError :=
  mkError "conversation.trim is not a function" VUndefined VUndefined.

(** [analyzeSalesConversation(conversation, remoteJid)]: the requests it
    issues and its completion. *)
Definition analyzeSalesConversation (conversation : JsValue) (remoteJid : string)
  : list Request * Completion JsObj :=
  match conversation with
  | VStr s =>
      if negb (truthy conversation) || String.eqb (trim s) "" then
        ([], Normal (getEmptyAnalysis remoteJid))
      else
        let req := mkRequest modelUsed systemPrompt (buildAnalysisPrompt s) in
        let processingTime := VNum (inject_Z (elapsed req)) in
        let onError (e : JsError) : JsObj :=
          <["error" := VStr (message e)]>
            (<["processingTimeMs" := processingTime]>
              (<["aiModelUsed" := VStr "error"]>
                (<["analysisConfidence" := VNum 0.1]>
                  (getEmptyAnalysis remoteJid)))) in
        ([req],
         match openai req with
         | Content analysis =>
             Normal
               (<["processingTimeMs" := processingTime]>
                 (<["aiModelUsed" := modelUsed]>
                   (<["analysisConfidence" :=
                        or_else (get analysis "analysis_confidence") (VNum 0.8)]>
                     (<["remoteJid" := VStr remoteJid]> analysis))))
         | Malformed e => Normal (onError e)
         | ApiError e => Normal (onError e)
         end)
  | v =>
      if negb (truthy v) then ([], Normal (getEmptyAnalysis remoteJid))
      else ([], Throw trimTypeError)
  end.

(** The body of [batch.map(async (data) => ...)] for one item. *)
Definition analyzeItem (data : ConvData) : list Request * JsObj :=
  let md := or_else (metadata data) (VObj ∅) in
  if truthy (error data) || negb (hasMessages data) then
    ([], <["metadata" := md]> (getEmptyAnalysis (remoteJid data)))
  else
    let '(reqs, c) := analyzeSalesConversation (conversation data) (remoteJid data) in
    (reqs,
     match c with
     | Normal analysis =>
         <["analysisSuccess" := VBool true]> (<["metadata" := md]> analysis)
     | Throw e =>
         <["analysisSuccess" := VBool false]>
           (<["metadata" := md]>
             (<["errorCode" := or_else (code e) (VStr "unknown")]>
               (<["error" := VStr (message e)]>
                 (getEmptyAnalysis (remoteJid data)))))
     end).

(** [result.analysisSuccess] as a filter predicate. *)
Definition analysisSuccess (r : JsObj) : bool := truthy (get r "analysisSuccess").

(** [result.errorCode === 'insufficient_quota'] *)
Definition isQuotaError (r : JsObj) : bool := is_str (get r "errorCode") "insufficient_quota".

Section Batch.

(** The state captured by the save callback's closure. *)
Variable S : Type.

(** The local variables of [analyzeConversationsBatch]. *)
Record BatchState : Type := mkBatch {
  results : list JsObj;
  accumulatedForSave : list JsObj;
  batchNumber : nat;
  saver : S;
  flushes : list FlushEvent;
  requests : list Request
}.

Variable conversationData : list ConvData.
Variable batchSize : nat.
Variable incrementalSaveCallback : option (list JsObj -> S -> S * Completion unit).

(** [try { await incrementalSaveCallback(items) } catch (error) { log }] *)
Definition trySave (cb : list JsObj -> S -> S * Completion unit)
    (items : list JsObj) (st : BatchState) : BatchState :=
  let '(s', c) := cb items (saver st) in
  mkBatch (results st) (accumulatedForSave st) (batchNumber st) s'
    (flushes st ++
       [match c with
        | Normal _ => SaveCompleted items
        | Throw e => SaveFailed items (message e)
        end])
    (requests st).

(** The incremental save at the end of a loop iteration. *)
Definition checkpoint (st : BatchState) : BatchState :=
  match incrementalSaveCallback with
  | Some cb =>
      if (batchNumber st mod SAVE_INTERVAL =? 0)%nat then
        let successfulInBatch := filter (fun r => analysisSuccess r = true)
                                        (accumulatedForSave st) in
        let st1 :=
          if (0 <? length successfulInBatch)%nat
          then trySave cb successfulInBatch st else st in
        mkBatch (results st1) [] (batchNumber st1) (saver st1)
          (flushes st1) (requests st1)
      else st
  | None => st
  end.

(** One iteration of the [for] loop, for the chunk starting at [i]. *)
Definition iteration (i : nat) (st : BatchState) : BatchState :=
  let batch := firstn batchSize (skipn i conversationData) in
  let out := map analyzeItem batch in
  let batchResults := map snd out in
  checkpoint
    (mkBatch (results st ++ batchResults)
       (accumulatedForSave st ++ batchResults)
       (Datatypes.S (batchNumber st)) (saver st) (flushes st)
       (requests st ++ concat (map fst out))).

(** [for (let i = 0; i < conversationData.length; i += batchSize)] *)
Fixpoint batchLoop (fuel : nat) (i : nat) (st : BatchState) : option BatchState :=
  if (length conversationData <=? i)%nat then Some st
  else match fuel with
       | O => None
       | Datatypes.S fuel' => batchLoop fuel' (i + batchSize) (iteration i st)
       end.

(** The final save for the remainder. *)
Definition finalSave (st : BatchState) : BatchState :=
  match incrementalSaveCallback with
  | Some cb =>
      if (0 <? length (accumulatedForSave st))%nat then
        let successfulRemaining := filter (fun r => analysisSuccess r = true)
                                          (accumulatedForSave st) in
        if (0 <? length successfulRemaining)%nat
        then trySave cb successfulRemaining st else st
      else st
  | None => st
  end.

(** [analyzeConversationsBatch(conversationData, batchSize,
    incrementalSaveCallback)]; [None] when the loop does not finish
    within [fuel] iterations. *)
Definition analyzeConversationsBatch (fuel : nat) (s0 : S) : option BatchState :=
  finalSave <$> batchLoop fuel 0 (mkBatch [] [] 0 s0 [] []).

End Batch.
End Analyzer.
End AIAnalyzer.

(** ** services/databaseService.js *)

Module DatabaseService.

(** The value returned by [bulkInsertAnalysisResults]. *)
Record BulkResult : Type := mkResult {
  success : nat;
  failed : nat;
  errors : list JsObj
}.

(** [truncateString(value, maxLength)], the helper of [prepareInsertValues]. *)
Definition truncateString (value : JsValue) (maxLength : Z) : JsValue :=
  match value with
  | VStr s =>
      if negb (truthy value) then value
      else if (maxLength <? Z.of_nat (String.length s))%Z
           then VStr (substring 0 (Z.to_nat (maxLength - 3)) s ++ "...")
           else value
  | _ => value
  end.

(** [toBoolean(value)] *)
Definition toBoolean (value : JsValue) : JsValue :=
  match value with
  | VBool true => VBool true
  | VStr s => VBool (String.eqb s "true")
  | _ => VBool false
  end.

(** [v !== false] *)
Definition not_false (v : JsValue) : JsValue :=
  match v with
  | VBool false => VBool false
  | _ => VBool true
  end.

Section Prepare.

(** Built-ins of the JavaScript runtime. *)
Variable JSON_stringify : JsValue -> string.
Variable parseInt : JsValue -> JsValue.
Variable parseFloat : JsValue -> JsValue.
(** [new Date().toISOString()] at the time of the call. *)
Variable nowISO : string.

(** [toJsonb(value)] *)
Definition toJsonb (value : JsValue) : JsValue :=
  match value with
  | VArr _ | VObj _ | VDate _ => VStr (JSON_stringify value)
  | _ => value
  end.

(** [toInteger(value)] *)
Definition toInteger (value : JsValue) : JsValue :=
  match value with
  | VNull | VUndefined => VNull
  | _ => match parseInt value with
         | VNaN => VNull
         | parsed => parsed
         end
  end.

(** [prepareInsertValues(result)]: the 37 statement parameters. *)
Definition prepareInsertValues (result : JsObj) : list JsValue :=
  let f := get result in
  let md := get_opt (f "metadata") in
  [ f "remoteJid";
    VStr nowISO;
    truncateString (or_else (f "product_category") (VStr "No Product Mentioned")) 200;
    toJsonb (or_else (f "specific_products") (VArr []));
    toJsonb (or_else (f "product_models") (VArr []));
    toInteger (f "quantity_mentioned");
    or_else (truncateString (f "primary_sales_agent") 255) VNull;
    toJsonb (or_else (f "additional_agents") (VArr []));
    toBoolean (f "agent_handoff_detected");
    truncateString (or_else (f "lead_stage") (VStr "Inquiry")) 100;
    or_else (f "next_action_required") VNull;
    or_else (truncateString (f "sales_status") 200) VNull;
    toJsonb (or_else (f "customer_objections") (VArr []));
    truncateString (or_else (f "urgency_level") (VStr "Low")) 20;
    or_else (truncateString (f "customer_name") 255) VNull;
    or_else (truncateString (f "customer_location") 255) VNull;
    or_else (truncateString (f "budget_range") 200) VNull;
    or_else (truncateString (f "purchase_timeline") 200) VNull;
    or_else (truncateString (f "decision_maker_status") 200) VNull;
    toJsonb (or_else (f "product_specifications") VNull);
    toJsonb (or_else (f "accessories_discussed") (VArr []));
    or_else (f "warranty_service_needs") VNull;
    toJsonb (or_else (f "color_preferences") (VArr []));
    or_else (truncateString (f "lead_source") 200) VNull;
    toJsonb (or_else (f "competitive_products") (VArr []));
    toJsonb (or_else (f "upsell_opportunities") (VArr []));
    truncateString (or_else (f "customer_sentiment") (VStr "Neutral")) 50;
    toJsonb (or_else (f "pain_points_identified") (VArr []));
    toBoolean (f "pricing_discussed");
    toBoolean (f "demo_scheduled");
    toBoolean (not_false (f "follow_up_required"));
    or_else (toInteger (md "totalMessages")) (VNum 0);
    or_else (toInteger (md "conversationDurationDays")) (VNum 0);
    or_else (md "lastCustomerMessageTime") VNull;
    parseFloat (or_else (or_else (f "analysisConfidence") (f "analysis_confidence"))
                        (VNum 0.5));
    or_else (or_else (f "aiModelUsed") (f "ai_model_used")) (VStr "gpt-3.5-turbo");
    or_else (toInteger (or_else (f "processingTimeMs") (f "processing_time_ms")))
            (VNum 0) ].

Section Client.

(** The database behind the pool, [getClient()] and [client.query]. *)
Variable DB : Type.
Variable getClient : DB -> DB * Completion unit.
Variable query : Stmt -> DB -> DB * Completion unit.

(** A connection in use: the database and the statements sent so far, each
    with whether it completed. *)
Definition Conn : Type := DB * list (Stmt * bool).

(** [await client.query(stmt)] *)
Definition send (stmt : Stmt) (c : Conn) : Conn * Completion unit :=
  let '(db', r) := query stmt (fst c) in ((db', snd c ++ [(stmt, completed r)]), r).

(** The local variables of the insertion loop. *)
Record Counters : Type := mkCounters {
  successCount : nat;
  errorCount : nat;
  errs : list JsObj
}.

(** The entry pushed on [errors] for a failed row. *)
Definition rowError (result : JsObj) (e : JsError) : JsObj :=
  list_to_map [
    ("remoteJid", get result "remoteJid");
    ("error", VStr (message e));
    ("code", code e) ].

Definition tooManyErrors : JsError :=
  mkError "Too many insertion errors" VUndefined VUndefined.

(** [for (let i = 0; i < analysisResults.length; i++) { try {...} catch {...} }] *)
Fixpoint insertLoop (rows : list JsObj) (k : Counters) (c : Conn)
  : Conn * Completion Counters :=
  match rows with
  | [] => (c, Normal k)
  | result :: rest =>
      let values := prepareInsertValues result in
      let '(c', r) := send (SInsertReport values) c in
      match r with
      | Normal _ =>
          insertLoop rest
            (mkCounters (Datatypes.S (successCount k)) (errorCount k) (errs k)) c'
      | Throw e =>
          let k' := mkCounters (successCount k) (Datatypes.S (errorCount k))
                      (errs k ++ [rowError result e]) in
          if (50 <? errorCount k')%nat then (c', Throw tooManyErrors)
          else insertLoop rest k' c'
      end
  end.

(** The body of the outer [try]: BEGIN, the loop, COMMIT. *)
Definition transaction (analysisResults : list JsObj) (c : Conn)
  : Conn * Completion BulkResult :=
  let '(c1, r1) := send SBegin c in
  match r1 with
  | Throw e => (c1, Throw e)
  | Normal _ =>
      let '(c2, r2) := insertLoop analysisResults (mkCounters 0 0 []) c1 in
      match r2 with
      | Throw e => (c2, Throw e)
      | Normal k =>
          let '(c3, r3) := send SCommit c2 in
          match r3 with
          | Throw e => (c3, Throw e)
          | Normal _ => (c3, Normal (mkResult (successCount k) (errorCount k) (errs k)))
          end
      end
  end.

(** [bulkInsertAnalysisResults(analysisResults)]: the connection state
    it leaves and its completion. *)
Definition bulkInsertAnalysisResults (analysisResults : list JsObj) (db : DB)
  : Conn * Completion BulkResult :=
  if (length analysisResults =? 0)%nat then ((db, []), Normal (mkResult 0 0 []))
  else
    let '(db0, r0) := getClient db in
    match r0 with
    | Throw e => ((db0, []), Throw e)
    | Normal _ =>
        let '(c, r) := transaction analysisResults (db0, []) in
        match r with
        | Normal res => (c, Normal res)
        | Throw e =>
            let '(c', rb) := send SRollback c in
            match rb with
            | Throw e' => (c', Throw e')
            | Normal _ =>
                (c', Normal (mkResult 0 (length analysisResults)
                               [ {[ "error" := VStr (message e) ]} ]))
            end
        end
    end.

End Client.
End Prepare.
End DatabaseService.

(** ** services/chatService.js *)

Module ChatService.

(** A row of ["ConversationCache"] as [getCachedConversations] selects it. *)
Record CacheRow : Type := mkRow {
  row_remoteJid : string;
  conversation_text : JsValue;
  total_messages : JsValue;
  conversation_duration_days : JsValue;
  last_customer_message_time : JsValue;
  row_chat_name : JsValue;
  processed_at : JsValue
}.

(** A value of the [Map] returned by [getCachedConversations]. *)
Record Cached : Type := mkCached {
  cached_conversation : JsValue;
  cached_metadata : JsValue;
  cached_chatName : JsValue;
  cachedAt : JsValue
}.

(** A row of [getUnanalyzedChats]. *)
Record Chat : Type := mkChat {
  chat_id : string;
  chat_name : JsValue
}.

(** A row of [getMessagesForChat]. *)
Record Message : Type := mkMessage {
  messageType : JsValue;
  from_me : JsValue;
  text_content : JsValue;
  sent_at : JsValue
}.

(** The [Map] entry built from a cache row. *)
Definition cachedOfRow (row : CacheRow) : Cached :=
  mkCached (conversation_text row)
    (VObj (list_to_map [
       ("totalMessages", total_messages row);
       ("conversationDurationDays", conversation_duration_days row);
       ("lastCustomerMessageTime", last_customer_message_time row) ]))
    (row_chat_name row) (processed_at row).

Section Reads.

(** [query(queryText, [remoteJids])] on ["ConversationCache"]. *)
Variable selectCache : list string -> Completion (list CacheRow).

(** [getCachedConversations(remoteJids)] *)
Definition getCachedConversations (remoteJids : list string)
  : Completion (gmap string Cached) :=
  if (length remoteJids =? 0)%nat then Normal ∅
  else
    try_catch
      (bind (selectCache remoteJids) (fun rows =>
         Normal (fold_left (fun cacheMap row =>
                              <[row_remoteJid row := cachedOfRow row]> cacheMap)
                           rows ∅)))
      (fun _ => Normal ∅).

End Reads.

(** [conv.conversation && conv.conversation.trim() !== ''] *)
Definition hasText (v : JsValue) : Completion bool :=
  match v with
  | VStr s => Normal (truthy v && negb (String.eqb (trim s) ""))
  | _ => if truthy v
         then Throw (mkError "conversation.trim is not a function" VUndefined VUndefined)
         else Normal false
  end.

(** The parameter array of the cache upsert for one conversation. *)
Definition cacheValues (conv : ConvData) : list JsValue :=
  [ VStr (remoteJid conv);
    conversation conv;
    or_else (get_opt (metadata conv) "totalMessages") (VNum 0);
    or_else (get_opt (metadata conv) "conversationDurationDays") (VNum 0);
    or_else (get_opt (metadata conv) "lastCustomerMessageTime") VNull;
    or_else (chatName conv) VNull ].

Section Writes.

Variable DB : Type.
Variable getClient : DB -> DB * Completion unit.
Variable query : Stmt -> DB -> DB * Completion unit.

(** [for (const conv of conversations) { if (...) await client.query(...) }] *)
Fixpoint cacheLoop (conversations : list ConvData) (db : DB) : DB * Completion unit :=
  match conversations with
  | [] => (db, Normal tt)
  | conv :: rest =>
      match hasText (conversation conv) with
      | Throw e => (db, Throw e)
      | Normal false => cacheLoop rest db
      | Normal true =>
          let '(db', r) := query (SInsertCache (cacheValues conv)) db in
          match r with
          | Throw e => (db', Throw e)
          | Normal _ => cacheLoop rest db'
          end
      end
  end.

(** The body of the [try]: BEGIN, the loop, COMMIT. *)
Definition cacheTransaction (conversations : list ConvData) (db : DB)
  : DB * Completion unit :=
  let '(db1, r1) := query SBegin db in
  match r1 with
  | Throw e => (db1, Throw e)
  | Normal _ =>
      let '(db2, r2) := cacheLoop conversations db1 in
      match r2 with
      | Throw e => (db2, Throw e)
      | Normal _ => query SCommit db2
      end
  end.

(** [saveConversationsToCache(conversations)] *)
Definition saveConversationsToCache (conversations : list ConvData) (db : DB)
  : DB * Completion unit :=
  if (length conversations =? 0)%nat then (db, Normal tt)
  else
    let '(db0, r0) := getClient db in
    match r0 with
    | Throw e => (db0, Throw e)
    | Normal _ =>
        let '(db1, r1) := cacheTransaction conversations db0 in
        match r1 with
        | Normal _ => (db1, Normal tt)
        | Throw _ => query SRollback db1
        end
    end.

End Writes.

Section Render.

(** Built-ins: [new Date(x).toLocaleString()] and [s.toUpperCase()]. *)
Variable toLocaleString : JsValue -> string.
Variable toUpperCase : string -> string.

(** [messages.slice(-maxMessages)] *)
Definition lastN {A} (n : nat) (l : list A) : list A := skipn (length l - n) l.

(** The text of one message, or the [TypeError] of [toUpperCase] on a
    message type that is not a string. *)
Definition messageText (m : Message) : Completion JsValue :=
  if is_str (messageType m) "conversation" then Normal (text_content m)
  else match messageType m with
       | VStr t => Normal (VStr ("[" ++ toUpperCase t ++ "]"))
       | _ => Throw (mkError "messageType.toUpperCase is not a function"
                       VUndefined VUndefined)
       end.

(** The line appended to [fullConversation] for a message with text. *)
Definition renderLine (m : Message) (text : string) : string :=
  "[" ++ toLocaleString (sent_at m) ++ "] "
    ++ (if is_str (from_me m) "true" then "Sales Agent" else "Customer")
    ++ ": " ++ text ++ "
".

(** [for (const message of recentMessages) { ... }] *)
Fixpoint renderLoop (recent : list Message) (fullConversation : string)
  : Completion string :=
  match recent with
  | [] => Normal fullConversation
  | m :: rest =>
      bind (messageText m) (fun text =>
        bind (hasText text) (fun keep =>
          match keep, text with
          | true, VStr t => renderLoop rest (fullConversation ++ renderLine m t)
          | _, _ => renderLoop rest fullConversation
          end))
  end.

(** [buildConversationString(messages, maxMessages = 200)] *)
Definition buildConversationString (messages : list Message) (maxMessages : nat)
  : Completion string :=
  if (length messages =? 0)%nat then Normal ""
  else renderLoop (lastN maxMessages messages) "".

(** [Math.ceil((new Date(b) - new Date(a)) / (1000 * 60 * 60 * 24))] on the
    [Date] values of the rows. *)
Definition daysBetween (a b : JsValue) : JsValue :=
  match a, b with
  | VDate ta, VDate tb => VNum (inject_Z (- ((- (tb - ta)) / 86400000)))
  | _, _ => VNaN
  end.

(** [getConversationMetadata(messages)] *)
Definition getConversationMetadata (messages : list Message) : JsValue :=
  match messages with
  | [] =>
      VObj (list_to_map [
        ("totalMessages", VNum 0);
        ("conversationDurationDays", VNum 0);
        ("lastCustomerMessageTime", VNull) ])
  | firstMessage :: _ =>
      let customerMessages :=
        List.filter (fun m => negb (is_str (from_me m) "true")) messages in
      let lastMessage := List.last messages firstMessage in
      let duration :=
        if truthy (sent_at lastMessage) && truthy (sent_at firstMessage)
        then daysBetween (sent_at firstMessage) (sent_at lastMessage)
        else VNum 0 in
      VObj (list_to_map [
        ("totalMessages", VNum (inject_Z (Z.of_nat (length messages))));
        ("conversationDurationDays", duration);
        ("lastCustomerMessageTime",
           match List.last (map Some customerMessages) None with
           | Some lastCustomerMessage => sent_at lastCustomerMessage
           | None => VNull
           end) ])
  end.

Section Batch.

Variable selectCache : list string -> Completion (list CacheRow).
(** [getMessagesForChat(remoteJid)] *)
Variable getMessagesForChat : string -> Completion (list Message).
Variable DB : Type.
Variable getClient : DB -> DB * Completion unit.
Variable query : Stmt -> DB -> DB * Completion unit.

(** The entry built for a chat found in the cache. *)
Definition cachedResult (chat : Chat) (cached : Cached) : ConvData :=
  mkConv (chat_id chat) (or_else (cached_chatName cached) (chat_name chat))
    (cached_conversation cached) (cached_metadata cached) true true VUndefined.

(** The body of [batch.map(async (chat) => ...)] for one chat. *)
Definition processChat (chat : Chat) : ConvData :=
  match
    bind (getMessagesForChat (chat_id chat)) (fun messages =>
      bind (buildConversationString messages 200) (fun conversation =>
        Normal (mkConv (chat_id chat) (chat_name chat) (VStr conversation)
                  (getConversationMetadata messages)
                  (0 <? length messages)%nat false VUndefined)))
  with
  | Normal result => result
  | Throw e =>
      mkConv (chat_id chat) VUndefined VUndefined VUndefined false false
        (VStr (message e))
  end.

(** The chunk loop over [chatsToProcess]: the results pushed and the
    conversations collected for caching. *)
Fixpoint chunkLoop (fuel : nat) (batchSize : nat) (chatsToProcess : list Chat)
    (i : nat) (results newConversations : list ConvData)
  : option (list ConvData * list ConvData) :=
  if (length chatsToProcess <=? i)%nat then Some (results, newConversations)
  else match fuel with
       | O => None
       | Datatypes.S fuel' =>
           let batch := firstn batchSize (skipn i chatsToProcess) in
           let batchResults := map processChat batch in
           chunkLoop fuel' batchSize chatsToProcess (i + batchSize)
             (results ++ batchResults)
             (newConversations ++ List.filter (fun r => hasMessages r) batchResults)
       end.

(** [processChatsBatch(chats, batchSize = 8)] *)
Definition processChatsBatch (fuel : nat) (chats : list Chat) (batchSize : nat)
    (db : DB) : option (DB * Completion (list ConvData)) :=
  let allChatIds := map chat_id chats in
  match getCachedConversations selectCache allChatIds with
  | Throw e => Some (db, Throw e)
  | Normal cachedConversations =>
      let cachedResults :=
        omap (fun chat => cachedResult chat <$> cachedConversations !! chat_id chat)
             chats in
      let chatsToProcess :=
        List.filter (fun chat => bool_decide (cachedConversations !! chat_id chat = None))
                    chats in
      '(results, newConversations) ←
         chunkLoop fuel batchSize chatsToProcess 0 cachedResults [];
      if (0 <? length newConversations)%nat then
        let '(db', r) := saveConversationsToCache DB getClient query newConversations db in
        Some (db', bind r (fun _ => Normal results))
      else Some (db, Normal results)
  end.

End Batch.
End Render.
End ChatService.

(** ** src/index.js *)

Module Index.

(** The statistics [runAnalysis] computes and returns. *)
Record Report : Type := mkReport {
  run_success : bool;
  totalAnalysisAttempts : nat;
  successfulAnalyses : nat;
  quotaFailures : nat;
  analysisResultsStored : nat;
  incrementalSaves : nat
}.

Section Run.

Variable OPENAI_MODEL : JsValue.
Variable systemPrompt : string.
Variable openai : AIAnalyzer.Request -> AIAnalyzer.Reply.
Variable elapsed : AIAnalyzer.Request -> Z.
Variable JSON_stringify : JsValue -> string.
Variable parseInt : JsValue -> JsValue.
Variable parseFloat : JsValue -> JsValue.
Variable nowISO : string.
Variable toLocaleString : JsValue -> string.
Variable toUpperCase : string -> string.
Variable DB : Type.
Variable getClient : DB -> DB * Completion unit.
Variable query : Stmt -> DB -> DB * Completion unit.
(** The reads: [getUnanalyzedChats()], the cache, the messages of a chat
    and [getAnalysisStats()]. *)
Variable getUnanalyzedChats : Completion (list ChatService.Chat).
Variable selectCache : list string -> Completion (list ChatService.CacheRow).
Variable getMessagesForChat : string -> Completion (list ChatService.Message).
Variable getAnalysisStats : Completion JsValue.
(** [this.config.concurrentChats] *)
Variable concurrentChats : nat.

(** [this.config.aiConcurrency] *)
Definition aiConcurrency : nat := 5.

(** The variables captured by [incrementalSaveCallback], with the
    database it writes to and the statements it has sent. *)
Record Saver : Type := mkSaver {
  totalSaved : nat;
  saveAttempts : nat;
  database : DB;
  statements : list (Stmt * bool)
}.

(** [incrementalSaveCallback(successfulBatch)] *)
Definition incrementalSaveCallback (successfulBatch : list JsObj) (s : Saver)
  : Saver * Completion unit :=
  let '((db', sent), r) :=
    DatabaseService.bulkInsertAnalysisResults JSON_stringify parseInt parseFloat
      nowISO DB getClient query successfulBatch (database s) in
  match r with
  | Normal result =>
      (mkSaver (totalSaved s + DatabaseService.success result)
         (Datatypes.S (saveAttempts s)) db' (statements s ++ sent),
       Normal tt)
  | Throw e =>
      (mkSaver (totalSaved s) (Datatypes.S (saveAttempts s)) db' (statements s ++ sent),
       Throw e)
  end.

(** The final statistics over [analysisResults]. *)
Definition statistics (analysisResults : list JsObj) (s : Saver) : Report :=
  let successful := List.filter AIAnalyzer.analysisSuccess analysisResults in
  let quota := List.filter AIAnalyzer.isQuotaError analysisResults in
  mkReport
    (negb ((totalSaved s =? 0)%nat && (length successful =? 0)%nat))
    (length analysisResults) (length successful) (length quota)
    (totalSaved s) (saveAttempts s).

(** [runAnalysis()]: the database it leaves and its completion
    ([None] inside is [return;]); the outer [None] is a loop that does not
    finish within [fuel] iterations. *)
Definition runAnalysis (fuel : nat) (db : DB)
  : option (DB * Completion (option Report)) :=
  match getUnanalyzedChats with
  | Throw e => Some (db, Throw e)
  | Normal unanalyzedChats =>
      if (length unanalyzedChats =? 0)%nat then Some (db, Normal None)
      else
        '(db1, r) ← ChatService.processChatsBatch toLocaleString toUpperCase
                      selectCache getMessagesForChat DB getClient query
                      fuel unanalyzedChats concurrentChats db;
        match r with
        | Throw e => Some (db1, Throw e)
        | Normal conversationData =>
            let validConversations :=
              List.filter (fun data => negb (truthy (error data))) conversationData in
            if (length validConversations =? 0)%nat then Some (db1, Normal None)
            else
              st ← AIAnalyzer.analyzeConversationsBatch OPENAI_MODEL systemPrompt
                     openai elapsed Saver validConversations aiConcurrency
                     (Some incrementalSaveCallback) fuel (mkSaver 0 0 db1 []);
              let s := AIAnalyzer.saver Saver st in
              let report := statistics (AIAnalyzer.results Saver st) s in
              if run_success report then
                Some (database s,
                      bind getAnalysisStats (fun _ => Normal (Some report)))
              else Some (database s, Normal (Some report))
        end
  end.

End Run.
End Index.

(** ** A model of the PostgreSQL server

    The two tables keyed by ["remoteJid"], one open transaction, the
    "current transaction is aborted" state after a failed statement, and a
    schedule of connection faults (the next statement fails when the head of
    [faults] is [true]). *)

Module Postgres.

Record Tables : Type := mkTables {
  conversationCache : gmap string ChatService.CacheRow;
  salesAnalysisReport : gmap string (list JsValue)
}.

Record State : Type := mkState {
  tables : Tables;
  txn : option Tables;
  aborted : bool;
  clock : Z;
  faults : list bool
}.

Definition connectionError : JsError :=
  mkError "Connection terminated" VUndefined VUndefined.
Definition abortedError : JsError :=
  mkError "current transaction is aborted, commands ignored until end of transaction block"
    (VStr "25P02") VUndefined.
Definition notNullError : JsError :=
  mkError "null value in column remoteJid violates not-null constraint"
    (VStr "23502") VUndefined.
Definition numericOverflow : JsError :=
  mkError "numeric field overflow" (VStr "22003") VUndefined.

(** The tables a statement sees. *)
Definition current (st : State) : Tables := default (tables st) (txn st).

(** Store the tables a statement has written. *)
Definition store (t : Tables) (st : State) (fs : list bool) : State :=
  match txn st with
  | Some _ => mkState (tables st) (Some t) false (clock st) fs
  | None => mkState t None false (clock st) fs
  end.

(** A failed statement: inside a transaction it aborts the transaction. *)
Definition fail (e : JsError) (st : State) (fs : list bool) : State * Completion unit :=
  (mkState (tables st) (txn st) (bool_decide (is_Some (txn st))) (clock st) fs, Throw e).

(** [INSERT INTO "ConversationCache" ... ON CONFLICT ("remoteJid") DO UPDATE],
    with [processed_at = NOW()]; the key is NOT NULL. *)
Definition upsertCache (now : Z) (values : list JsValue) (t : Tables)
  : Tables + JsError :=
  match values with
  | [VStr k; text; total; days; last; name] =>
      inl (mkTables
             (<[k := ChatService.mkRow k text total days last name (VDate now)]>
                (conversationCache t))
             (salesAnalysisReport t))
  | _ => inr notNullError
  end.

(** A number that does not fit [analysis_confidence DECIMAL(3,2)]. *)
Definition overflows (v : JsValue) : bool :=
  match v with
  | VNum q => Qle_bool 9.995 (Qabs q)
  | _ => false
  end.

(** [INSERT INTO "SalesAnalysisReport" ... ON CONFLICT ("remoteJid") DO UPDATE];
    the key is NOT NULL and the confidence, parameter 35, is DECIMAL(3,2). *)
Definition upsertReport (values : list JsValue) (t : Tables) : Tables + JsError :=
  match values with
  | VStr k :: _ =>
      if overflows (nth 34 values VNull) then inr numericOverflow
      else inl (mkTables (conversationCache t) (<[k := values]> (salesAnalysisReport t)))
  | _ => inr notNullError
  end.

(** An upsert statement. *)
Definition write (upsert : list JsValue -> Tables -> Tables + JsError)
    (values : list JsValue) (st : State) (fs : list bool) : State * Completion unit :=
  if aborted st then fail abortedError st fs
  else match upsert values (current st) with
       | inl t => (store t st fs, Normal tt)
       | inr e => fail e st fs
       end.

(** [client.query(stmt)] *)
Definition query (stmt : Stmt) (st : State) : State * Completion unit :=
  match faults st with
  | true :: fs => fail connectionError st fs
  | fs0 =>
      let fs := tail fs0 in
      match stmt with
      | SBegin =>
          (mkState (tables st) (Some (current st)) (aborted st) (clock st) fs, Normal tt)
      | SCommit =>
          (mkState (if aborted st then tables st else current st) None false (clock st) fs,
           Normal tt)
      | SRollback => (mkState (tables st) None false (clock st) fs, Normal tt)
      | SInsertCache values => write (upsertCache (clock st)) values st fs
      | SInsertReport values => write upsertReport values st fs
      end
  end.

(** [pool.connect()] *)
Definition getClient (st : State) : State * Completion unit :=
  match faults st with
  | true :: fs =>
      (mkState (tables st) (txn st) (aborted st) (clock st) fs, Throw connectionError)
  | fs0 => (mkState (tables st) (txn st) (aborted st) (clock st) (tail fs0), Normal tt)
  end.

(** An idle server holding tables [t] at time [now], with the connection
    faults [fs] ahead of it. *)
Definition idle (t : Tables) (now : Z) (fs : list bool) : State :=
  mkState t None false now fs.

Definition noTables : Tables := mkTables ∅ ∅.

End Postgres.

(** ** Concrete inputs

    Data and stand-ins for the runtime's built-ins, used to run the
    definitions above on concrete inputs. *)

Module Sample.

(** The error of the OpenAI client when the account is out of quota. *)
Definition quotaError : JsError :=
  mkError "You exceeded your current quota" (VStr "insufficient_quota") (VNum 429).

Definition outOfQuota : AIAnalyzer.Request -> AIAnalyzer.Reply :=
  fun _ => AIAnalyzer.ApiError quotaError.

Definition latency : AIAnalyzer.Request -> Z := fun _ => 120%Z.

(** A conversation with one customer message. *)
Definition chatOf (jid : string) : ConvData :=
  mkConv jid (VStr "Ann") (VStr "[1/2/2025, 10:00:00 AM] Customer: price of iPhone 15?
") (VObj ∅) true false VUndefined.

Definition chatA : ConvData := chatOf "923001234567@s.whatsapp.net".

Definition jidA : string := "923001234567@s.whatsapp.net".

(** A classifier that scores its answer 5, and one that gives no score. *)
Definition overconfident : AIAnalyzer.Request -> AIAnalyzer.Reply :=
  fun _ => AIAnalyzer.Content
             {[ "product_category" := VStr "Phones"; "analysis_confidence" := VNum 5 ]}.
Definition unscored : AIAnalyzer.Request -> AIAnalyzer.Reply :=
  fun _ => AIAnalyzer.Content {[ "product_category" := VStr "Phones" ]}.

(** Stand-ins for [JSON.stringify], [parseInt], [parseFloat], the clock and
    the string built-ins, on the values of the examples. *)
Definition JSON_stringify (v : JsValue) : string :=
  match v with
  | VArr [] => "[]"
  | VObj _ => "{}"
  | _ => "null"
  end.
Definition parseInt (v : JsValue) : JsValue :=
  match v with
  | VNum q => VNum (inject_Z (Z.quot (Qnum q) (Zpos (Qden q))))
  | _ => VNaN
  end.
Definition parseFloat (v : JsValue) : JsValue :=
  match v with
  | VNum _ => v
  | _ => VNaN
  end.
Definition nowISO : string := "2025-02-01T10:00:00.000Z".
Definition toLocaleString (v : JsValue) : string := "1/2/2025, 10:00:00 AM".
Definition toUpperCase (s : string) : string := s.

(** One unanalyzed chat with one customer message, nothing cached. *)
Definition unanalyzed : Completion (list ChatService.Chat) :=
  Normal [ChatService.mkChat jidA (VStr "Ann")].
Definition noCache : list string -> Completion (list ChatService.CacheRow) :=
  fun _ => Normal [].
Definition messagesOf : string -> Completion (list ChatService.Message) :=
  fun _ => Normal [ChatService.mkMessage (VStr "conversation") (VStr "false")
                     (VStr "price of iPhone 15?") (VDate 1738404000000)].
Definition stats : Completion JsValue := Normal (VObj ∅).

(** A whole run of [runAnalysis] against an empty, healthy server. *)
Definition run (openai : AIAnalyzer.Request -> AIAnalyzer.Reply)
  : option (Postgres.State * Completion (option Index.Report)) :=
  Index.runAnalysis VUndefined "" openai latency JSON_stringify parseInt parseFloat
    nowISO toLocaleString toUpperCase Postgres.State Postgres.getClient Postgres.query
    unanalyzed noCache messagesOf stats 8 1 (Postgres.idle Postgres.noTables 0 []).

(** A cache store whose query fails. *)
Definition cacheDown : list string -> Completion (list ChatService.CacheRow) :=
  fun _ => Throw Postgres.connectionError.

(** Distinct chat identifiers and [n] conversations for them. *)
Definition jidOf (n : nat) : string := String (ascii_of_nat (65 + n)) "@s.whatsapp.net".
Definition chats (n : nat) : list ConvData := map (fun k => chatOf (jidOf k)) (seq 0 n).

(** The save callback of [runAnalysis] writing to the model server. *)
Definition saveToPostgres
  : list JsObj -> Index.Saver Postgres.State
    -> Index.Saver Postgres.State * Completion unit :=
  Index.incrementalSaveCallback JSON_stringify parseInt parseFloat nowISO
    Postgres.State Postgres.getClient Postgres.query.
Definition saver0 (fs : list bool) : Index.Saver Postgres.State :=
  Index.mkSaver Postgres.State 0 0 (Postgres.idle Postgres.noTables 0 fs) [].

(** The analysis of [n] conversations in chunks of one, against a server
    with the connection faults [fs]: the whole call, and its loop alone. *)
Definition analyze (n : nat) (fs : list bool)
  : option (AIAnalyzer.BatchState (Index.Saver Postgres.State)) :=
  AIAnalyzer.analyzeConversationsBatch VUndefined "" unscored latency
    (Index.Saver Postgres.State) (chats n) 1 (Some saveToPostgres) n (saver0 fs).
Definition loopOnly (n : nat) (fs : list bool)
  : option (AIAnalyzer.BatchState (Index.Saver Postgres.State)) :=
  AIAnalyzer.batchLoop VUndefined "" unscored latency
    (Index.Saver Postgres.State) (chats n) 1 (Some saveToPostgres) n 0
    (AIAnalyzer.mkBatch _ [] [] 0 (saver0 fs) [] []).

(** Rows for the bulk insert: a row for a chat, and a row whose confidence
    the classifier gave as a percentage, which the table rejects (the column
    is DECIMAL(3,2)). *)
Definition reportRow (jid : string) : JsObj :=
  {[ "remoteJid" := VStr jid; "product_category" := VStr "Phones";
     "analysisConfidence" := VNum 0.9 ]}.
Definition percentRow : JsObj :=
  {[ "remoteJid" := VStr "c@s.whatsapp.net"; "product_category" := VStr "Phones";
     "analysisConfidence" := VNum 85 ]}.
Definition insertOf (row : JsObj) : Stmt :=
  SInsertReport (DatabaseService.prepareInsertValues JSON_stringify parseInt parseFloat
                   nowISO row).

(** [bulkInsertAnalysisResults] against an empty server with the connection
    faults [fs]. *)
Definition bulk (rows : list JsObj) (fs : list bool)
  : DatabaseService.Conn Postgres.State * Completion DatabaseService.BulkResult :=
  DatabaseService.bulkInsertAnalysisResults JSON_stringify parseInt parseFloat nowISO
    Postgres.State Postgres.getClient Postgres.query rows
    (Postgres.idle Postgres.noTables 0 fs).

(** A conversation whose rendered transcript is blank. *)
Definition blankChat : ConvData :=
  mkConv "923009999999@s.whatsapp.net" (VStr "Bob") (VStr "  ") (VObj ∅) true false
    VUndefined.

End Sample.

(** ** Vocabulary of the properties *)

(** A confidence score in [0,1]. *)
Definition inUnitInterval (v : JsValue) : bool :=
  match v with
  | VNum q => Qle_bool 0 q && Qle_bool q 1
  | _ => false
  end.

(** The [analysisConfidence] of the result of a call. *)
Definition confidenceOf (c : Completion JsObj) : JsValue :=
  match c with
  | Normal r => get r "analysisConfidence"
  | Throw _ => VUndefined
  end.

(** The results handed to the save callback in one flush. *)
Definition flushed (e : AIAnalyzer.FlushEvent) : list JsObj :=
  match e with
  | AIAnalyzer.SaveCompleted l => l
  | AIAnalyzer.SaveFailed l _ => l
  end.

(** Whether a flush completed, and how many results it carried. *)
Definition flushSummary (e : AIAnalyzer.FlushEvent) : bool * nat :=
  match e with
  | AIAnalyzer.SaveCompleted l => (true, length l)
  | AIAnalyzer.SaveFailed l _ => (false, length l)
  end.

(** Everything handed to the save callback so far. *)
Definition handed {S : Type} (st : AIAnalyzer.BatchState S) : list JsObj :=
  concat (map flushed (AIAnalyzer.flushes S st)).

(** Loop invariant of [analyzeConversationsBatch]: the successful results
    are those already handed to the callback followed by those still in the
    accumulator. *)
Definition accounted {S : Type} (st : AIAnalyzer.BatchState S) : Prop :=
  handed st ++ filter (fun r => AIAnalyzer.analysisSuccess r = true)
                      (AIAnalyzer.accumulatedForSave S st)
  = filter (fun r => AIAnalyzer.analysisSuccess r = true) (AIAnalyzer.results S st).

(** The marker appended by [truncateString]. *)
Definition truncationMarker : string := "...".

(** The columns [prepareInsertValues] passes through [truncateString]:
    position in the parameter array, field of the result, maximum length,
    and what an empty value is stored as (the text default of the column,
    or NULL). *)
Definition truncatedColumns : list (nat * string * Z * JsValue) :=
  [ (2%nat, "product_category", 200%Z, VStr "No Product Mentioned");
    (6%nat, "primary_sales_agent", 255%Z, VNull);
    (9%nat, "lead_stage", 100%Z, VStr "Inquiry");
    (11%nat, "sales_status", 200%Z, VNull);
    (13%nat, "urgency_level", 20%Z, VStr "Low");
    (14%nat, "customer_name", 255%Z, VNull);
    (15%nat, "customer_location", 255%Z, VNull);
    (16%nat, "budget_range", 200%Z, VNull);
    (17%nat, "purchase_timeline", 200%Z, VNull);
    (18%nat, "decision_maker_status", 200%Z, VNull);
    (23%nat, "lead_source", 200%Z, VNull);
    (26%nat, "customer_sentiment", 50%Z, VStr "Neutral") ].

(** How a field holding the string [s] is stored in a column of maximum
    length [L]: truncated to exactly [L] characters ending in the marker
    when longer, unchanged when not empty and within [L], and as [dflt] when
    empty. *)
Definition storedAs (stored : JsValue) (s : string) (L : Z) (dflt : JsValue) : Prop :=
  ((L < Z.of_nat (String.length s))%Z ->
     exists t, stored = VStr (t ++ truncationMarker)
               /\ Z.of_nat (String.length (t ++ truncationMarker)) = L
               /\ t = substring 0 (String.length t) s)
  /\ (s <> "" -> (Z.of_nat (String.length s) <= L)%Z -> stored = VStr s)
  /\ (s = "" -> stored = dflt).

(** The upsert statements of a log, those that completed and those that
    were rejected. *)
Definition isInsert (s : Stmt) : bool :=
  match s with
  | SInsertCache _ | SInsertReport _ => true
  | _ => false
  end.
Definition completedInserts (log : list (Stmt * bool)) : nat :=
  length (List.filter (fun x => isInsert (fst x) && snd x) log).
Definition rejectedInserts (log : list (Stmt * bool)) : nat :=
  length (List.filter (fun x => isInsert (fst x) && negb (snd x)) log).

(** A statement the server rejects in every state. *)
Definition rejected {DB : Type} (query : Stmt -> DB -> DB * Completion unit)
    (stmt : Stmt) : Prop :=
  forall db, exists e, snd (query stmt db) = Throw e.

(** A cache row stored under its own identifier whose transcript is a
    string that is neither empty nor all white space. *)
Definition rowHasText (k : string) (row : ChatService.CacheRow) : Prop :=
  ChatService.row_remoteJid row = k
  /\ exists s, ChatService.conversation_text row = VStr s /\ all_space s = false.

Definition cacheHasText (t : Postgres.Tables) : Prop :=
  map_Forall rowHasText (Postgres.conversationCache t).

(** One call of [saveConversationsToCache] on a fresh connection: the
    committed tables it leaves, given the tables before, the conversations,
    the server's clock and the connection faults ahead. *)
Definition cacheWrite (t : Postgres.Tables) (w : list ConvData * Z * list bool)
  : Postgres.Tables :=
  Postgres.tables
    (fst (ChatService.saveConversationsToCache Postgres.State Postgres.getClient
            Postgres.query (fst (fst w)) (Postgres.idle t (snd (fst w)) (snd w)))).

(** The cache after a sequence of writes, from empty tables. *)
Definition afterWrites (ws : list (list ConvData * Z * list bool)) : Postgres.Tables :=
  fold_left cacheWrite ws Postgres.noTables.

(** Server states whose committed and pending cache rows all have text. *)
Definition goodState (st : Postgres.State) : Prop :=
  cacheHasText (Postgres.tables st)
  /\ forall t, Postgres.txn st = Some t -> cacheHasText t.

(** The row written for a conversation at time [now]. *)
Definition rowOf (now : Z) (conv : ConvData) : ChatService.CacheRow :=
  ChatService.mkRow (remoteJid conv) (conversation conv)
    (or_else (get_opt (metadata conv) "totalMessages") (VNum 0))
    (or_else (get_opt (metadata conv) "conversationDurationDays") (VNum 0))
    (or_else (get_opt (metadata conv) "lastCustomerMessageTime") VNull)
    (or_else (chatName conv) VNull) (VDate now).

(** The upserts of a list of conversations, in order. *)
Definition upserts (now : Z) (convs : list ConvData)
    (cache : gmap string ChatService.CacheRow) : gmap string ChatService.CacheRow :=
  fold_left (fun m conv => <[remoteJid conv := rowOf now conv]> m) convs cache.

(** The conversations the cache loop writes, and whether it meets one whose
    transcript is not a string. *)
Definition kept (convs : list ConvData) : list ConvData :=
  List.filter (fun conv => match ChatService.hasText (conversation conv) with
                           | Normal true => true
                           | _ => false
                           end) convs.
Definition anyTypeError (convs : list ConvData) : bool :=
  existsb (fun conv => negb (completed (ChatService.hasText (conversation conv)))) convs.


(** ** Vocabulary of the bulk insert on the server *)

(** What a call that ends in ROLLBACK returns after the failure [e]: the
    single-error result when the rollback completes, and the rollback's own
    error when it does not. *)
Definition rollbackOutcome (rows : list JsObj) (e : JsError) (ok : bool)
    (r : Completion DatabaseService.BulkResult) : Prop :=
  if ok
  then r = Normal (DatabaseService.mkResult 0 (length rows)
                     [ {[ "error" := VStr (message e) ]} ])
  else exists e', r = Throw e'.

(** The parameter arrays the model server rejects: a key that is not a
    string, or a confidence out of the range of DECIMAL(3,2). *)
Definition serverRejects (values : list JsValue) : bool :=
  match values with
  | VStr _ :: _ => Postgres.overflows (nth 34 values VNull)
  | _ => true
  end.

(** The report upsert of one accepted parameter array, and the tables that
    hold the upserts of a whole batch. *)
Definition reportUpsert (values : list JsValue) (t : Postgres.Tables) : Postgres.Tables :=
  match values with
  | VStr k :: _ =>
      Postgres.mkTables (Postgres.conversationCache t)
        (<[k := values]> (Postgres.salesAnalysisReport t))
  | _ => t
  end.
Definition storedAll (batch : list (list JsValue)) (t : Postgres.Tables) : Postgres.Tables :=
  fold_left (fun acc values => reportUpsert values acc) batch t.

(** A call whose every statement completed, the last one being its COMMIT. *)
Definition committedCleanly (sent : list (Stmt * bool)) : bool :=
  match sent with
  | [] => false
  | _ => forallb snd sent
  end.

(** ** Vocabulary of the cache write and of the chat batch *)

(** Statements sent one after the other on a connection, up to the first
    that fails. *)
Fixpoint runStatements {DB : Type} (query : Stmt -> DB -> DB * Completion unit)
    (stmts : list Stmt) (db : DB) : DB * Completion unit :=
  match stmts with
  | [] => (db, Normal tt)
  | stmt :: rest =>
      let '(db', r) := query stmt db in
      match r with
      | Normal _ => runStatements query rest db'
      | Throw e => (db', Throw e)
      end
  end.

(** The cache upsert of a conversation. *)
Definition cacheUpsert (conv : ConvData) : Stmt := SInsertCache (ChatService.cacheValues conv).

(** The conversations of a list stored under a given identifier. *)
Definition conversationsOf (k : string) (convs : list ConvData) : list ConvData :=
  List.filter (fun conv => String.eqb (remoteJid conv) k) convs.

(** The entries [processChatsBatch] takes from the cache map, and the chats
    it has to build. *)
Definition cachedResults (m : gmap string ChatService.Cached)
    (chats : list ChatService.Chat) : list ConvData :=
  omap (fun chat => ChatService.cachedResult chat <$> m !! ChatService.chat_id chat) chats.
Definition chatsToProcess (m : gmap string ChatService.Cached)
    (chats : list ChatService.Chat) : list ChatService.Chat :=
  List.filter (fun chat => bool_decide (m !! ChatService.chat_id chat = None)) chats.


(** ** Vocabulary of the further properties *)

(** Conversations the analyzer calls the classifier for. *)
Definition analysable (d : ConvData) : bool := negb (truthy (error d)) && hasMessages d.
Definition needsRequest (d : ConvData) : bool :=
  analysable d && match conversation d with
                  | VStr s => negb (all_space s)
                  | _ => false
                  end.

(** The request issued for a conversation, if any. *)
Definition requestOf (OPENAI_MODEL : JsValue) (systemPrompt : string) (d : ConvData)
  : option AIAnalyzer.Request :=
  match conversation d with
  | VStr s =>
      if needsRequest d
      then Some (AIAnalyzer.mkRequest (AIAnalyzer.modelUsed OPENAI_MODEL) systemPrompt
                   (AIAnalyzer.buildAnalysisPrompt s))
      else None
  | _ => None
  end.

(** What the counters of the save callback are bounded by. *)
Definition saverBound {DB : Type} (s : Index.Saver DB) (fl : list AIAnalyzer.FlushEvent) : Prop :=
  (Index.totalSaved DB s <= completedInserts (Index.statements DB s))%nat
  /\ (completedInserts (Index.statements DB s) <= length (concat (map flushed fl)))%nat
  /\ Index.saveAttempts DB s = length fl.

(** The rows of a result set that carry a given identifier. *)
Definition rowsFor (k : string) (rows : list ChatService.CacheRow)
  : list ChatService.CacheRow :=
  List.filter (fun row => String.eqb (ChatService.row_remoteJid row) k) rows.

(** A message that adds nothing to the transcript: its text is missing or
    blank. *)
Definition textless (toUpperCase : string -> string) (m : ChatService.Message) : Prop :=
  exists v, ChatService.messageText toUpperCase m = Normal v
            /\ ChatService.hasText v = Normal false.

(** A message the renderer cannot handle: its type is not a string, or it is
    a text message whose content is a truthy value that is not a string. *)
Definition malformed (toUpperCase : string -> string) (m : ChatService.Message) : Prop :=
  (exists e, ChatService.messageText toUpperCase m = Throw e)
  \/ (exists v e, ChatService.messageText toUpperCase m = Normal v
                  /\ ChatService.hasText v = Throw e).

(** The customer's messages: those not sent by the agent. *)
Definition fromCustomer (m : ChatService.Message) : bool :=
  negb (is_str (ChatService.from_me m) "true").

(** Parameter positions of [prepareInsertValues] by column type. *)
Definition booleanColumns : list (nat * string) :=
  [ (8%nat, "agent_handoff_detected"); (28%nat, "pricing_discussed");
    (29%nat, "demo_scheduled") ].
Definition jsonbColumns : list nat :=
  [3; 4; 7; 12; 19; 20; 22; 24; 25; 27]%nat.
Definition countColumns : list nat := [31; 32; 36]%nat.

Definition isBoolean (v : JsValue) : bool :=
  match v with VBool _ => true | _ => false end.
Definition isNumber (v : JsValue) : bool :=
  match v with VNum _ => true | _ => false end.
Definition isStructured (v : JsValue) : bool :=
  match v with VArr _ | VObj _ | VDate _ => true | _ => false end.

(** ** utils/logger.js *)

Module Logger.

(** The levels the methods [error], [warn], [info] and [debug] pass to
    [shouldLog]. *)
Inductive Level : Type := error | warn | info | debug.

Definition levelName (level : Level) : string :=
  match level with
  | error => "error"
  | warn => "warn"
  | info => "info"
  | debug => "debug"
  end.

(** [this.logLevels[name]]: the rank of an own property, [None] for any
    other name (the read then gives [undefined] or an inherited function,
    neither of which compares as a number). *)
Definition logLevels (name : string) : option nat :=
  if String.eqb name "error" then Some 0%nat
  else if String.eqb name "warn" then Some 1%nat
  else if String.eqb name "info" then Some 2%nat
  else if String.eqb name "debug" then Some 3%nat
  else None.

(** [shouldLog(level)] of a logger constructed with [logLevel]:
    [this.logLevels[level] <= this.logLevels[this.logLevel]], false when
    an operand is not a number. *)
Definition shouldLog (logLevel : string) (level : Level) : bool :=
  match logLevels (levelName level), logLevels logLevel with
  | Some a, Some b => (a <=? b)%nat
  | _, _ => false
  end.

End Logger.

(** Further concrete inputs. *)
Module Example.

(** A cached transcript for [Sample.jidA] and a cache holding its row. *)
Definition cachedRow : ChatService.CacheRow :=
  ChatService.mkRow Sample.jidA (VStr "[1/2/2025, 10:00:00 AM] Customer: hi
") (VNum 1) (VNum 0) VNull (VStr "Ann") (VDate 0).
Definition warmCache : list string -> Completion (list ChatService.CacheRow) :=
  fun _ => Normal [cachedRow].
Definition annChat : ChatService.Chat := ChatService.mkChat Sample.jidA (VStr "Ann").

(** A server that accepts connections and transaction control but rejects
    every upsert, as a read-only replica does. *)
Definition readOnlyError : JsError :=
  mkError "cannot execute INSERT in a read-only transaction" (VStr "25006") VUndefined.
Definition roClient (db : unit) : unit * Completion unit := (tt, Normal tt).
Definition roQuery (stmt : Stmt) (db : unit) : unit * Completion unit :=
  match stmt with
  | SInsertCache _ | SInsertReport _ => (tt, Throw readOnlyError)
  | _ => (tt, Normal tt)
  end.

(** A store of messages that cannot be read. *)
Definition unreadable : string -> Completion (list ChatService.Message) :=
  fun _ => Throw Postgres.connectionError.

End Example.

(** Further concrete inputs: messages. *)
Module ExampleMessages.

Definition question : ChatService.Message :=
  ChatService.mkMessage (VStr "conversation") (VStr "false") (VStr "price of iPhone 15?")
    (VDate 1738404000000).
Definition answer : ChatService.Message :=
  ChatService.mkMessage (VStr "conversation") (VStr "true") (VStr "It is 250,000")
    (VDate 1738407600000).
(** A protocol message without text, and a row whose type is NULL. *)
Definition receipt : ChatService.Message :=
  ChatService.mkMessage (VStr "conversation") (VStr "false") VNull (VDate 1738404060000).
Definition untyped : ChatService.Message :=
  ChatService.mkMessage VNull (VStr "false") VNull (VDate 1738404120000).

End ExampleMessages.


(** * Properties *)

(** ** White space *)

Lemma trim_start_all_space s : all_space s = true -> trim_start s = "".
Proof.
  induction s as [|c r IH]; simpl; [done|].
  intros [Hc Hr]%andb_prop. rewrite Hc. auto.
Qed.

Lemma trim_all_space s : all_space s = true -> trim s = "".
Proof. intros H. unfold trim. rewrite (trim_start_all_space s H). reflexivity. Qed.

Lemma rev_string_nonempty s acc : acc <> "" -> rev_string s acc <> "".
Proof.
  revert acc. induction s as [|c r IH]; simpl; intros acc H; [done|].
  apply IH. discriminate.
Qed.

Lemma trim_start_cons s :
  trim_start s = "" \/ exists c r, trim_start s = String c r /\ is_space c = false.
Proof.
  induction s as [|c r IH]; simpl; [by left|].
  destruct (is_space c) eqn:E; [done|]. right. eauto.
Qed.

Lemma trim_start_not_all_space s : all_space s = false -> trim_start s <> "".
Proof.
  induction s as [|c r IH]; simpl; [done|].
  destruct (is_space c); simpl; [auto|discriminate].
Qed.

Lemma all_space_rev s acc : all_space (rev_string s acc) = all_space s && all_space acc.
Proof.
  revert acc. induction s as [|c r IH]; simpl; intros acc; [done|].
  rewrite IH. simpl. destruct (is_space c), (all_space r), (all_space acc); done.
Qed.

(** [s.trim() === ''] exactly when [s] is empty or all white space. *)
Lemma trim_empty_iff s : trim s = "" <-> all_space s = true.
Proof.
  split; [|apply trim_all_space].
  intros H. destruct (all_space s) eqn:E; [done|]. exfalso.
  unfold trim in H.
  destruct (trim_start_cons s) as [H0|(c & r & Hs & Hc)].
  { by apply trim_start_not_all_space in E. }
  rewrite Hs in H.
  set (t := rev_string (String c r) "") in *.
  assert (Ht : all_space t = false).
  { unfold t. rewrite all_space_rev. simpl. rewrite Hc. simpl. done. }
  apply trim_start_not_all_space in Ht.
  destruct (trim_start t) as [|c' r'] eqn:Et; [done|].
  simpl in H. revert H. apply rev_string_nonempty. discriminate.
Qed.

(** ** The analysis client *)



Ltac js_lookup :=
  unfold get;
  repeat first [ rewrite lookup_insert_eq | rewrite lookup_insert_ne by discriminate ].

Lemma empty_confidence jid :
  get (AIAnalyzer.getEmptyAnalysis jid) "analysisConfidence" = VNum 0.3.
Proof. vm_compute. reflexivity. Qed.

(** *** The shapes of the results of a call and of an item *)

Section AnalyzerItems.

Context (OPENAI_MODEL : JsValue) (systemPrompt : string)
  (openai : AIAnalyzer.Request -> AIAnalyzer.Reply) (elapsed : AIAnalyzer.Request -> Z).

Local Abbreviation analyze :=
  (AIAnalyzer.analyzeSalesConversation OPENAI_MODEL systemPrompt openai elapsed).
Local Abbreviation item := (AIAnalyzer.analyzeItem OPENAI_MODEL systemPrompt openai elapsed).
Local Abbreviation requestFor := (fun s : string =>
  AIAnalyzer.mkRequest (AIAnalyzer.modelUsed OPENAI_MODEL) systemPrompt
    (AIAnalyzer.buildAnalysisPrompt s)).

Lemma empty_remoteJid jid : get (AIAnalyzer.getEmptyAnalysis jid) "remoteJid" = VStr jid.
Proof. vm_compute. reflexivity. Qed.

Lemma empty_no_success jid : get (AIAnalyzer.getEmptyAnalysis jid) "analysisSuccess" = VUndefined.
Proof. vm_compute. reflexivity. Qed.

Lemma empty_no_errorCode jid : get (AIAnalyzer.getEmptyAnalysis jid) "errorCode" = VUndefined.
Proof. vm_compute. reflexivity. Qed.

(** The shape of a call on a transcript that is not blank. *)
Lemma analyze_nonblank s jid :
  all_space s = false ->
  analyze (VStr s) jid
  = ([requestFor s],
     Normal
       match openai (requestFor s) with
       | AIAnalyzer.Content analysis =>
           <["processingTimeMs" := VNum (inject_Z (elapsed (requestFor s)))]>
             (<["aiModelUsed" := AIAnalyzer.modelUsed OPENAI_MODEL]>
               (<["analysisConfidence" :=
                    or_else (get analysis "analysis_confidence") (VNum 0.8)]>
                 (<["remoteJid" := VStr jid]> analysis)))
       | AIAnalyzer.Malformed e | AIAnalyzer.ApiError e =>
           <["error" := VStr (message e)]>
             (<["processingTimeMs" := VNum (inject_Z (elapsed (requestFor s)))]>
               (<["aiModelUsed" := VStr "error"]>
                 (<["analysisConfidence" := VNum 0.1]>
                   (AIAnalyzer.getEmptyAnalysis jid))))
       end).
Proof.
  intros E. unfold AIAnalyzer.analyzeSalesConversation.
  assert (Ht : String.eqb (trim s) "" = false).
  { apply String.eqb_neq. intros Ht%trim_empty_iff. congruence. }
  assert (Hn : truthy (VStr s) = true) by (destruct s; [discriminate E|reflexivity]).
  rewrite Ht, Hn. cbn [negb orb]. by destruct (openai _).
Qed.

Lemma analyze_blank s jid :
  all_space s = true -> analyze (VStr s) jid = ([], Normal (AIAnalyzer.getEmptyAnalysis jid)).
Proof.
  intros E. unfold AIAnalyzer.analyzeSalesConversation.
  rewrite (trim_all_space _ E). change (String.eqb "" "") with true.
  by rewrite orb_true_r.
Qed.

(** Errors of the classifier never escape the call on a string. *)
Lemma analyze_string_returns s jid :
  exists r, snd (analyze (VStr s) jid) = Normal r
    /\ get r "remoteJid" = VStr jid
    /\ truthy (get r "analysisConfidence") = true
    /\ (length (fst (analyze (VStr s) jid)) <= 1)%nat.
Proof.
  destruct (all_space s) eqn:E.
  - rewrite analyze_blank by done. eexists. split; [done|].
    split; [apply empty_remoteJid|]. split; [|cbn; lia]. vm_compute. reflexivity.
  - rewrite analyze_nonblank by done. eexists. split; [done|]. cbn [fst length].
    destruct (openai _) as [e|e|a]; js_lookup.
    + split; [apply empty_remoteJid|]. split; [reflexivity|lia].
    + split; [apply empty_remoteJid|]. split; [reflexivity|lia].
    + split; [done|]. split; [|lia]. cbn [default]. unfold or_else.
      destruct (truthy (default VUndefined (a !! "analysis_confidence"))) eqn:Et; [done|reflexivity].
Qed.

(** [analyzeSalesConversation] throws only the [TypeError] of [trim] on a
    truthy value that is not a string, before any request. *)
Lemma analyze_throws v jid e :
  snd (analyze v jid) = Throw e ->
  fst (analyze v jid) = [] /\ e = AIAnalyzer.trimTypeError /\ truthy v = true
  /\ forall s, v <> VStr s.
Proof.
  unfold AIAnalyzer.analyzeSalesConversation.
  destruct v as [| |b|q| |s|t|l|o].
  all: try (destruct (negb (truthy _)) eqn:E; cbn [fst snd]; intros H;
            [discriminate H|]; injection H as <-;
            apply negb_false_iff in E; repeat split; try done).
  destruct (negb (truthy (VStr s)) || String.eqb (trim s) ""); cbn [fst snd]; intros H;
    [discriminate H|]. destruct (openai _); discriminate H.
Qed.

(** The three shapes of the result of one item. *)
Lemma item_cases d :
  (truthy (error d) || negb (hasMessages d) = true
   /\ item d = ([], <["metadata" := or_else (metadata d) (VObj ∅)]>
                      (AIAnalyzer.getEmptyAnalysis (remoteJid d))))
  \/ (truthy (error d) || negb (hasMessages d) = false
      /\ exists r, snd (analyze (conversation d) (remoteJid d)) = Normal r
         /\ item d = (fst (analyze (conversation d) (remoteJid d)),
                      <["analysisSuccess" := VBool true]>
                        (<["metadata" := or_else (metadata d) (VObj ∅)]> r)))
  \/ (truthy (error d) || negb (hasMessages d) = false
      /\ exists e, snd (analyze (conversation d) (remoteJid d)) = Throw e
         /\ item d = ([],
                      <["analysisSuccess" := VBool false]>
                        (<["metadata" := or_else (metadata d) (VObj ∅)]>
                          (<["errorCode" := or_else (code e) (VStr "unknown")]>
                            (<["error" := VStr (message e)]>
                              (AIAnalyzer.getEmptyAnalysis (remoteJid d))))))).
Proof.
  unfold AIAnalyzer.analyzeItem.
  destruct (truthy (error d) || negb (hasMessages d)) eqn:E; [left; by split|right].
  pose proof (analyze_throws (conversation d) (remoteJid d)) as Ht.
  destruct (analyze (conversation d) (remoteJid d)) as [reqs [r|e]].
  - left. split; [reflexivity|]. exists r. split; reflexivity.
  - right. split; [reflexivity|]. exists e. split; [reflexivity|].
    destruct (Ht e eq_refl) as [Hr _]. cbn [fst] in Hr. rewrite Hr. reflexivity.
Qed.

Lemma analyze_returns_facts v jid r :
  snd (analyze v jid) = Normal r ->
  get r "remoteJid" = VStr jid /\ truthy (get r "analysisConfidence") = true.
Proof.
  assert (He : get (AIAnalyzer.getEmptyAnalysis jid) "remoteJid" = VStr jid
               /\ truthy (get (AIAnalyzer.getEmptyAnalysis jid) "analysisConfidence") = true).
  { split; [apply empty_remoteJid|]. vm_compute. reflexivity. }
  destruct v;
    try (unfold AIAnalyzer.analyzeSalesConversation;
         destruct (negb (truthy _)); cbn [snd]; [by intros [= <-]|done]).
  destruct (analyze_string_returns s jid) as (r' & Hr & H1 & H2 & _).
  rewrite Hr. by intros [= <-].
Qed.

Lemma item_identity d :
  get (snd (item d)) "remoteJid" = VStr (remoteJid d)
  /\ get (snd (item d)) "metadata" = or_else (metadata d) (VObj ∅)
  /\ truthy (get (snd (item d)) "analysisConfidence") = true.
Proof.
  destruct (item_cases d) as [[_ ->]|[(_ & r & Hr & ->)|(_ & e & _ & ->)]]; cbn [snd].
  - js_lookup. fold (get (AIAnalyzer.getEmptyAnalysis (remoteJid d)) "remoteJid").
    fold (get (AIAnalyzer.getEmptyAnalysis (remoteJid d)) "analysisConfidence").
    rewrite empty_remoteJid. repeat split; try (vm_compute; reflexivity).
  - destruct (analyze_returns_facts _ _ _ Hr) as [H1 H2]. js_lookup.
    fold (get r "remoteJid"). fold (get r "analysisConfidence"). by rewrite H1, H2.
  - js_lookup. fold (get (AIAnalyzer.getEmptyAnalysis (remoteJid d)) "remoteJid").
    fold (get (AIAnalyzer.getEmptyAnalysis (remoteJid d)) "analysisConfidence").
    rewrite empty_remoteJid. repeat split; try (vm_compute; reflexivity).
Qed.

Lemma item_success d :
  AIAnalyzer.analysisSuccess (snd (item d))
  = negb (truthy (error d)) && hasMessages d
    && completed (snd (analyze (conversation d) (remoteJid d))).
Proof.
  unfold AIAnalyzer.analysisSuccess.
  destruct (item_cases d) as [[E ->]|[(E & r & Hr & ->)|(E & e & He & ->)]]; cbn [snd].
  - js_lookup. fold (get (AIAnalyzer.getEmptyAnalysis (remoteJid d)) "analysisSuccess").
    rewrite empty_no_success. cbn [truthy].
    destruct (truthy (error d)), (hasMessages d); done.
  - js_lookup. rewrite Hr. cbn [default truthy completed].
    destruct (truthy (error d)), (hasMessages d); done.
  - js_lookup. rewrite He. cbn [default truthy completed]. by rewrite andb_false_r.
Qed.

Lemma item_requests d :
  fst (item d)
  = if negb (truthy (error d)) && hasMessages d
    then fst (analyze (conversation d) (remoteJid d)) else [].
Proof.
  destruct (item_cases d) as [[E ->]|[(E & r & Hr & ->)|(E & e & He & ->)]]; cbn [fst];
    destruct (truthy (error d)), (hasMessages d); try done.
  cbn. unfold AIAnalyzer.analyzeSalesConversation in *.
  destruct (conversation d); try (destruct (negb (truthy _)); done).
  destruct (negb (truthy (VStr s)) || String.eqb (trim s) ""); [done|].
  by destruct (openai _).
Qed.

(** The result for a conversation that reaches the classifier. *)
Lemma item_nonblank d s :
  negb (truthy (error d)) && hasMessages d = true ->
  conversation d = VStr s -> all_space s = false ->
  item d
  = ([requestFor s],
     <["analysisSuccess" := VBool true]>
       (<["metadata" := or_else (metadata d) (VObj ∅)]>
          match openai (requestFor s) with
          | AIAnalyzer.Content analysis =>
              <["processingTimeMs" := VNum (inject_Z (elapsed (requestFor s)))]>
                (<["aiModelUsed" := AIAnalyzer.modelUsed OPENAI_MODEL]>
                  (<["analysisConfidence" :=
                       or_else (get analysis "analysis_confidence") (VNum 0.8)]>
                    (<["remoteJid" := VStr (remoteJid d)]> analysis)))
          | AIAnalyzer.Malformed e | AIAnalyzer.ApiError e =>
              <["error" := VStr (message e)]>
                (<["processingTimeMs" := VNum (inject_Z (elapsed (requestFor s)))]>
                  (<["aiModelUsed" := VStr "error"]>
                    (<["analysisConfidence" := VNum 0.1]>
                      (AIAnalyzer.getEmptyAnalysis (remoteJid d)))))
          end)).
Proof.
  intros Ha Hs E. unfold AIAnalyzer.analyzeItem.
  assert (truthy (error d) || negb (hasMessages d) = false) as ->
    by (destruct (truthy (error d)), (hasMessages d); done).
  rewrite Hs, analyze_nonblank by exact E. reflexivity.
Qed.

End AnalyzerItems.

(** C4, as amended. The confidence of the result of [analyzeSalesConversation]
    on a string is 0.3 for a blank transcript, 0.1 when the call or the
    parsing of its answer fails, and otherwise the classifier's own
    [analysis_confidence] when that value is truthy and 0.8 when it is not.
    The confidence of every result [analyzeConversationsBatch] produces for
    an item is that value when the item reaches the call with a string
    transcript, and 0.3 in every other case: an item it skips (an error or
    no messages), a missing transcript, and its own fallback for a call that
    throws. The classifier's value is passed through as it is, so a
    produced confidence is in [0,1] whenever the classifier's is (or is
    missing). *)
Theorem confidence_defaults
    (OPENAI_MODEL : JsValue) (systemPrompt : string)
    (openai : AIAnalyzer.Request -> AIAnalyzer.Reply) (elapsed : AIAnalyzer.Request -> Z)
    (transcript : string) (jid : string) (data : ConvData) :
  let requestFor := fun s =>
    AIAnalyzer.mkRequest (AIAnalyzer.modelUsed OPENAI_MODEL) systemPrompt
      (AIAnalyzer.buildAnalysisPrompt s) in
  let scored := fun s =>
    if all_space s then VNum 0.3
    else match openai (requestFor s) with
         | AIAnalyzer.Content analysis =>
             or_else (get analysis "analysis_confidence") (VNum 0.8)
         | _ => VNum 0.1
         end in
  let confidence :=
    confidenceOf (snd (AIAnalyzer.analyzeSalesConversation OPENAI_MODEL systemPrompt
                         openai elapsed (VStr transcript) jid)) in
  let produced :=
    get (snd (AIAnalyzer.analyzeItem OPENAI_MODEL systemPrompt openai elapsed data))
        "analysisConfidence" in
  confidence = scored transcript
  /\ (all_space transcript = false ->
      forall analysis, openai (requestFor transcript) = AIAnalyzer.Content analysis ->
      truthy (get analysis "analysis_confidence") = false
      \/ inUnitInterval (get analysis "analysis_confidence") = true ->
      inUnitInterval confidence = true)
  /\ produced
     = (if truthy (error data) || negb (hasMessages data) then VNum 0.3
        else match conversation data with
             | VStr s => scored s
             | _ => VNum 0.3
             end)
  /\ ((forall s analysis,
         conversation data = VStr s ->
         openai (requestFor s) = AIAnalyzer.Content analysis ->
         truthy (get analysis "analysis_confidence") = false
         \/ inUnitInterval (get analysis "analysis_confidence") = true) ->
      inUnitInterval produced = true).
Proof.
  intros requestFor scored confidence produced.
  assert (Hscored : forall s j,
    confidenceOf (snd (AIAnalyzer.analyzeSalesConversation OPENAI_MODEL systemPrompt
                         openai elapsed (VStr s) j)) = scored s).
  { intros s j. unfold scored. destruct (all_space s) eqn:E.
    - rewrite analyze_blank by exact E. apply empty_confidence.
    - rewrite analyze_nonblank by exact E. cbn [snd confidenceOf]. fold (requestFor s).
      destruct (openai (requestFor s)); js_lookup; reflexivity. }
  assert (Hbound : forall s,
    (forall analysis, openai (requestFor s) = AIAnalyzer.Content analysis ->
       truthy (get analysis "analysis_confidence") = false
       \/ inUnitInterval (get analysis "analysis_confidence") = true) ->
    inUnitInterval (scored s) = true).
  { intros s Hs. unfold scored. destruct (all_space s); [reflexivity|].
    destruct (openai (requestFor s)) as [e|e|analysis]; [reflexivity..|].
    unfold or_else. destruct (Hs analysis eq_refl) as [H|H].
    - rewrite H. reflexivity.
    - destruct (truthy _); [exact H|reflexivity]. }
  assert (Hproduced : produced
     = (if truthy (error data) || negb (hasMessages data) then VNum 0.3
        else match conversation data with
             | VStr s => scored s
             | _ => VNum 0.3
             end)).
  { unfold produced.
    destruct (item_cases OPENAI_MODEL systemPrompt openai elapsed data)
      as [[E ->]|[(E & r & Hr & ->)|(E & e & He & ->)]]; rewrite E; cbn [snd].
    - js_lookup. exact (empty_confidence (remoteJid data)).
    - js_lookup. fold (get r "analysisConfidence").
      destruct (conversation data) as [| |b|q| |s|t|l|o] eqn:Ec;
        try (unfold AIAnalyzer.analyzeSalesConversation in Hr;
             destruct (negb (truthy _)); cbn [snd] in Hr; [|discriminate Hr];
             injection Hr as <-; exact (empty_confidence (remoteJid data))).
      rewrite <- (Hscored s (remoteJid data)), Hr. reflexivity.
    - js_lookup.
      destruct (analyze_throws OPENAI_MODEL systemPrompt openai elapsed _ _ _ He)
        as (_ & _ & _ & Hns).
      destruct (conversation data) as [| |b|q| |s|t|l|o]; try exact (empty_confidence (remoteJid data)).
      by destruct (Hns s). }
  split; [apply Hscored|]. split.
  { intros E analysis Hr Hs. unfold confidence. rewrite Hscored. apply Hbound.
    intros a Ha. rewrite Hr in Ha. injection Ha as <-. exact Hs. }
  split; [exact Hproduced|].
  intros Hs. rewrite Hproduced.
  destruct (truthy (error data) || negb (hasMessages data)); [reflexivity|].
  destruct (conversation data) as [| |b|q| |s|t|l|o]; try reflexivity.
  apply Hbound. intros a Ha. by apply (Hs s a).
Qed.

Lemma confidence_defaults_witness :
  inUnitInterval
    (confidenceOf (snd (AIAnalyzer.analyzeSalesConversation VUndefined "" Sample.unscored
                          Sample.latency (VStr "Customer: hello") Sample.jidA))) = true.
Proof.
  refine (proj1 (proj2 (confidence_defaults VUndefined "" Sample.unscored Sample.latency
                          "Customer: hello" Sample.jidA Sample.chatA)) _ _ _ _).
  - reflexivity.
  - reflexivity.
  - left. vm_compute. reflexivity.
Defined.

(** C4 fails as stated: a classifier score of 5 is returned as the
    confidence 5, outside [0,1]; an unscored answer gets 0.8, not 0.5; and
    the fallback result that [analyzeConversationsBatch] builds for an item
    whose call throws (here a transcript that is not a string) carries 0.3,
    not 0.1. *)
Lemma confidence_counterexample :
  confidenceOf (snd (AIAnalyzer.analyzeSalesConversation VUndefined "" Sample.overconfident
                       Sample.latency (conversation Sample.chatA) (remoteJid Sample.chatA)))
    = VNum 5
  /\ inUnitInterval (VNum 5) = false
  /\ confidenceOf (snd (AIAnalyzer.analyzeSalesConversation VUndefined "" Sample.unscored
                       Sample.latency (conversation Sample.chatA) (remoteJid Sample.chatA)))
    = VNum 0.8
  /\ ~ (0.8 == 0.5)%Q
  /\ (let r := snd (AIAnalyzer.analyzeItem VUndefined "" Sample.unscored Sample.latency
                      (mkConv Sample.jidA (VStr "Ann") (VNum 7) (VObj ∅) true false
                         VUndefined)) in
      get r "analysisSuccess" = VBool false
      /\ get r "error" = VStr "conversation.trim is not a function"
      /\ get r "analysisConfidence" = VNum 0.3)
  /\ ~ (0.3 == 0.1)%Q.
Proof.
  split; [vm_compute; reflexivity|]. split; [reflexivity|].
  split; [vm_compute; reflexivity|].
  split; [intros H; vm_compute in H; discriminate|].
  split; [cbv zeta; repeat split; vm_compute; reflexivity|].
  intros H. vm_compute in H. discriminate.
Qed.

(** C3 fails on the code. When the classifier call fails for lack of quota,
    [analyzeSalesConversation] swallows the error: the item's result carries
    the message but no [errorCode], and [analyzeConversationsBatch] marks it
    [analysisSuccess: true]; the run then reports 0 quota failures, 1
    successful analysis and 1 stored row for the one quota-exceeded item. *)
Lemma quota_failure_reported_as_success :
  (let r := snd (AIAnalyzer.analyzeItem VUndefined "" Sample.outOfQuota Sample.latency
                   Sample.chatA) in
   get r "analysisSuccess" = VBool true
   /\ get r "errorCode" = VUndefined
   /\ get r "error" = VStr "You exceeded your current quota"
   /\ AIAnalyzer.isQuotaError r = false)
  /\ option_map snd (Sample.run Sample.outOfQuota)
     = Some (Normal (Some (Index.mkReport true 1 1 0 1 1))).
Proof. split; [repeat split|]; vm_compute; reflexivity. Qed.

(** ** The transcript cache: reads *)

(** C10. [getCachedConversations] always returns a map and never throws;
    when the query on the store fails it returns the empty map, which is
    what it returns when the store finds no row for any requested
    identifier. *)
Theorem cache_read_never_throws
    (selectCache : list string -> Completion (list ChatService.CacheRow))
    (remoteJids : list string) :
  (exists cacheMap,
     ChatService.getCachedConversations selectCache remoteJids = Normal cacheMap)
  /\ (forall e, selectCache remoteJids = Throw e ->
      ChatService.getCachedConversations selectCache remoteJids = Normal ∅
      /\ ChatService.getCachedConversations selectCache remoteJids
         = ChatService.getCachedConversations (fun _ => Normal []) remoteJids).
Proof.
  unfold ChatService.getCachedConversations.
  destruct (length remoteJids =? 0)%nat.
  - split; [eexists; reflexivity|]. intros e _. split; reflexivity.
  - split.
    + destruct (selectCache remoteJids); cbn [bind try_catch]; eexists; reflexivity.
    + intros e ->. split; reflexivity.
Qed.

Lemma cache_read_never_throws_witness :
  ChatService.getCachedConversations Sample.cacheDown [Sample.jidA] = Normal ∅.
Proof.
  refine (proj1 (proj2 (cache_read_never_throws Sample.cacheDown [Sample.jidA])
                   Postgres.connectionError _)).
  reflexivity.
Defined.

(** ** Truncation of string columns *)

Lemma length_append (a b : string) :
  String.length (a ++ b) = (String.length a + String.length b)%nat.
Proof. induction a as [|c a IH]; simpl; [done|]. by rewrite IH. Qed.

Lemma length_substring_0 (n : nat) (s : string) :
  (n <= String.length s)%nat -> String.length (substring 0 n s) = n.
Proof.
  revert n. induction s as [|c s IH]; intros [|n] H; simpl in *; try done; try lia.
  rewrite IH; [done|lia].
Qed.

Lemma substring_prefix_idem n s :
  substring 0 n s = substring 0 (String.length (substring 0 n s)) s.
Proof.
  revert n; induction s as [|c s IH]; intros [|n]; simpl; try done.
  by rewrite <- IH.
Qed.

Lemma truthy_nonempty s : s <> "" -> truthy (VStr s) = true.
Proof. intros H. simpl. by apply String.eqb_neq in H as ->. Qed.

(** A string longer than [L] comes back [L] characters long, a prefix of the
    value followed by the marker. *)
Lemma truncateString_long (s : string) (L : Z) :
  (3 <= L)%Z -> (L < Z.of_nat (String.length s))%Z ->
  DatabaseService.truncateString (VStr s) L
    = VStr (substring 0 (Z.to_nat (L - 3)) s ++ truncationMarker)
  /\ Z.of_nat (String.length (substring 0 (Z.to_nat (L - 3)) s ++ truncationMarker)) = L.
Proof.
  intros HL Hs. unfold DatabaseService.truncateString.
  assert (s <> "") as Hne by (intros ->; simpl in Hs; lia).
  rewrite (truthy_nonempty _ Hne). cbn [negb].
  apply Z.ltb_lt in Hs as Hs'. rewrite Hs'. split; [reflexivity|].
  rewrite length_append, length_substring_0 by lia. simpl. lia.
Qed.

(** A string within [L] comes back unchanged. *)
Lemma truncateString_short (s : string) (L : Z) :
  (Z.of_nat (String.length s) <= L)%Z ->
  DatabaseService.truncateString (VStr s) L = VStr s.
Proof.
  intros Hs. unfold DatabaseService.truncateString.
  destruct (negb (truthy (VStr s))); [done|].
  apply Z.ltb_ge in Hs as ->. done.
Qed.

(** Columns written as [truncateString(field || 'default', L)]. *)
Lemma stored_default s L d :
  (3 <= L)%Z -> DatabaseService.truncateString d L = d ->
  storedAs (DatabaseService.truncateString (or_else (VStr s) d) L) s L d.
Proof.
  intros HL Hdd. unfold storedAs, or_else. split; [|split].
  - intros Hs. assert (s <> "") as Hne by (intros ->; simpl in Hs; lia).
    rewrite (truthy_nonempty _ Hne).
    destruct (truncateString_long s L HL Hs) as [-> Hlen].
    eexists; split; [reflexivity|]. split; [done|]. apply substring_prefix_idem.
  - intros Hne Hs. rewrite (truthy_nonempty _ Hne). by apply truncateString_short.
  - intros ->. exact Hdd.
Qed.

(** Columns written as [truncateString(field, L) || null]. *)
Lemma stored_null s L :
  (3 <= L)%Z ->
  storedAs (or_else (DatabaseService.truncateString (VStr s) L) VNull) s L VNull.
Proof.
  intros HL. unfold storedAs. split; [|split].
  - intros Hs.
    destruct (truncateString_long s L HL Hs) as [-> Hlen].
    unfold or_else. rewrite truthy_nonempty.
    + eexists; split; [reflexivity|]. split; [done|]. apply substring_prefix_idem.
    + intros H. rewrite H in Hlen. simpl in Hlen. lia.
  - intros Hne Hs. rewrite truncateString_short by done.
    unfold or_else. by rewrite truthy_nonempty.
  - intros ->. reflexivity.
Qed.

(** C8, as amended. For each of the twelve columns that [prepareInsertValues]
    truncates, a field holding a string longer than the column's maximum [L]
    is stored as its first [L - 3] characters followed by the marker "...",
    [L] characters in all; a non-empty string within [L] is stored unchanged;
    the empty string is stored as NULL, or as the default text of the
    column. *)
Theorem oversized_strings_truncated_with_marker
    (JSON_stringify : JsValue -> string) (parseInt parseFloat : JsValue -> JsValue)
    (nowISO : string) (result : JsObj) :
  Forall (fun '(i, field, L, dflt) =>
            forall s, get result field = VStr s ->
              storedAs (nth i (DatabaseService.prepareInsertValues JSON_stringify parseInt
                                 parseFloat nowISO result) VUndefined) s L dflt)
         truncatedColumns.
Proof.
  unfold truncatedColumns.
  repeat (apply Forall_cons; split;
    [ intros s Hs; unfold DatabaseService.prepareInsertValues; cbn [nth]; rewrite Hs;
      first [ apply stored_null; lia
            | apply stored_default; [lia|reflexivity] ] | ]).
  apply Forall_nil_2.
Qed.

Lemma oversized_strings_witness :
  storedAs (nth 13 (DatabaseService.prepareInsertValues Sample.JSON_stringify
                      Sample.parseInt Sample.parseFloat Sample.nowISO
                      {[ "urgency_level" := VStr "Extremely high, call back today" ]})
                VUndefined)
    "Extremely high, call back today" 20 (VStr "Low").
Proof.
  refine (Forall_lookup_1 _ _ 4 (13%nat, "urgency_level", 20%Z, VStr "Low")
            (oversized_strings_truncated_with_marker Sample.JSON_stringify
               Sample.parseInt Sample.parseFloat Sample.nowISO
               {[ "urgency_level" := VStr "Extremely high, call back today" ]})
            _ "Extremely high, call back today" _).
  - reflexivity.
  - vm_compute. reflexivity.
Defined.

(** C8 fails as stated. The empty string is within every maximum length,
    yet [customer_name] is stored as NULL and [product_category] as the
    default text. And a model name of 62 characters, for the column
    [ai_model_used] whose maximum length is 50, is passed to the insert as it
    is, neither truncated nor marked. *)
Lemma string_fields_not_all_stored_as_claimed :
  let model := "ft:gpt-4o-mini-2024-07-18:acme-trading:sales-intelligence:9XyZ" in
  let values :=
    DatabaseService.prepareInsertValues Sample.JSON_stringify Sample.parseInt
      Sample.parseFloat Sample.nowISO
      {[ "remoteJid" := VStr Sample.jidA; "customer_name" := VStr "";
         "product_category" := VStr ""; "aiModelUsed" := VStr model ]} in
  (Z.of_nat (String.length "") <= 200)%Z
  /\ nth 14 values VUndefined = VNull
  /\ nth 2 values VUndefined = VStr "No Product Mentioned"
  /\ VNull <> VStr "" /\ VStr "No Product Mentioned" <> VStr ""
  /\ (50 < Z.of_nat (String.length model))%Z
  /\ nth 35 values VUndefined = VStr model.
Proof.
  cbv zeta. split; [simpl; lia|].
  split; [vm_compute; reflexivity|]. split; [vm_compute; reflexivity|].
  split; [discriminate|]. split; [discriminate|].
  split; [vm_compute; reflexivity|vm_compute; reflexivity].
Qed.

(** ** The batch loop of the analyzer *)

Section AnalyzerLoop.

Context (OPENAI_MODEL : JsValue) (systemPrompt : string)
  (openai : AIAnalyzer.Request -> AIAnalyzer.Reply) (elapsed : AIAnalyzer.Request -> Z)
  (S : Type) (data : list ConvData) (W : nat)
  (cb : option (list JsObj -> S -> S * Completion unit)).

Local Abbreviation item := (AIAnalyzer.analyzeItem OPENAI_MODEL systemPrompt openai elapsed).
Local Abbreviation checkpoint := (AIAnalyzer.checkpoint S cb).
Local Abbreviation iteration := (AIAnalyzer.iteration OPENAI_MODEL systemPrompt openai elapsed S data W cb).
Local Abbreviation batchLoop := (AIAnalyzer.batchLoop OPENAI_MODEL systemPrompt openai elapsed S data W cb).
Local Abbreviation finalSave := (AIAnalyzer.finalSave S cb).
Local Abbreviation results := (AIAnalyzer.results S).
Local Abbreviation pending := (AIAnalyzer.accumulatedForSave S).
Local Abbreviation flushes := (AIAnalyzer.flushes S).
Local Abbreviation successes := (filter (fun r => AIAnalyzer.analysisSuccess r = true)).

Lemma trySave_fields f items st :
  results (AIAnalyzer.trySave S f items st) = results st
  /\ pending (AIAnalyzer.trySave S f items st) = pending st
  /\ AIAnalyzer.batchNumber S (AIAnalyzer.trySave S f items st) = AIAnalyzer.batchNumber S st
  /\ handed (AIAnalyzer.trySave S f items st) = handed st ++ items.
Proof.
  unfold AIAnalyzer.trySave, handed. destruct (f items (AIAnalyzer.saver S st)) as [s' c].
  cbn. repeat split.
  rewrite map_app, concat_app. destruct c; cbn [map concat flushed]; by rewrite app_nil_r.
Qed.

Lemma checkpoint_results st : results (checkpoint st) = results st.
Proof.
  unfold AIAnalyzer.checkpoint. destruct cb as [f|]; [|done]. cbv beta iota.
  destruct (Nat.eqb _ _); [|done]. cbn [AIAnalyzer.results].
  destruct (Nat.ltb _ _); [|done]. apply trySave_fields.
Qed.

Lemma checkpoint_accounted st : accounted st -> accounted (checkpoint st).
Proof.
  unfold accounted, AIAnalyzer.checkpoint. intros H. destruct cb as [f|]; [|done].
  cbv beta iota. destruct (Nat.eqb _ _); [|done].
  unfold handed in *.
  cbn [AIAnalyzer.flushes AIAnalyzer.accumulatedForSave AIAnalyzer.results].
  rewrite filter_nil, app_nil_r.
  destruct (Nat.ltb _ _) eqn:E.
  - destruct (trySave_fields f (successes (pending st)) st) as (Hr & _ & _ & Hh).
    unfold handed in Hh. by rewrite Hh, Hr.
  - apply Nat.ltb_ge in E. rewrite <- H.
    destruct (successes (pending st)); [by rewrite app_nil_r|cbn [length] in E; lia].
Qed.

Lemma checkpoint_clears f st :
  cb = Some f ->
  (AIAnalyzer.batchNumber S st mod AIAnalyzer.SAVE_INTERVAL = 0)%nat ->
  pending (checkpoint st) = [].
Proof.
  intros -> H. unfold AIAnalyzer.checkpoint. cbv beta iota. apply Nat.eqb_eq in H. rewrite H. done.
Qed.

Lemma iteration_results i st :
  results (iteration i st) = results st ++ map (fun d => snd (item d)) (firstn W (skipn i data)).
Proof.
  unfold AIAnalyzer.iteration. rewrite checkpoint_results.
  cbn [AIAnalyzer.results]. by rewrite map_map.
Qed.

Lemma iteration_accounted i st : accounted st -> accounted (iteration i st).
Proof.
  intros H. unfold AIAnalyzer.iteration. apply checkpoint_accounted.
  unfold accounted, handed in *.
  cbn [AIAnalyzer.flushes AIAnalyzer.accumulatedForSave AIAnalyzer.results].
  rewrite !filter_app, app_assoc, H. done.
Qed.

Lemma batchLoop_total fuel i st :
  (0 < W)%nat -> (length data - i <= fuel)%nat -> accounted st ->
  exists st', batchLoop fuel i st = Some st'
    /\ results st' = results st ++ map (fun d => snd (item d)) (skipn i data)
    /\ accounted st'.
Proof.
  intros HW. revert i st. induction fuel as [|fuel IH]; intros i st Hf Hacc; cbn [AIAnalyzer.batchLoop].
  - assert ((length data <=? i)%nat = true) as -> by (apply Nat.leb_le; lia).
    exists st. rewrite skipn_all2 by lia. cbn [map]. by rewrite app_nil_r.
  - destruct (length data <=? i)%nat eqn:E.
    + apply Nat.leb_le in E. exists st. rewrite skipn_all2 by lia. cbn [map].
      by rewrite app_nil_r.
    + apply Nat.leb_gt in E.
      destruct (IH (i + W)%nat (iteration i st)) as (st' & Hrun & Hres & Hacc').
      { lia. } { by apply iteration_accounted. }
      exists st'. split; [done|]. split; [|done].
      rewrite Hres, iteration_results, <- app_assoc, <- map_app.
      do 2 f_equal.
      rewrite (Nat.add_comm i W), <- skipn_skipn. apply firstn_skipn.
Qed.

Lemma finalSave_results st : results (finalSave st) = results st.
Proof.
  unfold AIAnalyzer.finalSave. destruct cb as [f|]; [|done]. cbv beta iota.
  destruct (Nat.ltb _ _); [|done]. destruct (Nat.ltb _ _); [|done]. apply trySave_fields.
Qed.

Lemma finalSave_handed f st :
  cb = Some f -> accounted st -> handed (finalSave st) = successes (results (finalSave st)).
Proof.
  intros Hcb H. rewrite finalSave_results. unfold AIAnalyzer.finalSave. rewrite Hcb. cbv beta iota.
  unfold accounted in H.
  destruct (0 <? length (pending st))%nat eqn:E1.
  - destruct (0 <? length (successes (pending st)))%nat eqn:E2.
    + destruct (trySave_fields f (successes (pending st)) st) as (_ & _ & _ & Hh).
      by rewrite Hh.
    + apply Nat.ltb_ge in E2. destruct (successes (pending st)); [|cbn in E2; lia].
      by rewrite app_nil_r in H.
  - apply Nat.ltb_ge in E1. destruct (pending st); [|cbn in E1; lia].
    by rewrite app_nil_r in H.
Qed.

End AnalyzerLoop.

(** C1, as amended. With a save callback and a positive chunk size,
    [analyzeConversationsBatch] finishes and returns one result per
    conversation whatever the flushes do; every successful result is handed
    to the callback exactly once, in order, in the first flush after it was
    produced (the flushes, completed or failed, concatenate to the successful
    results), so the results of a failed flush are not handed over again; and
    the accumulator is emptied at every checkpoint, whatever the outcome of
    the flush. The callback of [runAnalysis] makes one bulk insert per call:
    it throws exactly when the bulk insert throws, counts the attempt, and
    adds the rows the bulk insert reports as succeeded to the saved total. *)
Theorem each_success_flushed_once
    (OPENAI_MODEL : JsValue) (systemPrompt : string)
    (openai : AIAnalyzer.Request -> AIAnalyzer.Reply) (elapsed : AIAnalyzer.Request -> Z)
    (JSON_stringify : JsValue -> string) (parseInt parseFloat : JsValue -> JsValue)
    (nowISO : string) (DB : Type) (getClient : DB -> DB * Completion unit)
    (query : Stmt -> DB -> DB * Completion unit)
    (S : Type) (save : list JsObj -> S -> S * Completion unit)
    (conversationData : list ConvData) (batchSize fuel : nat) (s0 : S) :
  (0 < batchSize)%nat -> (length conversationData <= fuel)%nat ->
  (exists st,
     AIAnalyzer.analyzeConversationsBatch OPENAI_MODEL systemPrompt openai elapsed S
       conversationData batchSize (Some save) fuel s0 = Some st
     /\ AIAnalyzer.results S st
        = map (fun d => snd (AIAnalyzer.analyzeItem OPENAI_MODEL systemPrompt openai
                               elapsed d))
              conversationData
     /\ concat (map flushed (AIAnalyzer.flushes S st))
        = filter (fun r => AIAnalyzer.analysisSuccess r = true) (AIAnalyzer.results S st))
  /\ (forall st0,
        (AIAnalyzer.batchNumber S st0 mod AIAnalyzer.SAVE_INTERVAL = 0)%nat ->
        AIAnalyzer.accumulatedForSave S (AIAnalyzer.checkpoint S (Some save) st0) = [])
  /\ (forall (successfulBatch : list JsObj) (s : Index.Saver DB),
        let out := Index.incrementalSaveCallback JSON_stringify parseInt parseFloat
                     nowISO DB getClient query successfulBatch s in
        let r := snd (DatabaseService.bulkInsertAnalysisResults JSON_stringify parseInt
                        parseFloat nowISO DB getClient query successfulBatch
                        (Index.database DB s)) in
        completed (snd out) = completed r
        /\ Index.saveAttempts DB (fst out) = Datatypes.S (Index.saveAttempts DB s)
        /\ Index.totalSaved DB (fst out)
           = (Index.totalSaved DB s
              + match r with
                | Normal res => DatabaseService.success res
                | Throw _ => 0
                end)%nat).
Proof.
  intros HW Hf. split; [|split].
  - destruct (batchLoop_total OPENAI_MODEL systemPrompt openai elapsed S conversationData
                batchSize (Some save) fuel 0 (AIAnalyzer.mkBatch S [] [] 0 s0 [] []) HW)
      as (st & Hrun & Hres & Hacc); [lia|reflexivity|].
    exists (AIAnalyzer.finalSave S (Some save) st).
    unfold AIAnalyzer.analyzeConversationsBatch. rewrite Hrun.
    split; [reflexivity|]. split.
    + by rewrite finalSave_results, Hres.
    + by apply (finalSave_handed S (Some save) save).
  - intros st0 H0. by apply (checkpoint_clears S (Some save) save).
  - intros successfulBatch s out r. subst out r. unfold Index.incrementalSaveCallback.
    destruct (DatabaseService.bulkInsertAnalysisResults _ _ _ _ _ _ _ _ _)
      as [[db' sent] [res|e]]; cbn; repeat split; lia.
Qed.

Lemma each_success_flushed_once_witness :
  exists st, Sample.analyze 2 [] = Some st
    /\ concat (map flushed (AIAnalyzer.flushes _ st))
       = filter (fun r => AIAnalyzer.analysisSuccess r = true) (AIAnalyzer.results _ st).
Proof.
  destruct (each_success_flushed_once VUndefined "" Sample.unscored Sample.latency
              Sample.JSON_stringify Sample.parseInt Sample.parseFloat Sample.nowISO
              Postgres.State Postgres.getClient Postgres.query
              (Index.Saver Postgres.State) Sample.saveToPostgres (Sample.chats 2) 1 2
              (Sample.saver0 []))
    as ((st & H1 & _ & H3) & _); [lia|reflexivity|].
  exists st. split; [exact H1|exact H3].
Defined.

(** C1 fails as stated. Fifty conversations in chunks of one reach the first
    checkpoint; the connection to the store fails, the flush of the 50
    results fails, and the accumulator is empty afterwards. With a 51st
    conversation the final flush carries that one result only: the run has
    51 successful analyses and 1 saved row. *)
Lemma failed_flush_is_not_retried :
  option_map (fun st => (map flushSummary (AIAnalyzer.flushes _ st),
                         length (AIAnalyzer.accumulatedForSave _ st)))
             (Sample.loopOnly 50 [true])
    = Some ([(false, 50%nat)], 0%nat)
  /\ option_map (fun st => (map flushSummary (AIAnalyzer.flushes _ st),
                            length (filter (fun r => AIAnalyzer.analysisSuccess r = true)
                                           (AIAnalyzer.results _ st)),
                            Index.totalSaved _ (AIAnalyzer.saver _ st)))
                (Sample.analyze 51 [true])
     = Some ([(false, 50%nat); (true, 1%nat)], 51%nat, 1%nat).
Proof. split; vm_compute; reflexivity. Qed.

(** ** The chunk loop of the chat service *)

Section ChatLoop.

Context (toLocaleString : JsValue -> string) (toUpperCase : string -> string)
  (selectCache : list string -> Completion (list ChatService.CacheRow))
  (getMessagesForChat : string -> Completion (list ChatService.Message))
  (DB : Type) (getClient : DB -> DB * Completion unit)
  (query : Stmt -> DB -> DB * Completion unit).

Local Abbreviation processChat :=
  (ChatService.processChat toLocaleString toUpperCase getMessagesForChat).
Local Abbreviation chunkLoop :=
  (ChatService.chunkLoop toLocaleString toUpperCase getMessagesForChat).

Lemma processChat_remoteJid chat : remoteJid (processChat chat) = ChatService.chat_id chat.
Proof.
  unfold ChatService.processChat.
  destruct (getMessagesForChat _) as [messages|e]; cbn [bind]; [|done].
  destruct (ChatService.buildConversationString _ _ _ _); done.
Qed.

Lemma processChat_captures_failure chat e :
  getMessagesForChat (ChatService.chat_id chat) = Throw e ->
  processChat chat
    = mkConv (ChatService.chat_id chat) VUndefined VUndefined VUndefined false false
        (VStr (message e)).
Proof. intros H. unfold ChatService.processChat. by rewrite H. Qed.

Lemma chunkLoop_total fuel W chats i rs ns :
  (0 < W)%nat -> (length chats - i <= fuel)%nat ->
  chunkLoop fuel W chats i rs ns
    = Some (rs ++ map processChat (skipn i chats),
            ns ++ List.filter (fun r => hasMessages r) (map processChat (skipn i chats))).
Proof.
  intros HW. revert i rs ns.
  induction fuel as [|fuel IH]; intros i rs ns Hf; cbn [ChatService.chunkLoop].
  - assert ((length chats <=? i)%nat = true) as -> by (apply Nat.leb_le; lia).
    rewrite skipn_all2 by lia. cbn [map List.filter]. by rewrite !app_nil_r.
  - destruct (length chats <=? i)%nat eqn:E.
    + apply Nat.leb_le in E. rewrite skipn_all2 by lia. cbn [map List.filter].
      by rewrite !app_nil_r.
    + rewrite IH by lia.
      rewrite <- !app_assoc, <- List.filter_app, <- map_app.
      by rewrite (Nat.add_comm i W), <- skipn_skipn, firstn_skipn.
Qed.

Lemma partition_ids (m : gmap string ChatService.Cached) (chats : list ChatService.Chat) :
  map remoteJid
    (omap (fun chat => ChatService.cachedResult chat <$> m !! ChatService.chat_id chat) chats
     ++ map processChat
          (List.filter (fun chat => bool_decide (m !! ChatService.chat_id chat = None)) chats))
  ≡ₚ map ChatService.chat_id chats.
Proof.
  induction chats as [|chat chats IH]; [done|].
  cbn [omap list_omap List.filter].
  destruct (m !! ChatService.chat_id chat) as [c|] eqn:E.
  - rewrite bool_decide_false by done. cbn. by rewrite IH.
  - rewrite bool_decide_true by done. cbn [fmap option_fmap option_map map].
    rewrite map_app in *. cbn [map]. rewrite processChat_remoteJid.
    rewrite <- Permutation_middle. by rewrite IH.
Qed.

Lemma processChatsBatch_total fuel chats W db :
  (0 < W)%nat -> (length chats <= fuel)%nat ->
  exists db' r,
    ChatService.processChatsBatch toLocaleString toUpperCase selectCache
      getMessagesForChat DB getClient query fuel chats W db = Some (db', r)
    /\ forall results, r = Normal results ->
         length results = length chats
         /\ map remoteJid results ≡ₚ map ChatService.chat_id chats.
Proof.
  intros HW Hf. unfold ChatService.processChatsBatch.
  destruct (ChatService.getCachedConversations _ _) as [m|e] eqn:Em.
  2:{ eexists _, _. split; [reflexivity|]. intros ? [=]. }
  rewrite chunkLoop_total; [|done|].
  2:{ pose proof (List.filter_length_le
        (fun chat => bool_decide (m !! ChatService.chat_id chat = None)) chats). lia. }
  cbn [mbind option_bind]. rewrite skipn_O.
  set (results := _ ++ map processChat _).
  assert (Hp : map remoteJid results ≡ₚ map ChatService.chat_id chats)
    by apply partition_ids.
  assert (Hl : length results = length chats).
  { apply Permutation_length in Hp. by rewrite !length_map in Hp. }
  destruct (0 <? _)%nat.
  - destruct (ChatService.saveConversationsToCache _ _ _ _ _) as [db' r].
    eexists _, _. split; [reflexivity|].
    intros rs Hr. destruct r; cbn [bind] in Hr; [|done]. by injection Hr as <-.
  - eexists _, _. split; [reflexivity|]. by intros rs [= <-].
Qed.

End ChatLoop.

(** The cache read and the outcome of a chat batch *)

Section ChatBatchShape.

Context (toLocaleString : JsValue -> string) (toUpperCase : string -> string)
  (selectCache : list string -> Completion (list ChatService.CacheRow))
  (DB : Type) (getClient : DB -> DB * Completion unit)
  (query : Stmt -> DB -> DB * Completion unit).

Local Abbreviation processChat :=
  (ChatService.processChat toLocaleString toUpperCase).
Local Abbreviation processChatsBatch :=
  (ChatService.processChatsBatch toLocaleString toUpperCase selectCache).
Local Abbreviation save := (ChatService.saveConversationsToCache DB getClient query).
Local Abbreviation cachedOnes := cachedResults.
Local Abbreviation uncached := chatsToProcess.

(** The cache read of a batch always yields a map. *)
Lemma cache_read_map (ids : list string) :
  exists m, ChatService.getCachedConversations selectCache ids = Normal m
    /\ (forall e, selectCache ids = Throw e -> m = ∅)
    /\ (ids = [] -> m = ∅).
Proof.
  unfold ChatService.getCachedConversations. destruct ids as [|j js].
  - exists ∅. by repeat split.
  - cbn [length Nat.eqb]. destruct (selectCache (j :: js)) as [rows|e]; cbn [bind try_catch].
    + eexists. split; [reflexivity|]. split; [intros e H; discriminate H|intros H; discriminate H].
    + exists ∅. by repeat split.
Qed.

(** The outcome of a batch in terms of the cache map, when the chunk loop
    has the fuel to finish. *)
Lemma processChatsBatch_shape getMessagesForChat fuel chats W db m :
  ChatService.getCachedConversations selectCache (map ChatService.chat_id chats) = Normal m ->
  (W = 0%nat -> uncached m chats = []) ->
  (length (uncached m chats) <= fuel)%nat ->
  let results := cachedOnes m chats ++ map (processChat getMessagesForChat) (uncached m chats) in
  let new := List.filter (fun r => hasMessages r)
               (map (processChat getMessagesForChat) (uncached m chats)) in
  processChatsBatch getMessagesForChat DB getClient query fuel chats W db
  = Some (if (0 <? length new)%nat
          then (fst (save new db), bind (snd (save new db)) (fun _ => Normal results))
          else (db, Normal results)).
Proof.
  intros Hm HW Hf results new. unfold ChatService.processChatsBatch. rewrite Hm.
  fold (cachedResults m chats). fold (chatsToProcess m chats).
  assert (Hloop : ChatService.chunkLoop toLocaleString toUpperCase getMessagesForChat fuel W
                    (uncached m chats) 0 (cachedOnes m chats) []
                  = Some (results, new)).
  { destruct (Nat.eq_dec W 0) as [H0|H0].
    - subst results new. rewrite !(HW H0). cbn [map List.filter].
      rewrite app_nil_r. by destruct fuel.
    - rewrite chunkLoop_total by lia. by rewrite skipn_O. }
  cbv zeta. rewrite Hloop. cbv beta iota delta [mbind option_bind].
  fold new. fold results. destruct (Nat.ltb _ _); [|done]. by destruct (save new db).
Qed.

End ChatBatchShape.

(** The cache write throws only when no connection can be obtained or the
    ROLLBACK itself fails. *)
Lemma save_outcome (DB : Type) (getClient : DB -> DB * Completion unit)
    (query : Stmt -> DB -> DB * Completion unit) (convs : list ConvData) (db : DB) :
  snd (ChatService.saveConversationsToCache DB getClient query convs db) = Normal tt
  \/ exists e,
       snd (ChatService.saveConversationsToCache DB getClient query convs db) = Throw e
       /\ (snd (getClient db) = Throw e
           \/ exists db1, snd (query SRollback db1) = Throw e).
Proof.
  unfold ChatService.saveConversationsToCache.
  destruct (Nat.eqb _ _); [by left|].
  destruct (getClient db) as [db0 [[]|e0]]; [|right; exists e0; split; [done|by left]].
  destruct (ChatService.cacheTransaction DB query convs db0) as [db1 [[]|e1]]; [by left|].
  destruct (query SRollback db1) as [db2 [[]|e2]] eqn:E; [by left|].
  right. exists e2. split; [done|]. right. exists db1. by rewrite E.
Qed.




(** ** The bulk insert *)

Section BulkLoop.

Context (JSON_stringify : JsValue -> string) (parseInt parseFloat : JsValue -> JsValue)
  (nowISO : string) (DB : Type) (getClient : DB -> DB * Completion unit)
  (query : Stmt -> DB -> DB * Completion unit).

Local Abbreviation ins :=
  (fun row => SInsertReport
     (DatabaseService.prepareInsertValues JSON_stringify parseInt parseFloat nowISO row)).
Local Abbreviation insertLoop :=
  (DatabaseService.insertLoop JSON_stringify parseInt parseFloat nowISO DB query).
Local Abbreviation send := (DatabaseService.send DB query).
Local Abbreviation Counters := DatabaseService.Counters.
Local Abbreviation successCount := DatabaseService.successCount.
Local Abbreviation errorCount := DatabaseService.errorCount.
Local Abbreviation errs := DatabaseService.errs.

Lemma send_log stmt c :
  snd (fst (send stmt c)) = snd c ++ [(stmt, completed (snd (send stmt c)))].
Proof. unfold DatabaseService.send. by destruct (query stmt (fst c)). Qed.

Lemma completedInserts_cons (s : Stmt) (b : bool) (log : list (Stmt * bool)) :
  isInsert s = true ->
  completedInserts ((s, b) :: log) = ((if b then 1 else 0) + completedInserts log)%nat.
Proof. intros H. unfold completedInserts. cbn. rewrite H. by destruct b. Qed.

Lemma rejectedInserts_cons (s : Stmt) (b : bool) (log : list (Stmt * bool)) :
  isInsert s = true ->
  rejectedInserts ((s, b) :: log) = ((if b then 0 else 1) + rejectedInserts log)%nat.
Proof. intros H. unfold rejectedInserts. cbn. rewrite H. by destruct b. Qed.

(** The loop sends the inserts of a prefix of the rows, once each and in
    order; its counters count the completed and the rejected ones. *)
Lemma insertLoop_spec rows : forall k c,
  (errorCount k <= 50)%nat ->
  exists n log,
    (n <= length rows)%nat
    /\ snd (fst (insertLoop rows k c)) = snd c ++ log
    /\ map fst log = map ins (firstn n rows)
    /\ match snd (insertLoop rows k c) with
       | Normal k' =>
           n = length rows
           /\ successCount k' = (successCount k + completedInserts log)%nat
           /\ errorCount k' = (errorCount k + rejectedInserts log)%nat
           /\ length (errs k') = (length (errs k) + rejectedInserts log)%nat
           /\ (errorCount k' <= 50)%nat
       | Throw e =>
           e = DatabaseService.tooManyErrors
           /\ (errorCount k + rejectedInserts log)%nat = 51%nat
       end.
Proof.
  induction rows as [|row rows IH]; intros k c Hk.
  - exists 0%nat, []. cbn. rewrite app_nil_r. repeat split; lia.
  - cbn [DatabaseService.insertLoop].
    pose proof (send_log (ins row) c) as Hlog.
    destruct (send (ins row) c) as [c' r] eqn:Es. cbn [fst snd] in Hlog.
    destruct r as [[]|e]; cbn [completed] in Hlog.
    + destruct (IH (DatabaseService.mkCounters (S (successCount k)) (errorCount k) (errs k)) c')
        as (n & log & Hn & Hl & Hm & Hr); [done|].
      exists (S n), ((ins row, true) :: log). split; [cbn; lia|].
      split; [by rewrite Hl, Hlog, <- app_assoc|].
      split; [cbn; by rewrite Hm|].
      destruct (snd (insertLoop rows _ c')) as [k'|e'].
      * cbn [DatabaseService.successCount DatabaseService.errorCount DatabaseService.errs] in Hr.
        destruct Hr as (-> & H1 & H2 & H3 & H4).
        rewrite completedInserts_cons, rejectedInserts_cons by reflexivity.
        repeat split; lia.
      * cbn [DatabaseService.errorCount] in Hr. destruct Hr as [-> H1].
        rewrite rejectedInserts_cons by reflexivity.
        split; [done|lia].
    + cbn [DatabaseService.errorCount].
      destruct (Nat.ltb 50 (S (errorCount k))) eqn:E.
      * exists 1%nat, [(ins row, false)]. cbn [fst snd].
        split; [cbn; lia|]. split; [done|]. split; [done|].
        split; [done|]. apply Nat.ltb_lt in E. unfold rejectedInserts. cbn. lia.
      * apply Nat.ltb_ge in E.
        destruct (IH (DatabaseService.mkCounters (successCount k) (S (errorCount k))
                        (errs k ++ [DatabaseService.rowError row e])) c')
          as (n & log & Hn & Hl & Hm & Hr); [done|].
        exists (S n), ((ins row, false) :: log). split; [cbn; lia|].
        split; [by rewrite Hl, Hlog, <- app_assoc|].
        split; [cbn; by rewrite Hm|].
        rewrite ?completedInserts_cons, ?rejectedInserts_cons by reflexivity.
        destruct (snd (insertLoop rows _ c')) as [k'|e'].
        -- cbn [DatabaseService.successCount DatabaseService.errorCount DatabaseService.errs] in Hr.
           destruct Hr as (-> & H1 & H2 & H3 & H4). rewrite length_app in H3.
           cbn [length] in H3. repeat split; lia.
        -- cbn [DatabaseService.errorCount] in Hr. destruct Hr as [-> H1].
           split; [done|lia].
Qed.

Lemma insertLoop_app pre rest : forall k c,
  insertLoop (pre ++ rest) k c
  = match insertLoop pre k c with
    | (c', Normal k') => insertLoop rest k' c'
    | (c', Throw e) => (c', Throw e)
    end.
Proof.
  induction pre as [|row pre IH]; intros k c; [done|].
  cbn [app DatabaseService.insertLoop].
  destruct (send (ins row) c) as [c' [[]|e]]; [apply IH|].
  destruct (Nat.ltb _ _); [done|apply IH].
Qed.

(** A run of rejected rows that takes the error count past 50 makes the
    loop throw, within the run. *)
Lemma insertLoop_rejected bad post : forall k c,
  Forall (fun row => rejected query (ins row)) bad ->
  (errorCount k <= 50)%nat -> (50 < errorCount k + length bad)%nat ->
  exists c',
    insertLoop (bad ++ post) k c = (c', Throw DatabaseService.tooManyErrors)
    /\ (length (snd c') + errorCount k <= length (snd c) + 51)%nat.
Proof.
  induction bad as [|row bad IH]; intros k c Hbad Hk Hlen; [cbn in Hlen; lia|].
  apply Forall_cons in Hbad as [Hrow Hbad].
  cbn [app DatabaseService.insertLoop].
  pose proof (send_log (ins row) c) as Hlog.
  destruct (Hrow (fst c)) as [e He].
  unfold DatabaseService.send in *.
  destruct (query (ins row) (fst c)) as [db' r]. cbn [fst snd] in *. subst r.
  cbn [completed DatabaseService.errorCount] in *.
  destruct (Nat.ltb 50 (S (errorCount k))) eqn:E.
  - eexists. split; [reflexivity|]. cbn [snd]. rewrite length_app. cbn. lia.
  - apply Nat.ltb_ge in E.
    destruct (IH (DatabaseService.mkCounters (successCount k) (S (errorCount k))
                    (errs k ++ [DatabaseService.rowError row e]))
                 (db', snd c ++ [(ins row, false)]) Hbad)
      as (c' & Hrun & Hl); [cbn; lia|cbn in *; lia|].
    exists c'. split; [exact Hrun|]. cbn in Hl. rewrite length_app in Hl. cbn in Hl. lia.
Qed.

Lemma counts_app (l1 l2 : list (Stmt * bool)) :
  completedInserts (l1 ++ l2) = (completedInserts l1 + completedInserts l2)%nat
  /\ rejectedInserts (l1 ++ l2) = (rejectedInserts l1 + rejectedInserts l2)%nat.
Proof.
  unfold completedInserts, rejectedInserts. by rewrite !List.filter_app, !length_app.
Qed.

Lemma filter_isInsert_ins (l : list JsObj) :
  List.filter isInsert (map ins l) = map ins l.
Proof. induction l as [|x l IH]; [done|]. cbn. by rewrite IH. Qed.

Lemma counts_total (log : list (Stmt * bool)) : forall l : list JsObj,
  map fst log = map ins l ->
  (completedInserts log + rejectedInserts log)%nat = length l.
Proof.
  induction log as [|[s b] log IH]; intros [|x l] H; try done.
  cbn in H. injection H as -> H.
  rewrite completedInserts_cons, rejectedInserts_cons by reflexivity.
  cbn [length]. specialize (IH l H). destruct b; lia.
Qed.

(** The statements of a call and its result, case by case. *)
Lemma bulkInsert_cases (rows : list JsObj) (db : DB) :
  let out := DatabaseService.bulkInsertAnalysisResults JSON_stringify parseInt parseFloat
               nowISO DB getClient query rows db in
  let sent := snd (fst out) in
  (sent = [] /\ (snd out = Normal (DatabaseService.mkResult 0 0 []) /\ rows = []
                 \/ exists e, snd out = Throw e))
  \/ (exists log k,
        sent = (SBegin, true) :: log ++ [(SCommit, true)]
        /\ map fst log = map ins rows
        /\ snd out = Normal (DatabaseService.mkResult (completedInserts log)
                               (rejectedInserts log) (errs k))
        /\ length (errs k) = rejectedInserts log
        /\ (rejectedInserts log <= 50)%nat)
  \/ (exists n log fin ok e,
        (n <= length rows)%nat
        /\ sent = log ++ fin ++ [(SRollback, ok)]
        /\ (n = 0%nat /\ log = [(SBegin, false)]
            \/ exists log', log = (SBegin, true) :: log' /\ map fst log' = map ins (firstn n rows))
        /\ (fin = [] \/ fin = [(SCommit, false)])
        /\ (fin = [] -> log = [(SBegin, false)] \/ e = DatabaseService.tooManyErrors)
        /\ (if ok
            then snd out = Normal (DatabaseService.mkResult 0 (length rows)
                                    [ {[ "error" := VStr (message e) ]} ])
            else exists e', snd out = Throw e')).
Proof.
  intros out sent. subst sent out. unfold DatabaseService.bulkInsertAnalysisResults.
  destruct (Nat.eqb (length rows) 0) eqn:E0.
  { left. split; [done|]. left. split; [done|].
    apply Nat.eqb_eq in E0. by destruct rows. }
  destruct (getClient db) as [db0 [[]|e0]].
  2:{ left. split; [done|]. right. by exists e0. }
  unfold DatabaseService.transaction.
  pose proof (send_log SBegin (db0, [])) as Hb.
  destruct (send SBegin (db0, [])) as [c1 [[]|e1]]; cbn [fst snd completed] in Hb.
  2:{ right. right.
      pose proof (send_log SRollback c1) as Hr.
      destruct (send SRollback c1) as [c' [[]|e']]; cbn [fst snd completed] in Hr |- *.
      - exists 0%nat, [(SBegin, false)], [], true, e1.
        rewrite Hr, Hb. split; [lia|]. split; [done|]. split; [by left|].
        split; [by left|]. split; [by left|]. done.
      - exists 0%nat, [(SBegin, false)], [], false, e1.
        rewrite Hr, Hb. split; [lia|]. split; [done|]. split; [by left|].
        split; [by left|]. split; [by left|]. by exists e'. }
  destruct (insertLoop_spec rows (DatabaseService.mkCounters 0 0 []) c1)
    as (n & log & Hn & Hl & Hm & Hr); [cbn; lia|].
  destruct (insertLoop rows _ c1) as [c2 [k|e2]]; cbn [fst snd] in Hl, Hr.
  - cbn [DatabaseService.successCount DatabaseService.errorCount DatabaseService.errs length] in Hr.
    destruct Hr as (-> & H1 & H2 & H3 & H4). rewrite firstn_all in Hm.
    pose proof (send_log SCommit c2) as Hc.
    destruct (send SCommit c2) as [c3 [[]|e3]]; cbn [fst snd completed] in Hc.
    + right. left. exists log, k. cbn [fst snd]. rewrite Hc, Hl, Hb.
      split; [done|]. split; [done|]. rewrite H1, H2. cbn [Nat.add].
      split; [done|]. split; lia.
    + right. right.
      pose proof (send_log SRollback c3) as Hrb.
      destruct (send SRollback c3) as [c' [[]|e']]; cbn [fst snd completed] in Hrb |- *.
      * exists (length rows), ((SBegin, true) :: log), [(SCommit, false)], true, e3.
        rewrite Hrb, Hc, Hl, Hb. split; [lia|]. split; [by rewrite <- !app_assoc|].
        split; [right; exists log; by rewrite firstn_all|].
        split; [by right|]. split; [done|]. done.
      * exists (length rows), ((SBegin, true) :: log), [(SCommit, false)], false, e3.
        rewrite Hrb, Hc, Hl, Hb. split; [lia|]. split; [by rewrite <- !app_assoc|].
        split; [right; exists log; by rewrite firstn_all|].
        split; [by right|]. split; [done|]. by exists e'.
  - destruct Hr as [-> Hr]. right. right.
    pose proof (send_log SRollback c2) as Hrb.
    destruct (send SRollback c2) as [c' [[]|e']]; cbn [fst snd completed] in Hrb |- *.
    + exists n, ((SBegin, true) :: log), [], true, DatabaseService.tooManyErrors.
      rewrite Hrb, Hl, Hb. split; [lia|]. split; [done|].
      split; [right; by exists log|]. split; [by left|]. split; [by right|]. done.
    + exists n, ((SBegin, true) :: log), [], false, DatabaseService.tooManyErrors.
      rewrite Hrb, Hl, Hb. split; [lia|]. split; [done|].
      split; [right; by exists log|]. split; [by left|]. split; [by right|]. by exists e'.
Qed.

Lemma not_commit_ins (l : list JsObj) : ~ In SCommit (map ins l).
Proof. induction l as [|x l IH]; cbn; [tauto|]. intros [H|H]; [discriminate|tauto]. Qed.

Lemma insertLoop_aborts pre bad post k c :
  Forall (fun row => rejected query (ins row)) bad -> (50 < length bad)%nat ->
  (errorCount k <= 50)%nat ->
  exists c' log,
    insertLoop (pre ++ bad ++ post) k c = (c', Throw DatabaseService.tooManyErrors)
    /\ snd c' = snd c ++ log
    /\ (length log <= length pre + 51)%nat
    /\ ~ In SCommit (map fst log).
Proof.
  intros Hbad Hlen Hk.
  destruct (insertLoop_spec (pre ++ bad ++ post) k c Hk) as (n & log & _ & Hl & Hm & _).
  assert (Hnc : ~ In SCommit (map fst log)) by (rewrite Hm; apply not_commit_ins).
  rewrite insertLoop_app in Hl |- *.
  destruct (insertLoop_spec pre k c Hk) as (n1 & log1 & Hn1 & Hl1 & Hm1 & Hr1).
  assert (Hlen1 : (length log1 <= length pre)%nat).
  { rewrite <- (length_map fst log1), Hm1, length_map, length_firstn. lia. }
  destruct (insertLoop pre k c) as [c1 [k1|e1]]; cbn [fst snd] in Hl1, Hr1.
  - destruct Hr1 as (_ & _ & _ & _ & Hk1).
    destruct (insertLoop_rejected bad post k1 c1 Hbad Hk1) as (c' & Hrun & Hb); [lia|].
    rewrite Hrun in Hl |- *. cbn [fst snd] in Hl.
    exists c', log. split; [done|]. split; [done|]. split; [|done].
    rewrite Hl, Hl1, !length_app in Hb. lia.
  - destruct Hr1 as [-> _]. cbn [fst snd] in Hl.
    exists c1, log. split; [done|]. split; [done|]. split; [|done].
    rewrite Hl1 in Hl. apply app_inv_head in Hl. subst log1. lia.
Qed.

Lemma rejectedInserts_control (s : Stmt) (b : bool) (log : list (Stmt * bool)) :
  isInsert s = false -> rejectedInserts ((s, b) :: log) = rejectedInserts log.
Proof. intros H. unfold rejectedInserts. cbn. by rewrite H. Qed.

Lemma rejectedInserts_snoc (s : Stmt) (b : bool) (log : list (Stmt * bool)) :
  isInsert s = false -> rejectedInserts (log ++ [(s, b)]) = rejectedInserts log.
Proof.
  intros H. destruct (counts_app log [(s, b)]) as [_ ->].
  rewrite rejectedInserts_control by done. unfold rejectedInserts. cbn. lia.
Qed.

(** A call sees at most 51 rejected inserts, and one that sees the 51st
    ends in ROLLBACK without sending COMMIT. *)
Lemma bulkInsert_cap (rows : list JsObj) (db : DB) :
  let out := DatabaseService.bulkInsertAnalysisResults JSON_stringify parseInt parseFloat
               nowISO DB getClient query rows db in
  let sent := snd (fst out) in
  (rejectedInserts sent <= 51)%nat
  /\ ((50 < rejectedInserts sent)%nat ->
      ~ In SCommit (map fst sent)
      /\ forall res, snd out = Normal res ->
           List.last (map fst sent) SBegin = SRollback
           /\ DatabaseService.success res = 0%nat
           /\ DatabaseService.failed res = length rows
           /\ length (DatabaseService.errors res) = 1%nat).
Proof.
  intros out sent. subst sent out. unfold DatabaseService.bulkInsertAnalysisResults.
  destruct (Nat.eqb (length rows) 0).
  { cbn. split; [lia|]. intros H. unfold rejectedInserts in H. cbn in H. lia. }
  destruct (getClient db) as [db0 [[]|e0]].
  2:{ cbn. split; [unfold rejectedInserts; cbn; lia|].
      intros H. unfold rejectedInserts in H. cbn in H. lia. }
  unfold DatabaseService.transaction.
  pose proof (send_log SBegin (db0, [])) as Hb.
  destruct (send SBegin (db0, [])) as [c1 [[]|e1]]; cbn [fst snd completed app] in Hb.
  2:{ pose proof (send_log SRollback c1) as Hr.
      destruct (send SRollback c1) as [c' [[]|e']]; cbn [fst snd] in Hr |- *;
        rewrite Hr, Hb; unfold rejectedInserts; cbn; (split; [lia|]); intros H; lia. }
  destruct (insertLoop_spec rows (DatabaseService.mkCounters 0 0 []) c1)
    as (n & log & Hn & Hl & Hm & Hr); [cbn; lia|].
  destruct (insertLoop rows _ c1) as [c2 [k|e2]]; cbn [fst snd] in Hl, Hr.
  - cbn [DatabaseService.errorCount] in Hr. destruct Hr as (_ & _ & H2 & _ & H4).
    assert (H50 : (rejectedInserts log <= 50)%nat) by lia.
    pose proof (send_log SCommit c2) as Hc.
    destruct (send SCommit c2) as [c3 [[]|e3]]; cbn [fst snd completed] in Hc |- *.
    + rewrite Hc, Hl, Hb. cbn [app].
      repeat first [rewrite rejectedInserts_control by done | rewrite rejectedInserts_snoc by done]. split; lia.
    + pose proof (send_log SRollback c3) as Hrb.
      destruct (send SRollback c3) as [c' [[]|e']]; cbn [fst snd] in Hrb |- *;
        rewrite Hrb, Hc, Hl, Hb; cbn [app];
        repeat first [rewrite rejectedInserts_control by done | rewrite rejectedInserts_snoc by done]; split; lia.
  - cbn [DatabaseService.errorCount] in Hr. destruct Hr as [-> H51].
    assert (Hnc : ~ In SCommit (map fst log)) by (rewrite Hm; apply not_commit_ins).
    pose proof (send_log SRollback c2) as Hrb.
    destruct (send SRollback c2) as [c' [[]|e']]; cbn [fst snd] in Hrb |- *;
      rewrite Hrb, Hl, Hb; cbn [app];
      repeat first [rewrite rejectedInserts_control by done | rewrite rejectedInserts_snoc by done];
      (split; [lia|]); intros _;
      rewrite map_cons, map_app; cbn [map fst];
      (split; [intros [H|H]; [discriminate|];
               apply in_app_or in H as [H|[H|[]]]; [tauto|discriminate]|]);
      intros res Hres; [|done]. injection Hres as <-.
    split; [|done]. by rewrite app_comm_cons, last_last.
Qed.

End BulkLoop.


(** ** The ways a bulk insert can go, and its effect on the server *)

Section BulkTrace.

Context (JSON_stringify : JsValue -> string) (parseInt parseFloat : JsValue -> JsValue)
  (nowISO : string) (DB : Type) (getClient : DB -> DB * Completion unit)
  (query : Stmt -> DB -> DB * Completion unit).

Local Abbreviation ins :=
  (fun row => SInsertReport
     (DatabaseService.prepareInsertValues JSON_stringify parseInt parseFloat nowISO row)).
Local Abbreviation insertLoop :=
  (DatabaseService.insertLoop JSON_stringify parseInt parseFloat nowISO DB query).
Local Abbreviation send := (DatabaseService.send DB query).

(** When the loop throws, the last statement it sent is a rejected insert. *)
Lemma insertLoop_throw_last (rows : list JsObj) : forall k c e,
  snd (insertLoop rows k c) = Throw e ->
  exists s log, snd (fst (insertLoop rows k c)) = snd c ++ log ++ [(s, false)].
Proof.
  induction rows as [|row rows IH]; intros k c e H; [discriminate H|].
  cbn [DatabaseService.insertLoop] in H |- *.
  pose proof (send_log DB query (ins row) c) as Hlog.
  destruct (send (ins row) c) as [c' [[]|e0]]; cbn [fst snd completed] in Hlog.
  - destruct (IH _ c' e H) as (s & log & Hl). rewrite Hl, Hlog.
    exists s, ((ins row, true) :: log). by rewrite <- app_assoc.
  - destruct (Nat.ltb 50 _).
    + exists (ins row), []. cbn [fst snd app]. exact Hlog.
    + destruct (IH _ c' e H) as (s & log & Hl). rewrite Hl, Hlog.
      exists s, ((ins row, false) :: log). by rewrite <- app_assoc.
Qed.

(** Every way a call can go, with the statements it sends. *)
Lemma bulkInsert_trace (rows : list JsObj) (db : DB) :
  let out := DatabaseService.bulkInsertAnalysisResults JSON_stringify parseInt parseFloat
               nowISO DB getClient query rows db in
  let sent := snd (fst out) in
  (rows = [] /\ sent = [] /\ snd out = Normal (DatabaseService.mkResult 0 0 []))
  \/ (rows <> [] /\ exists e, snd (getClient db) = Throw e /\ sent = [] /\ snd out = Throw e)
  \/ (rows <> [] /\ snd (getClient db) = Normal tt
      /\ ((exists ok e,
             sent = [(SBegin, false); (SRollback, ok)]
             /\ rollbackOutcome rows e ok (snd out))
          \/ (exists log res,
                sent = (SBegin, true) :: log ++ [(SCommit, true)]
                /\ map fst log = map ins rows
                /\ (rejectedInserts log <= 50)%nat
                /\ snd out = Normal res
                /\ DatabaseService.success res = completedInserts log
                /\ DatabaseService.failed res = rejectedInserts log
                /\ length (DatabaseService.errors res) = rejectedInserts log)
          \/ (exists log ok e,
                sent = (SBegin, true) :: log ++ [(SCommit, false); (SRollback, ok)]
                /\ map fst log = map ins rows
                /\ (rejectedInserts log <= 50)%nat
                /\ rollbackOutcome rows e ok (snd out))
          \/ (exists n log ok,
                (n <= length rows)%nat
                /\ sent = (SBegin, true) :: log ++ [(SRollback, ok)]
                /\ map fst log = map ins (firstn n rows)
                /\ rejectedInserts log = 51%nat
                /\ (exists s log', log = log' ++ [(s, false)])
                /\ rollbackOutcome rows DatabaseService.tooManyErrors ok (snd out)))).
Proof.
  cbv zeta. unfold DatabaseService.bulkInsertAnalysisResults.
  destruct rows as [|row0 rest] eqn:Erows; [left; by repeat split|].
  rewrite <- Erows. assert (Hne : rows <> []) by (rewrite Erows; discriminate).
  assert ((length rows =? 0)%nat = false) as -> by (rewrite Erows; reflexivity).
  clear Erows row0 rest. right.
  destruct (getClient db) as [db0 [[]|e0]].
  2:{ left. split; [done|]. by exists e0. }
  right. split; [done|]. split; [reflexivity|].
  unfold DatabaseService.transaction.
  pose proof (send_log DB query SBegin (db0, [])) as Hb.
  destruct (send SBegin (db0, [])) as [c1 [[]|e1]]; cbn [fst snd completed app] in Hb.
  2:{ left.
      pose proof (send_log DB query SRollback c1) as Hr.
      destruct (send SRollback c1) as [c' [[]|e']]; cbn [fst snd completed] in Hr |- *.
      - exists true, e1. rewrite Hr, Hb. split; reflexivity.
      - exists false, e1. rewrite Hr, Hb. split; [reflexivity|]. by exists e'. }
  right.
  destruct (insertLoop_spec JSON_stringify parseInt parseFloat nowISO DB query rows
              (DatabaseService.mkCounters 0 0 []) c1)
    as (n & log & Hn & Hl & Hm & Hr); [cbn; lia|].
  pose proof (insertLoop_throw_last rows (DatabaseService.mkCounters 0 0 []) c1) as Hlast.
  destruct (insertLoop rows _ c1) as [c2 [k|e2]]; cbn [fst snd] in Hl, Hr, Hlast.
  - clear Hlast.
    cbn [DatabaseService.successCount DatabaseService.errorCount DatabaseService.errs length]
      in Hr.
    destruct Hr as (-> & H1 & H2 & H3 & H4). rewrite firstn_all in Hm.
    cbn [Nat.add] in H1, H2, H3.
    pose proof (send_log DB query SCommit c2) as Hc.
    destruct (send SCommit c2) as [c3 [[]|e3]]; cbn [fst snd completed] in Hc.
    + left. exists log. eexists. cbn [fst snd]. rewrite Hc, Hl, Hb.
      split; [reflexivity|]. split; [exact Hm|]. split; [lia|]. split; [reflexivity|].
      cbn [DatabaseService.success DatabaseService.failed DatabaseService.errors].
      by repeat split.
    + right. left.
      pose proof (send_log DB query SRollback c3) as Hrb.
      destruct (send SRollback c3) as [c' [[]|e']]; cbn [fst snd completed] in Hrb |- *.
      * exists log, true, e3. rewrite Hrb, Hc, Hl, Hb.
        split; [by rewrite <- !app_assoc|]. split; [exact Hm|]. split; [lia|]. reflexivity.
      * exists log, false, e3. rewrite Hrb, Hc, Hl, Hb.
        split; [by rewrite <- !app_assoc|]. split; [exact Hm|]. split; [lia|]. by exists e'.
  - destruct Hr as [-> Hr]. cbn [DatabaseService.errorCount Nat.add] in Hr. right. right.
    destruct (Hlast _ eq_refl) as (s & log' & Hl'). rewrite Hl in Hl'.
    apply app_inv_head in Hl'.
    pose proof (send_log DB query SRollback c2) as Hrb.
    destruct (send SRollback c2) as [c' [[]|e']]; cbn [fst snd completed] in Hrb |- *.
    + exists n, log, true. rewrite Hrb, Hl, Hb.
      split; [done|]. split; [done|]. split; [done|]. split; [done|].
      split; [by exists s, log'|done].
    + exists n, log, false. rewrite Hrb, Hl, Hb.
      split; [done|]. split; [done|]. split; [done|]. split; [done|].
      split; [by exists s, log'|by exists e'].
Qed.

End BulkTrace.

Section BulkOnServer.

Context (JSON_stringify : JsValue -> string) (parseInt parseFloat : JsValue -> JsValue)
  (nowISO : string).

Local Abbreviation prepare :=
  (DatabaseService.prepareInsertValues JSON_stringify parseInt parseFloat nowISO).
Local Abbreviation ins := (fun row => SInsertReport (prepare row)).
Local Abbreviation insertLoop :=
  (DatabaseService.insertLoop JSON_stringify parseInt parseFloat nowISO Postgres.State
     Postgres.query).
Local Abbreviation rejects := (fun row : JsObj => serverRejects (prepare row)).
Local Abbreviation inTxn t tx ab clk fs := (Postgres.mkState t (Some tx) ab clk fs).

(** One upsert inside a transaction of the model server: the committed
    tables stay as they are; the upsert completes only in a transaction
    that is not aborted, for an accepted row, and then joins the pending
    tables; when it fails the transaction is aborted. *)
Lemma insert_step t tx ab clk fs values :
  exists tx' ab' fs' r,
    Postgres.query (SInsertReport values) (inTxn t tx ab clk fs)
    = (inTxn t tx' ab' clk fs', r)
    /\ ab' = ab || negb (completed r)
    /\ (completed r = true -> serverRejects values = false /\ tx' = reportUpsert values tx)
    /\ (completed r = false -> tx' = tx).
Proof.
  assert (Hfail : forall e fs',
    Postgres.fail e (inTxn t tx ab clk fs) fs' = (inTxn t tx true clk fs', Throw e))
    by reflexivity.
  assert (Hwrite : forall fs', exists tx' ab' r,
    Postgres.write Postgres.upsertReport values (inTxn t tx ab clk fs) fs'
    = (inTxn t tx' ab' clk fs', r)
    /\ ab' = ab || negb (completed r)
    /\ (completed r = true -> serverRejects values = false /\ tx' = reportUpsert values tx)
    /\ (completed r = false -> tx' = tx)).
  { intros fs'. unfold Postgres.write. cbn [Postgres.aborted].
    destruct ab.
    { rewrite Hfail. exists tx, true. eexists. split; [reflexivity|]. cbn [completed].
      split; [reflexivity|]. split; [discriminate|reflexivity]. }
    unfold Postgres.upsertReport, serverRejects, reportUpsert, Postgres.current.
    cbn [Postgres.txn default].
    destruct values as [|v vs];
      [rewrite Hfail; exists tx, true; eexists; split; [reflexivity|]; cbn [completed];
       split; [reflexivity|]; split; [discriminate|reflexivity]|].
    destruct v;
      try (rewrite Hfail; exists tx, true; eexists; split; [reflexivity|]; cbn [completed];
           split; [reflexivity|]; split; [discriminate|reflexivity]).
    destruct (Postgres.overflows _).
    - rewrite Hfail. exists tx, true. eexists. split; [reflexivity|]. cbn [completed].
      split; [reflexivity|]. split; [discriminate|reflexivity].
    - eexists _, false. eexists. unfold Postgres.store. cbn [Postgres.txn Postgres.tables
        Postgres.clock]. split; [reflexivity|]. cbn [completed].
      split; [reflexivity|]. split; [by split|discriminate]. }
  unfold Postgres.query. cbn [Postgres.faults].
  destruct fs as [|[] fs'].
  - destruct (Hwrite []) as (tx' & ab' & r & H). exists tx', ab', [], r. exact H.
  - rewrite Hfail. exists tx, true, fs'. eexists. split; [reflexivity|]. cbn [completed].
    rewrite orb_true_r. split; [reflexivity|]. split; [discriminate|reflexivity].
  - cbn [tail]. destruct (Hwrite fs') as (tx' & ab' & r & H). exists tx', ab', fs', r. exact H.
Qed.

(** The insertion loop inside a transaction of the model server. *)
Lemma insertLoop_on_server t rows :
  forall (k : DatabaseService.Counters) (tx : Postgres.Tables) (ab : bool) (clk : Z)
         (fs : list bool) (log : list (Stmt * bool)),
  exists tx' ab' fs' ext r,
    insertLoop rows k (inTxn t tx ab clk fs, log) = ((inTxn t tx' ab' clk fs', log ++ ext), r)
    /\ ab' = ab || negb (forallb snd ext)
    /\ (forallb snd ext = true ->
        tx' = storedAll (map prepare (firstn (length ext) rows)) tx
        /\ existsb rejects (firstn (length ext) rows) = false)
    /\ match r with
       | Normal k' =>
           length ext = length rows
           /\ (forallb snd ext = true ->
               k' = DatabaseService.mkCounters
                      (DatabaseService.successCount k + length rows)
                      (DatabaseService.errorCount k) (DatabaseService.errs k))
       | Throw _ => forallb snd ext = false
       end.
Proof.
  induction rows as [|row rows IH]; intros k tx ab clk fs log.
  - exists tx, ab, fs, [], (Normal k). cbn [DatabaseService.insertLoop forallb negb length
      firstn map existsb]. rewrite app_nil_r, orb_false_r.
    split; [reflexivity|]. split; [reflexivity|]. split; [by split|].
    split; [reflexivity|]. intros _. destruct k. cbn. by rewrite Nat.add_0_r.
  - cbn [DatabaseService.insertLoop]. unfold DatabaseService.send. cbn [fst snd].
    destruct (insert_step t tx ab clk fs (prepare row))
      as (tx1 & ab1 & fs1 & r1 & -> & Hab & Hok & Hko).
    destruct r1 as [[]|e]; cbn [completed negb] in Hab, Hok, Hko |- *.
    + destruct (Hok eq_refl) as [Hrow ->]. rewrite orb_false_r in Hab. subst ab1.
      destruct (IH (DatabaseService.mkCounters
                      (Datatypes.S (DatabaseService.successCount k))
                      (DatabaseService.errorCount k) (DatabaseService.errs k))
                   (reportUpsert (prepare row) tx) ab clk fs1
                   (log ++ [(SInsertReport (prepare row), true)]))
        as (tx' & ab' & fs' & ext & r & -> & Hab' & Hall & Hr).
      exists tx', ab', fs', ((SInsertReport (prepare row), true) :: ext), r.
      rewrite <- app_assoc. cbn [app forallb snd andb length firstn map existsb].
      split; [reflexivity|]. split; [exact Hab'|]. split.
      * intros Ht. destruct (Hall Ht) as [-> Hex]. rewrite Hrow. cbn [orb].
        split; [reflexivity|exact Hex].
      * destruct r as [k'|e]; [|exact Hr].
        cbn [DatabaseService.successCount DatabaseService.errorCount DatabaseService.errs]
          in Hr. destruct Hr as [Hlen Hk]. split; [by rewrite Hlen|].
        intros Ht. rewrite (Hk Ht). f_equal. lia.
    + rewrite (Hko eq_refl). rewrite orb_true_r in Hab. subst ab1.
      cbn [DatabaseService.errorCount].
      destruct (Nat.ltb 50 (Datatypes.S (DatabaseService.errorCount k))).
      * exists tx, true, fs1, [(SInsertReport (prepare row), false)]. eexists.
        split; [reflexivity|]. cbn [forallb snd andb negb].
        rewrite orb_true_r. split; [reflexivity|]. split; [discriminate|reflexivity].
      * destruct (IH (DatabaseService.mkCounters (DatabaseService.successCount k)
                        (Datatypes.S (DatabaseService.errorCount k))
                        (DatabaseService.errs k ++ [DatabaseService.rowError row e]))
                     tx true clk fs1 (log ++ [(SInsertReport (prepare row), false)]))
          as (tx' & ab' & fs' & ext & r & -> & Hab' & Hall & Hr).
        cbn [orb] in Hab'. subst ab'.
        exists tx', true, fs', ((SInsertReport (prepare row), false) :: ext), r.
        rewrite <- app_assoc. cbn [app forallb snd andb negb length].
        rewrite orb_true_r. split; [reflexivity|]. split; [reflexivity|].
        split; [discriminate|].
        destruct r as [k'|e']; [|reflexivity].
        destruct Hr as [Hlen _]. split; [by rewrite Hlen|discriminate].
Qed.

End BulkOnServer.

Lemma getClient_on_idle t now fs :
  exists fs' r,
    Postgres.getClient (Postgres.idle t now fs) = (Postgres.mkState t None false now fs', r).
Proof. destruct fs as [|[] fs']; by eexists _, _. Qed.

Lemma begin_on_idle t now fs :
  exists fs',
    Postgres.query SBegin (Postgres.mkState t None false now fs)
    = (Postgres.mkState t (Some t) false now fs', Normal tt)
    \/ exists e, Postgres.query SBegin (Postgres.mkState t None false now fs)
                 = (Postgres.mkState t None false now fs', Throw e).
Proof.
  destruct fs as [|[] fs']; [exists []; by left|exists fs'; right; by eexists|
                             exists fs'; by left].
Qed.

Lemma commit_on_server t tx ab now fs :
  exists fs',
    Postgres.query SCommit (Postgres.mkState t (Some tx) ab now fs)
    = (Postgres.mkState (if ab then t else tx) None false now fs', Normal tt)
    \/ exists e, Postgres.query SCommit (Postgres.mkState t (Some tx) ab now fs)
                 = (Postgres.mkState t (Some tx) true now fs', Throw e).
Proof.
  destruct fs as [|[] fs']; [exists []; by left|exists fs'; right; by eexists|
                             exists fs'; by left].
Qed.

Lemma rollback_keeps_tables st :
  Postgres.tables (fst (Postgres.query SRollback st)) = Postgres.tables st.
Proof. destruct st as [t tx ab clk [|[] fs]]; reflexivity. Qed.

Lemma committedCleanly_failed (sent : list (Stmt * bool)) (s : Stmt) :
  In (s, false) sent -> committedCleanly sent = false.
Proof.
  intros Hin. unfold committedCleanly. destruct sent as [|x l] eqn:E; [done|].
  rewrite <- E in *. apply not_true_is_false. intros H.
  rewrite forallb_forall in H. specialize (H _ Hin). discriminate H.
Qed.

Section BulkAtomic.

Context (JSON_stringify : JsValue -> string) (parseInt parseFloat : JsValue -> JsValue)
  (nowISO : string).

Local Abbreviation prepare :=
  (DatabaseService.prepareInsertValues JSON_stringify parseInt parseFloat nowISO).

(** On the model server a call stores the whole batch or nothing, whatever
    the connection does: the batch is stored exactly when BEGIN, every
    insert and COMMIT completed. *)
Lemma bulkInsert_on_server (rows : list JsObj) (t : Postgres.Tables) (now : Z)
    (fs : list bool) :
  let out := DatabaseService.bulkInsertAnalysisResults JSON_stringify parseInt parseFloat
               nowISO Postgres.State Postgres.getClient Postgres.query rows
               (Postgres.idle t now fs) in
  let sent := snd (fst out) in
  Postgres.tables (fst (fst out))
    = (if committedCleanly sent then storedAll (map prepare rows) t else t)
  /\ (committedCleanly sent = true ->
      existsb (fun row => serverRejects (prepare row)) rows = false
      /\ snd out = Normal (DatabaseService.mkResult (length rows) 0 [])).
Proof.
  cbv zeta. unfold DatabaseService.bulkInsertAnalysisResults.
  destruct rows as [|row0 rest] eqn:Erows; [by split|].
  rewrite <- Erows. assert ((length rows =? 0)%nat = false) as ->
    by (rewrite Erows; reflexivity).
  clear Erows row0 rest.
  destruct (getClient_on_idle t now fs) as (fs0 & r0 & ->).
  destruct r0 as [[]|e0]; [|by split].
  unfold DatabaseService.transaction, DatabaseService.send. cbn [fst snd app].
  destruct (begin_on_idle t now fs0) as (fs1 & [->|(e1 & ->)]); cbn [fst snd completed].
  2:{ pose proof (rollback_keeps_tables (Postgres.mkState t None false now fs1)) as Hk'.
      destruct (Postgres.query SRollback _) as [st' [[]|e']];
        cbn [fst snd completed app Postgres.tables] in Hk' |- *; rewrite Hk'; by split. }
  destruct (insertLoop_on_server JSON_stringify parseInt parseFloat nowISO t rows
              (DatabaseService.mkCounters 0 0 []) t false now fs1 [(SBegin, true)])
    as (tx' & ab' & fs2 & ext & r & -> & Hab & Hall & Hr).
  cbn [orb] in Hab. cbn [fst snd app].
  destruct r as [k'|e].
  - destruct Hr as [Hlen Hk]. cbn [fst snd].
    destruct (commit_on_server t tx' ab' now fs2) as (fs3 & [->|(e3 & ->)]);
      cbn [fst snd completed].
    + cbn [Postgres.tables]. unfold committedCleanly. cbn [forallb snd andb].
      rewrite forallb_app. cbn [forallb snd andb]. rewrite andb_true_r.
      destruct (forallb snd ext) eqn:Eall.
      * cbn [negb] in Hab. subst ab'. destruct (Hall eq_refl) as [-> Hex].
        rewrite Hlen, firstn_all in Hex |- *. split; [reflexivity|]. intros _.
        split; [exact Hex|]. rewrite (Hk eq_refl). reflexivity.
      * cbn [negb] in Hab. subst ab'. by split.
    + pose proof (rollback_keeps_tables (Postgres.mkState t (Some tx') true now fs3)) as Hk'.
      destruct (Postgres.query SRollback _) as [st' [[]|e']];
        cbn [fst snd completed Postgres.tables] in Hk' |- *;
        rewrite (committedCleanly_failed _ SCommit)
          by (repeat (rewrite in_app_iff || cbn [In]); intuition);
        rewrite Hk'; by split.
  - cbn [fst snd].
    assert (Hext : exists s, In (s, false) ext).
    { clear -Hr. induction ext as [|[s b] ext IH]; [discriminate Hr|].
      destruct b.
      - cbn in Hr. destruct (IH Hr) as (s' & Hs). exists s'. by right.
      - exists s. by left. }
    destruct Hext as (s & Hs).
    pose proof (rollback_keeps_tables (Postgres.mkState t (Some tx') ab' now fs2)) as Hk'.
    destruct (Postgres.query SRollback _) as [st' [[]|e']];
      cbn [fst snd completed Postgres.tables] in Hk' |- *;
      rewrite (committedCleanly_failed _ s)
        by (repeat (rewrite in_app_iff || cbn [In]); intuition);
      rewrite Hk'; by split.
Qed.

End BulkAtomic.




(** C9. One call to [bulkInsertAnalysisResults] sees at most 51 rejected
    inserts: when the 51st is rejected, the cap of 50 being exceeded, the
    call stops inserting, never sends COMMIT, ends in ROLLBACK and returns one
    error for the whole batch (no row succeeded, all failed) instead of one
    failure per row. In particular a run of more than 50 consecutive rows
    that the store rejects makes the insertion loop throw 'Too many insertion
    errors': at most 51 inserts are sent after those of the rows before the
    run, and none for the rows after it. *)
Theorem error_cap_aborts_bulk_insert
    (JSON_stringify : JsValue -> string) (parseInt parseFloat : JsValue -> JsValue)
    (nowISO : string) (DB : Type) (getClient : DB -> DB * Completion unit)
    (query : Stmt -> DB -> DB * Completion unit)
    (analysisResults pre bad post : list JsObj) (db : DB) :
  let ins := fun row => SInsertReport (DatabaseService.prepareInsertValues JSON_stringify
                                         parseInt parseFloat nowISO row) in
  let call := fun rows =>
    DatabaseService.bulkInsertAnalysisResults JSON_stringify parseInt parseFloat
      nowISO DB getClient query rows db in
  ((rejectedInserts (snd (fst (call analysisResults))) <= 51)%nat
   /\ ((50 < rejectedInserts (snd (fst (call analysisResults))))%nat ->
       ~ In SCommit (map fst (snd (fst (call analysisResults))))
       /\ forall res, snd (call analysisResults) = Normal res ->
            List.last (map fst (snd (fst (call analysisResults)))) SBegin = SRollback
            /\ DatabaseService.success res = 0%nat
            /\ DatabaseService.failed res = length analysisResults
            /\ length (DatabaseService.errors res) = 1%nat))
  /\ (Forall (fun row => rejected query (ins row)) bad -> (50 < length bad)%nat ->
      let rows := pre ++ bad ++ post in
      let sent := snd (fst (call rows)) in
      (forall c, exists c',
         DatabaseService.insertLoop JSON_stringify parseInt parseFloat nowISO DB query rows
           (DatabaseService.mkCounters 0 0 []) c
         = (c', Throw DatabaseService.tooManyErrors))
      /\ ~ In SCommit (map fst sent)
      /\ (length (List.filter isInsert (map fst sent)) <= length pre + 51)%nat
      /\ forall res, snd (call rows) = Normal res ->
           List.last (map fst sent) SBegin = SRollback
           /\ DatabaseService.success res = 0%nat
           /\ DatabaseService.failed res = length rows
           /\ length (DatabaseService.errors res) = 1%nat).
Proof.
  intros ins call. split; [apply bulkInsert_cap|].
  intros Hbad Hlen rows sent.
  assert (Hloop : forall c, exists c' log,
            DatabaseService.insertLoop JSON_stringify parseInt parseFloat nowISO DB query
              rows (DatabaseService.mkCounters 0 0 []) c
              = (c', Throw DatabaseService.tooManyErrors)
            /\ snd c' = snd c ++ log /\ (length log <= length pre + 51)%nat
            /\ ~ In SCommit (map fst log)).
  { intros c. apply insertLoop_aborts; [done|done|cbn; lia]. }
  split; [intros c; destruct (Hloop c) as (c' & _ & H & _); eauto|].
  subst sent call. cbv beta. unfold DatabaseService.bulkInsertAnalysisResults.
  assert ((length rows =? 0)%nat = false) as ->.
  { apply Nat.eqb_neq. unfold rows. rewrite !length_app. lia. }
  destruct (getClient db) as [db0 [[]|e0]].
  2:{ cbn. split; [tauto|]. split; [lia|]. intros ? [=]. }
  unfold DatabaseService.transaction.
  pose proof (send_log DB query SBegin (db0, [])) as Hb.
  destruct (DatabaseService.send DB query SBegin (db0, [])) as [c1 [[]|e1]];
    cbn [fst snd completed app] in Hb.
  - destruct (Hloop c1) as (c2 & log & -> & Hl & Hlog & Hnc).
    pose proof (send_log DB query SRollback c2) as Hr.
    destruct (DatabaseService.send DB query SRollback c2) as [c' [[]|e']];
      cbn [fst snd] in Hr |- *;
      rewrite Hr, Hl, Hb; cbn [app map fst]; rewrite !map_app; cbn [map fst];
      (split; [intros [H|H]; [discriminate|];
               apply in_app_or in H as [H|[H|[]]]; [tauto|discriminate]|]);
      (split; [cbn [List.filter isInsert]; rewrite List.filter_app, length_app;
               cbn [List.filter isInsert length];
               pose proof (List.filter_length_le isInsert (map fst log)) as Hf;
               rewrite length_map in Hf; lia|]);
      intros res Hres; [|done]. injection Hres as <-.
    split; [|done]. by rewrite app_comm_cons, last_last.
  - pose proof (send_log DB query SRollback c1) as Hr.
    destruct (DatabaseService.send DB query SRollback c1) as [c' [[]|e']];
      cbn [fst snd] in Hr |- *; rewrite Hr, Hb; cbn;
      (split; [intros [H|[H|[]]]; discriminate|]); (split; [lia|]);
      intros res Hres; [|done]. by injection Hres as <-.
Qed.

Lemma percent_rejected : rejected Postgres.query (Sample.insertOf Sample.percentRow).
Proof.
  intros db. unfold Sample.insertOf.
  remember (DatabaseService.prepareInsertValues _ _ _ _ _) as values eqn:Hv.
  vm_compute in Hv. subst values.
  unfold Postgres.query, Postgres.write, Postgres.fail.
  destruct (Postgres.faults db) as [|[] fs]; destruct (Postgres.aborted db);
    cbn [Postgres.upsertReport snd]; eexists; reflexivity.
Qed.

Lemma error_cap_aborts_bulk_insert_witness :
  let rows := [Sample.reportRow "a@s.whatsapp.net"] ++ replicate 51 Sample.percentRow
              ++ [Sample.reportRow "b@s.whatsapp.net"] in
  ~ In SCommit (map fst (snd (fst (Sample.bulk rows [])))).
Proof.
  refine (proj1 (proj2 (proj2 (error_cap_aborts_bulk_insert Sample.JSON_stringify
                                 Sample.parseInt Sample.parseFloat Sample.nowISO
                                 Postgres.State Postgres.getClient Postgres.query []
                                 [Sample.reportRow "a@s.whatsapp.net"]
                                 (replicate 51 Sample.percentRow)
                                 [Sample.reportRow "b@s.whatsapp.net"]
                                 (Postgres.idle Postgres.noTables 0 [])) _ _))).
  - apply Forall_replicate. exact percent_rejected.
  - rewrite length_replicate. lia.
Defined.

(** ** The transcript cache: writes *)

Section CacheWrites.

Local Abbreviation cacheLoop := (ChatService.cacheLoop Postgres.State Postgres.query).
Local Abbreviation save :=
  (ChatService.saveConversationsToCache Postgres.State Postgres.getClient Postgres.query).

Lemma hasText_true v :
  ChatService.hasText v = Normal true -> exists s, v = VStr s /\ all_space s = false.
Proof.
  destruct v; cbn; try discriminate; try (destruct (truthy _); discriminate).
  - destruct b; discriminate.
  - destruct (negb (Qeq_bool q 0)); discriminate.
  - intros [= H]. exists s. split; [done|].
    apply andb_prop in H as [_ H]. apply negb_true_iff, String.eqb_neq in H.
    destruct (all_space s) eqn:E; [|done]. by apply trim_all_space in E.
Qed.

Lemma good_fail e st fs : goodState st -> goodState (fst (Postgres.fail e st fs)).
Proof. by intros [H1 H2]. Qed.

Lemma good_current st : goodState st -> cacheHasText (Postgres.current st).
Proof.
  intros [H1 H2]. unfold Postgres.current. destruct (Postgres.txn st) as [t|] eqn:E; cbn; auto.
Qed.

Lemma good_getClient st : goodState st -> goodState (fst (Postgres.getClient st)).
Proof. intros [H1 H2]. unfold Postgres.getClient. by destruct (Postgres.faults st) as [|[] ?]. Qed.

Lemma good_control stmt st :
  stmt = SBegin \/ stmt = SCommit \/ stmt = SRollback ->
  goodState st -> goodState (fst (Postgres.query stmt st)).
Proof.
  intros Hs Hg. pose proof (good_current st Hg) as Hc. destruct Hg as [H1 H2].
  unfold Postgres.query.
  destruct (Postgres.faults st) as [|[] fs]; [| by apply good_fail |];
    destruct Hs as [-> | [-> | ->]]; cbn [fst]; split; cbn; try done;
    try (by intros t [= <-]); by destruct (Postgres.aborted st).
Qed.

Lemma good_insert conv st :
  ChatService.hasText (conversation conv) = Normal true ->
  goodState st ->
  goodState (fst (Postgres.query (SInsertCache (ChatService.cacheValues conv)) st)).
Proof.
  intros Ht Hg. pose proof (good_current st Hg) as Hc.
  assert (Hrow : cacheHasText
            (Postgres.mkTables
               (<[remoteJid conv := rowOf (Postgres.clock st) conv]>
                  (Postgres.conversationCache (Postgres.current st)))
               (Postgres.salesAnalysisReport (Postgres.current st)))).
  { apply map_Forall_insert_2; [|exact Hc]. split; [done|]. by apply hasText_true. }
  unfold Postgres.query.
  destruct (Postgres.faults st) as [|[] fs]; [| by apply good_fail |];
    unfold Postgres.write; (destruct (Postgres.aborted st); [by apply good_fail|]);
    cbn [ChatService.cacheValues Postgres.upsertCache fst]; unfold Postgres.store;
    destruct Hg as [H1 H2]; destruct (Postgres.txn st) as [t|] eqn:E;
    split; cbn; try done; try (by intros t' [= <-]).
Qed.

Lemma good_cacheLoop convs : forall st,
  goodState st -> goodState (fst (cacheLoop convs st)).
Proof.
  induction convs as [|conv convs IH]; intros st Hg; [done|].
  cbn [ChatService.cacheLoop].
  destruct (ChatService.hasText (conversation conv)) as [[]|e] eqn:Ht; [|by apply IH|done].
  pose proof (good_insert conv st Ht Hg) as Hi.
  destruct (Postgres.query _ st) as [st' [[]|e]]; [by apply IH|done].
Qed.

Lemma good_save convs st : goodState st -> goodState (fst (save convs st)).
Proof.
  intros Hg. unfold ChatService.saveConversationsToCache.
  destruct (Nat.eqb _ _); [done|].
  pose proof (good_getClient st Hg) as H0.
  destruct (Postgres.getClient st) as [st0 [[]|e0]]; [|done]. cbn [fst] in H0.
  assert (H1 : goodState (fst (ChatService.cacheTransaction Postgres.State Postgres.query
                                 convs st0))).
  { unfold ChatService.cacheTransaction.
    pose proof (good_control SBegin st0 (or_introl eq_refl) H0) as Hb.
    destruct (Postgres.query SBegin st0) as [st1 [[]|e1]]; [|done]. cbn [fst] in Hb.
    pose proof (good_cacheLoop convs st1 Hb) as Hl.
    destruct (cacheLoop convs st1) as [st2 [[]|e2]]; [|done].
    apply good_control; auto. }
  destruct (ChatService.cacheTransaction _ _ _ _) as [st1 [[]|e1]]; [done|].
  apply good_control; auto.
Qed.

Lemma cacheWrite_hasText t w : cacheHasText t -> cacheHasText (cacheWrite t w).
Proof.
  intros Ht. unfold cacheWrite. apply good_save. split; [done|]. intros t' [=].
Qed.

Lemma afterWrites_hasText ws : cacheHasText (afterWrites ws).
Proof.
  unfold afterWrites.
  assert (H : cacheHasText Postgres.noTables) by apply map_Forall_empty.
  revert H. generalize Postgres.noTables.
  induction ws as [|w ws IH]; intros t Ht; [done|]. cbn. apply IH. by apply cacheWrite_hasText.
Qed.

Lemma upserts_outside now convs : forall cache k,
  k ∉ map remoteJid convs -> upserts now convs cache !! k = cache !! k.
Proof.
  induction convs as [|conv convs IH]; intros cache k Hk; [done|].
  cbn in Hk. apply not_elem_of_cons in Hk as [Hne Hk].
  unfold upserts in *. cbn [fold_left]. rewrite IH by done. by rewrite lookup_insert_ne.
Qed.

Lemma upserts_agree now convs : forall c c',
  (forall k, k ∉ map remoteJid convs -> c !! k = c' !! k) ->
  upserts now convs c = upserts now convs c'.
Proof.
  induction convs as [|conv convs IH]; intros c c' H.
  - apply map_eq. intros k. apply H. cbn. apply not_elem_of_nil.
  - unfold upserts in *. cbn [fold_left]. apply IH. intros k Hk.
    destruct (decide (remoteJid conv = k)) as [->|Hne].
    + by rewrite !lookup_insert_eq.
    + rewrite !lookup_insert_ne by done. apply H. cbn. by apply not_elem_of_cons.
Qed.

(** Writing the same conversations again overwrites what the first write
    stored. *)
Lemma upserts_absorb now1 now2 convs c :
  upserts now2 convs (upserts now1 convs c) = upserts now2 convs c.
Proof. apply upserts_agree. intros k Hk. by apply upserts_outside. Qed.

(** The cache loop in an open, healthy transaction. *)
Lemma cacheLoop_clean convs : forall st tx,
  Postgres.faults st = [] -> Postgres.aborted st = false -> Postgres.txn st = Some tx ->
  Postgres.tables (fst (cacheLoop convs st)) = Postgres.tables st
  /\ Postgres.faults (fst (cacheLoop convs st)) = []
  /\ Postgres.clock (fst (cacheLoop convs st)) = Postgres.clock st
  /\ (if anyTypeError convs
      then exists e, snd (cacheLoop convs st) = Throw e
      else snd (cacheLoop convs st) = Normal tt
           /\ Postgres.aborted (fst (cacheLoop convs st)) = false
           /\ Postgres.txn (fst (cacheLoop convs st))
              = Some (Postgres.mkTables
                        (upserts (Postgres.clock st) (kept convs)
                           (Postgres.conversationCache tx))
                        (Postgres.salesAnalysisReport tx))).
Proof.
  induction convs as [|conv convs IH]; intros st tx Hf Ha Ht.
  - cbn. rewrite Ht. by destruct tx.
  - cbn [ChatService.cacheLoop anyTypeError existsb kept List.filter].
    destruct (ChatService.hasText (conversation conv)) as [[]|e] eqn:Hc; cbn [completed negb orb].
    + set (tx' := Postgres.mkTables
                    (<[remoteJid conv := rowOf (Postgres.clock st) conv]>
                       (Postgres.conversationCache tx))
                    (Postgres.salesAnalysisReport tx)).
      set (st1 := Postgres.mkState (Postgres.tables st) (Some tx') false
                    (Postgres.clock st) []).
      assert (Hq : Postgres.query (SInsertCache (ChatService.cacheValues conv)) st
                   = (st1, Normal tt)).
      { unfold Postgres.query, Postgres.write. rewrite Hf, Ha.
        cbn [ChatService.cacheValues Postgres.upsertCache tail]. unfold Postgres.store.
        rewrite Ht. unfold Postgres.current. by rewrite Ht. }
      rewrite Hq.
      destruct (IH st1 tx' eq_refl eq_refl eq_refl) as (H1 & H2 & H3 & H4).
      split; [done|]. split; [done|]. split; [done|]. exact H4.
    + by apply IH.
    + cbn. repeat split; try done. by exists e.
Qed.

(** A write on a healthy connection: nothing changes when a transcript is
    not a string, otherwise the kept conversations are upserted in order. *)
Lemma commit_clean st tx :
  Postgres.faults st = [] -> Postgres.aborted st = false -> Postgres.txn st = Some tx ->
  Postgres.tables (fst (Postgres.query SCommit st)) = tx.
Proof.
  intros Hf Ha Ht. unfold Postgres.query. rewrite Hf, Ha. cbn.
  unfold Postgres.current. by rewrite Ht.
Qed.

Lemma rollback_clean st :
  Postgres.faults st = [] ->
  Postgres.tables (fst (Postgres.query SRollback st)) = Postgres.tables st.
Proof. intros Hf. unfold Postgres.query. by rewrite Hf. Qed.

(** A write on a healthy connection: nothing changes when a transcript is
    not a string, otherwise the kept conversations are upserted in order. *)
Lemma cacheWrite_clean t convs now :
  cacheWrite t (convs, now, [])
  = if anyTypeError convs then t
    else Postgres.mkTables (upserts now (kept convs) (Postgres.conversationCache t))
           (Postgres.salesAnalysisReport t).
Proof.
  unfold cacheWrite, ChatService.saveConversationsToCache. cbn [fst snd].
  destruct convs as [|conv convs]; [cbn; by destruct t|].
  cbn [length Nat.eqb].
  set (st1 := Postgres.mkState t (Some t) false now []).
  change (Postgres.getClient (Postgres.idle t now []))
    with (Postgres.idle t now [], @Normal unit tt).
  cbv beta iota. unfold ChatService.cacheTransaction.
  change (Postgres.query SBegin (Postgres.idle t now [])) with (st1, @Normal unit tt).
  cbv beta iota.
  destruct (cacheLoop_clean (conv :: convs) st1 t eq_refl eq_refl eq_refl)
    as (H1 & H2 & H3 & H4).
  destruct (cacheLoop (conv :: convs) st1) as [st2 r]. cbn [fst snd] in *.
  destruct (anyTypeError (conv :: convs)).
  - destruct H4 as [e ->]. by rewrite rollback_clean.
  - destruct H4 as (-> & Ha & Htx).
    pose proof (commit_clean st2 _ H2 Ha Htx) as Hc.
    destruct (Postgres.query SCommit st2) as [st3 [[]|e]] eqn:E; cbn [fst] in Hc |- *.
    + exact Hc.
    + unfold Postgres.query in E. rewrite H2 in E. discriminate E.
Qed.

End CacheWrites.


(** ** The statements of a cache write *)

Section CacheStatements.

Context (DB : Type) (query : Stmt -> DB -> DB * Completion unit).

Lemma runStatements_app (l1 l2 : list Stmt) : forall db,
  runStatements query (l1 ++ l2) db
  = match runStatements query l1 db with
    | (db', Normal _) => runStatements query l2 db'
    | (db', Throw e) => (db', Throw e)
    end.
Proof.
  induction l1 as [|s l1 IH]; intros db; [done|]. cbn [app runStatements].
  destruct (query s db) as [db' [[]|e]]; [apply IH|done].
Qed.

(** The loop sends the upserts of the conversations it keeps, in order. *)
Lemma cacheLoop_statements (convs : list ConvData) : forall db,
  anyTypeError convs = false ->
  ChatService.cacheLoop DB query convs db
  = runStatements query (map cacheUpsert (kept convs)) db.
Proof.
  induction convs as [|conv convs IH]; intros db H; [done|].
  unfold anyTypeError in H. cbn [existsb] in H. apply orb_false_iff in H as [H1 H2].
  cbn [ChatService.cacheLoop]. unfold kept. cbn [List.filter].
  destruct (ChatService.hasText (conversation conv)) as [[]|e]; [| |discriminate H1].
  - cbn [map runStatements]. unfold cacheUpsert at 1.
    destruct (query _ db) as [db' [[]|e]]; [|done]. by apply IH.
  - by apply IH.
Qed.

Lemma cacheTransaction_statements (convs : list ConvData) (db : DB) :
  anyTypeError convs = false ->
  ChatService.cacheTransaction DB query convs db
  = runStatements query (SBegin :: map cacheUpsert (kept convs) ++ [SCommit]) db.
Proof.
  intros H. unfold ChatService.cacheTransaction. cbn [runStatements].
  destruct (query SBegin db) as [db1 [[]|e1]]; [|done].
  rewrite runStatements_app, cacheLoop_statements by done.
  destruct (runStatements query (map cacheUpsert (kept convs)) db1) as [db2 [[]|e2]]; [|done].
  cbn [runStatements]. by destruct (query SCommit db2) as [db3 [[]|e3]].
Qed.

(** The whole write: nothing for an empty list; otherwise a connection, the
    transaction, and ROLLBACK when a statement of the transaction fails. *)
Lemma save_statements (getClient : DB -> DB * Completion unit) (convs : list ConvData)
    (db : DB) :
  anyTypeError convs = false ->
  ChatService.saveConversationsToCache DB getClient query convs db
  = match convs with
    | [] => (db, Normal tt)
    | _ =>
        match getClient db with
        | (db0, Throw e) => (db0, Throw e)
        | (db0, Normal _) =>
            match runStatements query
                    (SBegin :: map cacheUpsert (kept convs) ++ [SCommit]) db0 with
            | (db1, Normal _) => (db1, Normal tt)
            | (db1, Throw _) => query SRollback db1
            end
        end
    end.
Proof.
  intros H. unfold ChatService.saveConversationsToCache.
  destruct convs as [|conv convs]; [done|]. cbn [length Nat.eqb].
  destruct (getClient db) as [db0 [[]|e0]]; [|done].
  by rewrite cacheTransaction_statements.
Qed.

End CacheStatements.

(** The rows of an upsert sequence: the last conversation written under an
    identifier decides its row, other rows stay. *)
Lemma upserts_lookup now convs : forall cache k,
  upserts now convs cache !! k
  = match last (conversationsOf k convs) with
    | Some conv => Some (rowOf now conv)
    | None => cache !! k
    end.
Proof.
  induction convs as [|conv convs IH] using rev_ind; intros cache k; [done|].
  unfold upserts, conversationsOf in *. rewrite fold_left_app, List.filter_app.
  cbn [fold_left List.filter].
  destruct (String.eqb_spec (remoteJid conv) k) as [->|Hne].
  - by rewrite lookup_insert_eq, last_snoc.
  - rewrite lookup_insert_ne by done. rewrite app_nil_r. apply IH.
Qed.

Lemma hasText_string s :
  ChatService.hasText (VStr s) = Normal (negb (all_space s)).
Proof.
  unfold ChatService.hasText. f_equal. destruct (all_space s) eqn:E.
  - rewrite (trim_all_space _ E). change (String.eqb "" "") with true. apply andb_false_r.
  - assert (Ht : String.eqb (trim s) "" = false).
    { apply String.eqb_neq. intros Ht%trim_empty_iff. congruence. }
    rewrite Ht. destruct s; [discriminate E|reflexivity].
Qed.

Lemma kept_spec convs conv :
  In conv (kept convs)
  <-> In conv convs /\ exists s, conversation conv = VStr s /\ all_space s = false.
Proof.
  unfold kept. rewrite filter_In. split; intros [Hin H]; (split; [exact Hin|]).
  - destruct (ChatService.hasText (conversation conv)) as [[]|e] eqn:Ht; try discriminate H.
    by apply hasText_true.
  - destruct H as (s & -> & Hs). by rewrite hasText_string, Hs.
Qed.

(** C7. The cache write is an upsert keyed by conversation identifier that
    drops blank transcripts. [saveConversationsToCache] sends, on one
    connection, BEGIN, one upsert for each conversation it keeps, in order,
    and COMMIT, with ROLLBACK when one of them fails; the conversations it
    keeps are exactly those whose transcript is a string that is neither
    empty nor all white space, and the loop sends no statement for the
    others. Against the model server a write on a healthy connection leaves
    under each identifier the row of the last kept conversation with that
    identifier, and every other row as it was; writing the same conversations
    again leaves the cache as a single write would; and whatever the sequence
    of writes, their clocks and the connection faults they meet, every row of
    the cache is stored under its own conversation identifier and holds a
    transcript that is neither empty nor all white space. *)
Theorem cache_never_holds_blank_transcript :
  (forall ws, cacheHasText (afterWrites ws))
  /\ (forall t convs now1 now2,
        cacheWrite (cacheWrite t (convs, now1, [])) (convs, now2, [])
        = cacheWrite t (convs, now2, []))
  /\ (forall (DB : Type) (query : Stmt -> DB -> DB * Completion unit)
             (conv : ConvData) (rest : list ConvData) (db : DB) (s : string),
        conversation conv = VStr s -> all_space s = true ->
        ChatService.cacheLoop DB query (conv :: rest) db
        = ChatService.cacheLoop DB query rest db)
  /\ (forall convs conv,
        In conv (kept convs)
        <-> In conv convs /\ exists s, conversation conv = VStr s /\ all_space s = false)
  /\ (forall (DB : Type) (getClient : DB -> DB * Completion unit)
             (query : Stmt -> DB -> DB * Completion unit)
             (convs : list ConvData) (db : DB),
        anyTypeError convs = false ->
        ChatService.saveConversationsToCache DB getClient query convs db
        = match convs with
          | [] => (db, Normal tt)
          | _ =>
              match getClient db with
              | (db0, Throw e) => (db0, Throw e)
              | (db0, Normal _) =>
                  match runStatements query
                          (SBegin :: map cacheUpsert (kept convs) ++ [SCommit]) db0 with
                  | (db1, Normal _) => (db1, Normal tt)
                  | (db1, Throw _) => query SRollback db1
                  end
              end
          end)
  /\ (forall t convs now,
        anyTypeError convs = false ->
        cacheWrite t (convs, now, [])
        = Postgres.mkTables (upserts now (kept convs) (Postgres.conversationCache t))
            (Postgres.salesAnalysisReport t)
        /\ forall k,
             Postgres.conversationCache (cacheWrite t (convs, now, [])) !! k
             = match last (conversationsOf k (kept convs)) with
               | Some conv => Some (rowOf now conv)
               | None => Postgres.conversationCache t !! k
               end).
Proof.
  split; [exact afterWrites_hasText|]. split.
  { intros t convs now1 now2. rewrite !cacheWrite_clean.
    destruct (anyTypeError convs); [done|].
    cbn [Postgres.conversationCache Postgres.salesAnalysisReport].
    by rewrite upserts_absorb. }
  split.
  { intros DB query conv rest db s Hs Hb. cbn [ChatService.cacheLoop].
    rewrite Hs. unfold ChatService.hasText.
    rewrite (trim_all_space _ Hb). change (String.eqb "" "") with true.
    by rewrite andb_false_r. }
  split; [exact kept_spec|]. split.
  { intros DB getClient query convs db H. by apply save_statements. }
  intros t convs now H. rewrite cacheWrite_clean, H. split; [reflexivity|].
  intros k. cbn [Postgres.conversationCache]. apply upserts_lookup.
Qed.

Lemma cache_never_holds_blank_transcript_witness :
  ChatService.cacheLoop Postgres.State Postgres.query [Sample.blankChat; Sample.chatA]
    (Postgres.idle Postgres.noTables 0 [])
  = ChatService.cacheLoop Postgres.State Postgres.query [Sample.chatA]
      (Postgres.idle Postgres.noTables 0 []).
Proof.
  refine (proj1 (proj2 (proj2 cache_never_holds_blank_transcript)) Postgres.State Postgres.query
            Sample.blankChat [Sample.chatA] (Postgres.idle Postgres.noTables 0 [])
            "  " _ _); reflexivity.
Defined.


(** * Further properties *)

(** ** The analyzer, item by item *)

Section AnalyzerBatch.

Context (OPENAI_MODEL : JsValue) (systemPrompt : string)
  (openai : AIAnalyzer.Request -> AIAnalyzer.Reply) (elapsed : AIAnalyzer.Request -> Z)
  (S : Type) (data : list ConvData) (W : nat)
  (cb : option (list JsObj -> S -> S * Completion unit)).

Local Abbreviation item := (AIAnalyzer.analyzeItem OPENAI_MODEL systemPrompt openai elapsed).
Local Abbreviation checkpoint := (AIAnalyzer.checkpoint S cb).
Local Abbreviation iteration :=
  (AIAnalyzer.iteration OPENAI_MODEL systemPrompt openai elapsed S data W cb).
Local Abbreviation batchLoop :=
  (AIAnalyzer.batchLoop OPENAI_MODEL systemPrompt openai elapsed S data W cb).
Local Abbreviation finalSave := (AIAnalyzer.finalSave S cb).

Lemma trySave_requests f items st :
  AIAnalyzer.requests S (AIAnalyzer.trySave S f items st) = AIAnalyzer.requests S st.
Proof. unfold AIAnalyzer.trySave. by destruct (f items _). Qed.

Lemma checkpoint_requests st :
  AIAnalyzer.requests S (checkpoint st) = AIAnalyzer.requests S st.
Proof.
  unfold AIAnalyzer.checkpoint. destruct cb as [f|]; [|done]. cbv beta iota.
  destruct (Nat.eqb _ _); [|done]. cbn [AIAnalyzer.requests].
  destruct (Nat.ltb _ _); [|done]. apply trySave_requests.
Qed.

Lemma finalSave_requests st :
  AIAnalyzer.requests S (finalSave st) = AIAnalyzer.requests S st.
Proof.
  unfold AIAnalyzer.finalSave. destruct cb as [f|]; [|done]. cbv beta iota.
  destruct (Nat.ltb _ _); [|done]. destruct (Nat.ltb _ _); [|done]. apply trySave_requests.
Qed.

Lemma batchLoop_requests fuel : forall i st st',
  batchLoop fuel i st = Some st' ->
  AIAnalyzer.requests S st'
  = AIAnalyzer.requests S st ++ concat (map (fun d => fst (item d)) (skipn i data)).
Proof.
  induction fuel as [|fuel IH]; intros i st st'; cbn [AIAnalyzer.batchLoop].
  - destruct (Nat.leb _ _) eqn:E; [|done]. intros [= <-].
    apply Nat.leb_le in E. rewrite skipn_all2 by lia. cbn [map concat]. by rewrite app_nil_r.
  - destruct (Nat.leb _ _) eqn:E.
    + intros [= <-]. apply Nat.leb_le in E. rewrite skipn_all2 by lia.
      cbn [map concat]. by rewrite app_nil_r.
    + intros H. rewrite (IH _ _ _ H). unfold AIAnalyzer.iteration.
      rewrite checkpoint_requests. cbn [AIAnalyzer.requests].
      rewrite <- app_assoc. f_equal. rewrite map_map, <- concat_app, <- map_app.
      by rewrite (Nat.add_comm i W), <- skipn_skipn, firstn_skipn.
Qed.

(** A property kept by every iteration holds when the loop ends. *)
Lemma batchLoop_invariant (P : AIAnalyzer.BatchState S -> Prop) :
  (forall i st, P st -> P (iteration i st)) ->
  forall fuel i st st', batchLoop fuel i st = Some st' -> P st -> P st'.
Proof.
  intros Hstep. induction fuel as [|fuel IH]; intros i st st'; cbn [AIAnalyzer.batchLoop];
    destruct (Nat.leb _ _); try done; try (by intros [= <-]).
  intros H HP. eapply IH; [exact H|]. by apply Hstep.
Qed.

End AnalyzerBatch.

(** X1. When the classifier call on a transcript that is not blank fails, or
    its answer cannot be parsed, analyzeSalesConversation issues that one
    request and returns the empty analysis of the conversation with four
    fields overridden: error is the failure's message, aiModelUsed is 'error',
    analysisConfidence is 0.1 and processingTimeMs is the time the request
    took; every other field is that of the empty analysis. *)
Theorem classifier_failure_gives_annotated_empty_analysis
    (OPENAI_MODEL : JsValue) (systemPrompt : string)
    (openai : AIAnalyzer.Request -> AIAnalyzer.Reply) (elapsed : AIAnalyzer.Request -> Z)
    (s jid : string) (e : JsError) :
  let req := AIAnalyzer.mkRequest (AIAnalyzer.modelUsed OPENAI_MODEL) systemPrompt
               (AIAnalyzer.buildAnalysisPrompt s) in
  all_space s = false ->
  openai req = AIAnalyzer.ApiError e \/ openai req = AIAnalyzer.Malformed e ->
  exists r,
    AIAnalyzer.analyzeSalesConversation OPENAI_MODEL systemPrompt openai elapsed (VStr s) jid
    = ([req], Normal r)
    /\ get r "error" = VStr (message e)
    /\ get r "aiModelUsed" = VStr "error"
    /\ get r "analysisConfidence" = VNum 0.1
    /\ get r "processingTimeMs" = VNum (inject_Z (elapsed req))
    /\ forall k,
         k ∉ ["error"; "processingTimeMs"; "aiModelUsed"; "analysisConfidence"] ->
         r !! k = AIAnalyzer.getEmptyAnalysis jid !! k.
Proof.
  intros req Hs Hr. rewrite analyze_nonblank by done. fold req.
  eexists. split; [reflexivity|].
  assert (H : forall k,
    k ∉ ["error"; "processingTimeMs"; "aiModelUsed"; "analysisConfidence"] ->
    (<["error" := VStr (message e)]>
       (<["processingTimeMs" := VNum (inject_Z (elapsed req))]>
          (<["aiModelUsed" := VStr "error"]>
             (<["analysisConfidence" := VNum 0.1]> (AIAnalyzer.getEmptyAnalysis jid)))))
      !! k = AIAnalyzer.getEmptyAnalysis jid !! k).
  { intros k Hk. repeat (apply not_elem_of_cons in Hk as [? Hk]).
    by rewrite !lookup_insert_ne. }
  destruct Hr as [-> | ->]; (repeat split; [js_lookup; reflexivity..|exact H]).
Qed.

Lemma classifier_failure_witness :
  exists r,
    AIAnalyzer.analyzeSalesConversation VUndefined "" Sample.outOfQuota Sample.latency
      (VStr "Customer: hello") Sample.jidA
    = ([AIAnalyzer.mkRequest (AIAnalyzer.modelUsed VUndefined) ""
          (AIAnalyzer.buildAnalysisPrompt "Customer: hello")], Normal r)
    /\ get r "error" = VStr "You exceeded your current quota".
Proof.
  destruct (classifier_failure_gives_annotated_empty_analysis VUndefined ""
              Sample.outOfQuota Sample.latency "Customer: hello" Sample.jidA
              Sample.quotaError)
    as (r & H1 & H2 & _); [reflexivity|by left|].
  exists r. split; [exact H1|exact H2].
Defined.

(** X2. Whatever happens to an item of the analyzer batch, its result carries
    the conversation's own remoteJid and the item's metadata (an empty object
    when it has none), and the parameters prepared for its insert carry that
    remoteJid first and, as confidence, parseFloat of the result's
    analysisConfidence. *)
Theorem result_row_keeps_conversation_identity
    (OPENAI_MODEL : JsValue) (systemPrompt : string)
    (openai : AIAnalyzer.Request -> AIAnalyzer.Reply) (elapsed : AIAnalyzer.Request -> Z)
    (JSON_stringify : JsValue -> string) (parseInt parseFloat : JsValue -> JsValue)
    (nowISO : string) (d : ConvData) :
  let r := snd (AIAnalyzer.analyzeItem OPENAI_MODEL systemPrompt openai elapsed d) in
  let values := DatabaseService.prepareInsertValues JSON_stringify parseInt parseFloat
                  nowISO r in
  get r "remoteJid" = VStr (remoteJid d)
  /\ get r "metadata" = or_else (metadata d) (VObj ∅)
  /\ nth 0 values VUndefined = VStr (remoteJid d)
  /\ nth 34 values VUndefined = parseFloat (get r "analysisConfidence").
Proof.
  intros r values.
  destruct (item_identity OPENAI_MODEL systemPrompt openai elapsed d) as (H1 & H2 & H3).
  fold r in H1, H2, H3. split; [done|]. split; [done|].
  subst values. unfold DatabaseService.prepareInsertValues. cbn [nth].
  split; [done|]. unfold or_else at 2. rewrite H3. unfold or_else. by rewrite H3.
Qed.

(** X3. For an item whose transcript is a string, the result is marked
    analysisSuccess exactly when the item has no error and has messages; in
    particular a failure of the classifier on such an item leaves the result
    marked successful, with the error message but no errorCode, so it is never
    counted as a quota failure. *)
Theorem loaded_conversation_is_marked_successful
    (OPENAI_MODEL : JsValue) (systemPrompt : string)
    (openai : AIAnalyzer.Request -> AIAnalyzer.Reply) (elapsed : AIAnalyzer.Request -> Z)
    (d : ConvData) (s : string) :
  let r := snd (AIAnalyzer.analyzeItem OPENAI_MODEL systemPrompt openai elapsed d) in
  let req := AIAnalyzer.mkRequest (AIAnalyzer.modelUsed OPENAI_MODEL) systemPrompt
               (AIAnalyzer.buildAnalysisPrompt s) in
  conversation d = VStr s ->
  AIAnalyzer.analysisSuccess r = analysable d
  /\ forall e, analysable d = true -> all_space s = false ->
       openai req = AIAnalyzer.ApiError e \/ openai req = AIAnalyzer.Malformed e ->
       get r "error" = VStr (message e)
       /\ get r "errorCode" = VUndefined
       /\ AIAnalyzer.isQuotaError r = false.
Proof.
  intros r req Hs. split.
  - subst r. rewrite item_success, Hs.
    destruct (analyze_string_returns OPENAI_MODEL systemPrompt openai elapsed s
                (remoteJid d)) as (r' & -> & _).
    cbn [completed]. by rewrite andb_true_r.
  - intros e Ha Hb Hr. subst r.
    rewrite (item_nonblank OPENAI_MODEL systemPrompt openai elapsed d s Ha Hs Hb).
    fold req. cbn [snd]. unfold AIAnalyzer.isQuotaError.
    destruct Hr as [-> | ->]; js_lookup;
      fold (get (AIAnalyzer.getEmptyAnalysis (remoteJid d)) "errorCode");
      rewrite empty_no_errorCode; repeat split; reflexivity.
Qed.

Lemma loaded_conversation_witness :
  AIAnalyzer.analysisSuccess
    (snd (AIAnalyzer.analyzeItem VUndefined "" Sample.outOfQuota Sample.latency Sample.chatA))
  = analysable Sample.chatA.
Proof.
  refine (proj1 (loaded_conversation_is_marked_successful VUndefined "" Sample.outOfQuota
                   Sample.latency Sample.chatA _ _)).
  reflexivity.
Defined.

Lemma item_requests_needs
    (OPENAI_MODEL : JsValue) (systemPrompt : string)
    (openai : AIAnalyzer.Request -> AIAnalyzer.Reply) (elapsed : AIAnalyzer.Request -> Z)
    (d : ConvData) :
  fst (AIAnalyzer.analyzeItem OPENAI_MODEL systemPrompt openai elapsed d)
  = if needsRequest d
    then match conversation d with
         | VStr s => [AIAnalyzer.mkRequest (AIAnalyzer.modelUsed OPENAI_MODEL) systemPrompt
                        (AIAnalyzer.buildAnalysisPrompt s)]
         | _ => []
         end
    else [].
Proof.
  rewrite item_requests. unfold needsRequest, analysable.
  destruct (negb (truthy (error d)) && hasMessages d); [|done]. cbn [andb].
  destruct (conversation d) as [| |b|q| |s|t|l|o];
    try (unfold AIAnalyzer.analyzeSalesConversation; by destruct (negb (truthy _))).
  destruct (all_space s) eqn:E; cbn [negb].
  - by rewrite analyze_blank.
  - by rewrite analyze_nonblank.
Qed.

Lemma requests_of_items
    (OPENAI_MODEL : JsValue) (systemPrompt : string)
    (openai : AIAnalyzer.Request -> AIAnalyzer.Reply) (elapsed : AIAnalyzer.Request -> Z)
    (l : list ConvData) :
  concat (map (fun d => fst (AIAnalyzer.analyzeItem OPENAI_MODEL systemPrompt openai
                               elapsed d)) l)
  = omap (requestOf OPENAI_MODEL systemPrompt) l
  /\ length (omap (requestOf OPENAI_MODEL systemPrompt) l)
     = length (List.filter needsRequest l).
Proof.
  induction l as [|d l [IH1 IH2]]; [done|].
  cbn [map concat List.filter]. rewrite IH1, item_requests_needs.
  change (omap ?f (d :: l)) with
    (match f d with Some y => y :: omap f l | None => omap f l end).
  assert (Hd : requestOf OPENAI_MODEL systemPrompt d
               = if needsRequest d
                 then match conversation d with
                      | VStr s => Some (AIAnalyzer.mkRequest (AIAnalyzer.modelUsed OPENAI_MODEL)
                                          systemPrompt (AIAnalyzer.buildAnalysisPrompt s))
                      | _ => None
                      end
                 else None)
    by (unfold requestOf; destruct (conversation d), (needsRequest d); reflexivity).
  rewrite Hd. destruct (needsRequest d) eqn:En.
  - unfold needsRequest in En. destruct (conversation d);
      try (rewrite andb_false_r in En; discriminate En).
    cbn [app length]. split; [reflexivity|]. rewrite IH2. reflexivity.
  - destruct (conversation d); split; first [reflexivity|exact IH2].
Qed.

(** X4. A batch run sends the classifier exactly one request for each
    conversation that has no error, has messages and whose transcript is a
    string that is not blank, in input order, and none for any other
    conversation. *)
Theorem one_request_per_analysed_conversation
    (OPENAI_MODEL : JsValue) (systemPrompt : string)
    (openai : AIAnalyzer.Request -> AIAnalyzer.Reply) (elapsed : AIAnalyzer.Request -> Z)
    (S : Type) (cb : option (list JsObj -> S -> S * Completion unit))
    (conversationData : list ConvData) (batchSize fuel : nat) (s0 : S) :
  (0 < batchSize)%nat -> (length conversationData <= fuel)%nat ->
  exists st,
    AIAnalyzer.analyzeConversationsBatch OPENAI_MODEL systemPrompt openai elapsed S
      conversationData batchSize cb fuel s0 = Some st
    /\ AIAnalyzer.requests S st = omap (requestOf OPENAI_MODEL systemPrompt) conversationData
    /\ length (AIAnalyzer.requests S st) = length (List.filter needsRequest conversationData).
Proof.
  intros HW Hf.
  destruct (batchLoop_total OPENAI_MODEL systemPrompt openai elapsed S conversationData
              batchSize cb fuel 0 (AIAnalyzer.mkBatch S [] [] 0 s0 [] []) HW)
    as (st & Hrun & _); [lia|reflexivity|].
  exists (AIAnalyzer.finalSave S cb st).
  unfold AIAnalyzer.analyzeConversationsBatch. rewrite Hrun. split; [reflexivity|].
  rewrite finalSave_requests.
  rewrite (batchLoop_requests _ _ _ _ _ _ _ _ _ _ _ _ Hrun).
  cbn [AIAnalyzer.requests app]. rewrite skipn_O.
  destruct (requests_of_items OPENAI_MODEL systemPrompt openai elapsed conversationData)
    as [H1 H2].
  rewrite H1. by split.
Qed.

Lemma one_request_witness :
  exists st,
    AIAnalyzer.analyzeConversationsBatch VUndefined "" Sample.unscored Sample.latency unit
      [Sample.chatA; Sample.blankChat] 5 None 2 tt = Some st
    /\ length (AIAnalyzer.requests unit st) = 1%nat.
Proof.
  destruct (one_request_per_analysed_conversation VUndefined "" Sample.unscored
              Sample.latency unit None [Sample.chatA; Sample.blankChat] 5 2 tt)
    as (st & H1 & _ & H3); [lia|reflexivity|].
  exists st. split; [exact H1|exact H3].
Defined.

(** X5. When every conversation of a batch run has an error or no messages,
    the run sends no request, never calls the save callback (its state is
    unchanged) and returns, for each conversation, the empty analysis with the
    conversation's metadata. *)
Theorem unanalysable_batch_saves_nothing
    (OPENAI_MODEL : JsValue) (systemPrompt : string)
    (openai : AIAnalyzer.Request -> AIAnalyzer.Reply) (elapsed : AIAnalyzer.Request -> Z)
    (S : Type) (save : list JsObj -> S -> S * Completion unit)
    (conversationData : list ConvData) (batchSize fuel : nat) (s0 : S) :
  (0 < batchSize)%nat -> (length conversationData <= fuel)%nat ->
  Forall (fun d => analysable d = false) conversationData ->
  exists st,
    AIAnalyzer.analyzeConversationsBatch OPENAI_MODEL systemPrompt openai elapsed S
      conversationData batchSize (Some save) fuel s0 = Some st
    /\ AIAnalyzer.flushes S st = []
    /\ AIAnalyzer.saver S st = s0
    /\ AIAnalyzer.requests S st = []
    /\ AIAnalyzer.results S st
       = map (fun d => <["metadata" := or_else (metadata d) (VObj ∅)]>
                         (AIAnalyzer.getEmptyAnalysis (remoteJid d)))
             conversationData.
Proof.
  intros HW Hf Hall.
  destruct (batchLoop_total OPENAI_MODEL systemPrompt openai elapsed S conversationData
              batchSize (Some save) fuel 0 (AIAnalyzer.mkBatch S [] [] 0 s0 [] []) HW)
    as (st & Hrun & Hres & _); [lia|reflexivity|].
  set (P := fun st : AIAnalyzer.BatchState S =>
              AIAnalyzer.flushes S st = [] /\ AIAnalyzer.saver S st = s0
              /\ filter (fun r => AIAnalyzer.analysisSuccess r = true)
                        (AIAnalyzer.accumulatedForSave S st) = []).
  assert (Hitem : forall d, analysable d = false ->
            AIAnalyzer.analyzeItem OPENAI_MODEL systemPrompt openai elapsed d
            = ([], <["metadata" := or_else (metadata d) (VObj ∅)]>
                     (AIAnalyzer.getEmptyAnalysis (remoteJid d)))).
  { intros d Hd. unfold AIAnalyzer.analyzeItem, analysable in *.
    destruct (truthy (error d)), (hasMessages d); done. }
  assert (Hno : forall l, Forall (fun d => analysable d = false) l ->
            filter (fun r => AIAnalyzer.analysisSuccess r = true)
              (map snd (map (AIAnalyzer.analyzeItem OPENAI_MODEL systemPrompt openai elapsed) l))
            = []).
  { induction 1 as [|d l Hd _ IH]; [done|]. cbn [map].
    rewrite filter_cons_False; [done|].
    rewrite item_success. unfold analysable in Hd. rewrite Hd. done. }
  assert (HP : P st).
  { eapply (batchLoop_invariant _ _ _ _ _ _ _ _ P); [|exact Hrun|by repeat split].
    intros i st1 (H1 & H2 & H3). unfold P, AIAnalyzer.iteration, AIAnalyzer.checkpoint.
    cbv beta iota zeta. cbn [AIAnalyzer.accumulatedForSave AIAnalyzer.batchNumber].
    rewrite !filter_app, !H3, !Hno by (apply Forall_take, Forall_drop, Hall).
    cbn [app length Nat.ltb Nat.leb].
    destruct (Nat.eqb _ _);
      cbn [AIAnalyzer.flushes AIAnalyzer.saver AIAnalyzer.accumulatedForSave];
      rewrite ?filter_app, ?H3, ?Hno by (apply Forall_take, Forall_drop, Hall);
      repeat split; assumption || reflexivity. }
  destruct HP as (H1 & H2 & H3).
  exists (AIAnalyzer.finalSave S (Some save) st).
  unfold AIAnalyzer.analyzeConversationsBatch. rewrite Hrun. split; [reflexivity|].
  assert (Hfin : AIAnalyzer.finalSave S (Some save) st = st).
  { unfold AIAnalyzer.finalSave. rewrite H3.
    change (0 <? length (@nil JsObj))%nat with false.
    destruct (Nat.ltb _ _); reflexivity. }
  rewrite Hfin. split; [done|]. split; [done|]. split.
  - rewrite (batchLoop_requests _ _ _ _ _ _ _ _ _ _ _ _ Hrun). cbn [AIAnalyzer.requests app].
    rewrite skipn_O. clear -Hall Hitem. induction Hall as [|d l Hd _ IH]; [done|].
    cbn [map concat]. by rewrite Hitem, IH.
  - rewrite Hres. cbn [AIAnalyzer.results app]. rewrite skipn_O.
    clear -Hall Hitem. induction Hall as [|d l Hd _ IH]; [done|].
    cbn [map]. by rewrite Hitem, IH.
Qed.

Lemma unanalysable_batch_witness :
  exists st,
    AIAnalyzer.analyzeConversationsBatch VUndefined "" Sample.unscored Sample.latency
      (Index.Saver Postgres.State)
      [mkConv Sample.jidA VUndefined VUndefined VUndefined false false (VStr "timeout")]
      5 (Some Sample.saveToPostgres) 1 (Sample.saver0 []) = Some st
    /\ AIAnalyzer.flushes _ st = []
    /\ AIAnalyzer.requests _ st = [].
Proof.
  destruct (unanalysable_batch_saves_nothing VUndefined "" Sample.unscored Sample.latency
              (Index.Saver Postgres.State) Sample.saveToPostgres
              [mkConv Sample.jidA VUndefined VUndefined VUndefined false false
                 (VStr "timeout")] 5 1 (Sample.saver0 []))
    as (st & H1 & H2 & _ & H4 & _); [lia|reflexivity|by repeat constructor|].
  exists st. split; [exact H1|]. split; [exact H2|exact H4].
Defined.

Section SaverInvariant.

Context (OPENAI_MODEL : JsValue) (systemPrompt : string)
  (openai : AIAnalyzer.Request -> AIAnalyzer.Reply) (elapsed : AIAnalyzer.Request -> Z)
  (S : Type) (data : list ConvData) (W : nat)
  (save : list JsObj -> S -> S * Completion unit)
  (R : S -> list AIAnalyzer.FlushEvent -> Prop).

Hypothesis save_keeps : forall items s fl,
  R s fl ->
  R (fst (save items s))
    (fl ++ [match snd (save items s) with
            | Normal _ => AIAnalyzer.SaveCompleted items
            | Throw e => AIAnalyzer.SaveFailed items (message e)
            end]).

Local Abbreviation inv :=
  (fun st : AIAnalyzer.BatchState S => R (AIAnalyzer.saver S st) (AIAnalyzer.flushes S st)).

Lemma trySave_keeps items st : inv st -> inv (AIAnalyzer.trySave S save items st).
Proof using R S save save_keeps.
  intros H. pose proof (save_keeps items _ _ H) as H'. unfold AIAnalyzer.trySave.
  destruct (save items (AIAnalyzer.saver S st)) as [s' c]. exact H'.
Qed.

Lemma checkpoint_keeps st : inv st -> inv (AIAnalyzer.checkpoint S (Some save) st).
Proof using R S save save_keeps.
  intros H. unfold AIAnalyzer.checkpoint. destruct (Nat.eqb _ _); [|done].
  cbv beta iota zeta. destruct (Nat.ltb _ _); [|done].
  cbn [AIAnalyzer.saver AIAnalyzer.flushes]. by apply trySave_keeps.
Qed.

Lemma finalSave_keeps st : inv st -> inv (AIAnalyzer.finalSave S (Some save) st).
Proof using R S save save_keeps.
  intros H. unfold AIAnalyzer.finalSave. destruct (Nat.ltb _ _); [|done].
  cbv beta iota zeta. destruct (Nat.ltb _ _); [|done]. by apply trySave_keeps.
Qed.

Lemma batch_keeps fuel s0 st :
  AIAnalyzer.analyzeConversationsBatch OPENAI_MODEL systemPrompt openai elapsed S data W
    (Some save) fuel s0 = Some st ->
  R s0 [] -> inv st.
Proof using OPENAI_MODEL R S W data elapsed openai save save_keeps.
  unfold AIAnalyzer.analyzeConversationsBatch. intros H H0.
  destruct (AIAnalyzer.batchLoop _ _ _ _ _ _ _ _ _ _ _) as [st1|] eqn:E; [|done].
  cbn in H. injection H as <-. apply finalSave_keeps.
  eapply (batchLoop_invariant _ _ _ _ _ _ _ _ inv); [|exact E|exact H0].
  intros i st2 H2. unfold AIAnalyzer.iteration. by apply checkpoint_keeps.
Qed.

End SaverInvariant.

Section SavedBound.

Context (JSON_stringify : JsValue -> string) (parseInt parseFloat : JsValue -> JsValue)
  (nowISO : string) (DB : Type) (getClient : DB -> DB * Completion unit)
  (query : Stmt -> DB -> DB * Completion unit).

Local Abbreviation bulkInsert :=
  (DatabaseService.bulkInsertAnalysisResults JSON_stringify parseInt parseFloat nowISO DB
     getClient query).
Local Abbreviation callback :=
  (Index.incrementalSaveCallback JSON_stringify parseInt parseFloat nowISO DB getClient
     query).

Lemma completedInserts_le (log : list (Stmt * bool)) :
  (completedInserts log <= length (List.filter isInsert (map fst log)))%nat.
Proof.
  unfold completedInserts. induction log as [|[s b] log IH]; [done|].
  cbn [List.filter map fst snd]. destruct (isInsert s), b; cbn [andb length]; lia.
Qed.

(** One bulk insert: the inserts that completed are at most the rows, and
    the count it reports is at most the inserts that completed. *)
Lemma bulkInsert_bound (rows : list JsObj) (db : DB) :
  (completedInserts (snd (fst (bulkInsert rows db))) <= length rows)%nat
  /\ forall res, snd (bulkInsert rows db) = Normal res ->
       (DatabaseService.success res <= completedInserts (snd (fst (bulkInsert rows db))))%nat.
Proof.
  pose proof (bulkInsert_cases JSON_stringify parseInt parseFloat nowISO DB getClient query
                rows db) as H. cbv zeta in H.
  destruct H as [(Hs & H)|[(log & k & Hs & Hm & Hr & _)|
                          (n & log & fin & ok & e & Hn & Hs & Hl & Hf & _ & Hr)]];
    rewrite Hs.
  - split; [cbn; lia|]. intros res Hres.
    destruct H as [(H & _)|(e & H)]; rewrite H in Hres; [|done]. by injection Hres as <-.
  - split.
    + etrans; [apply completedInserts_le|].
      cbn [map fst List.filter isInsert]. rewrite map_app, List.filter_app, Hm.
      rewrite filter_isInsert_ins. cbn. rewrite length_app, length_map. cbn. lia.
    + intros res Hres. rewrite Hr in Hres. injection Hres as <-.
      cbn [DatabaseService.success]. unfold completedInserts.
      cbn [List.filter fst snd isInsert andb]. rewrite List.filter_app, length_app. lia.
  - split.
    + etrans; [apply completedInserts_le|].
      rewrite !map_app, !List.filter_app, !length_app.
      assert (length (List.filter isInsert (map fst fin)) = 0)%nat as ->
        by (destruct Hf as [->| ->]; done).
      cbn [map fst List.filter isInsert length].
      destruct Hl as [(_ & ->)|(log' & -> & Hm)]; cbn [map fst List.filter isInsert length].
      * lia.
      * rewrite Hm, filter_isInsert_ins, length_map, length_firstn. lia.
    + intros res Hres. destruct ok.
      * rewrite Hr in Hres. injection Hres as <-. cbn. lia.
      * destruct Hr as (e' & Hr). by rewrite Hr in Hres.
Qed.

End SavedBound.

(** ** When the analyzer saves *)

Section Cadence.

Context (OPENAI_MODEL : JsValue) (systemPrompt : string)
  (openai : AIAnalyzer.Request -> AIAnalyzer.Reply) (elapsed : AIAnalyzer.Request -> Z)
  (S : Type) (data : list ConvData) (W : nat)
  (save : list JsObj -> S -> S * Completion unit).

Local Abbreviation item := (AIAnalyzer.analyzeItem OPENAI_MODEL systemPrompt openai elapsed).
Local Abbreviation iteration :=
  (AIAnalyzer.iteration OPENAI_MODEL systemPrompt openai elapsed S data W (Some save)).
Local Abbreviation batchLoop :=
  (AIAnalyzer.batchLoop OPENAI_MODEL systemPrompt openai elapsed S data W (Some save)).

(** Before the fiftieth chunk the checkpoint does nothing. *)
Lemma checkpoint_early st :
  (0 < AIAnalyzer.batchNumber S st < AIAnalyzer.SAVE_INTERVAL)%nat ->
  AIAnalyzer.checkpoint S (Some save) st = st.
Proof.
  intros H. unfold AIAnalyzer.checkpoint.
  rewrite Nat.mod_small by lia.
  destruct (Nat.eqb_spec (AIAnalyzer.batchNumber S st) 0); [lia|done].
Qed.

(** A run of fewer than fifty chunks reaches the end of the loop without
    having called the save callback. *)
Lemma batchLoop_early fuel : forall i st,
  (0 < W)%nat -> (length data <= 49 * W)%nat -> (length data - i <= fuel)%nat ->
  i = (AIAnalyzer.batchNumber S st * W)%nat ->
  AIAnalyzer.accumulatedForSave S st = AIAnalyzer.results S st ->
  exists st',
    batchLoop fuel i st = Some st'
    /\ AIAnalyzer.results S st'
       = AIAnalyzer.results S st ++ map (fun d => snd (item d)) (skipn i data)
    /\ AIAnalyzer.accumulatedForSave S st' = AIAnalyzer.results S st'
    /\ AIAnalyzer.saver S st' = AIAnalyzer.saver S st
    /\ AIAnalyzer.flushes S st' = AIAnalyzer.flushes S st.
Proof.
  induction fuel as [|fuel IH]; intros i st HW Hn Hf Hi Hacc; cbn [AIAnalyzer.batchLoop].
  - destruct (Nat.leb_spec (length data) i) as [Hle|Hlt]; [|lia].
    exists st. rewrite skipn_all2 by lia. cbn [map]. by rewrite app_nil_r.
  - destruct (Nat.leb_spec (length data) i) as [Hle|Hlt].
    { exists st. rewrite skipn_all2 by lia. cbn [map]. by rewrite app_nil_r. }
    assert (Hbn : (AIAnalyzer.batchNumber S st < 49)%nat) by nia.
    unfold AIAnalyzer.iteration. rewrite checkpoint_early
      by (cbn [AIAnalyzer.batchNumber]; unfold AIAnalyzer.SAVE_INTERVAL; lia).
    match goal with
    | |- context [AIAnalyzer.batchLoop _ _ _ _ _ _ _ _ _ _ ?s] =>
        destruct (IH (i + W)%nat s HW Hn) as (st' & Hrun & Hres & Hacc' & Hs & Hfl)
    end.
    + lia.
    + cbn [AIAnalyzer.batchNumber]. lia.
    + cbn [AIAnalyzer.accumulatedForSave AIAnalyzer.results]. by rewrite Hacc.
    + exists st'. split; [exact Hrun|]. cbn [AIAnalyzer.results AIAnalyzer.saver
        AIAnalyzer.flushes] in Hres, Hs, Hfl.
      split; [|by repeat split].
      rewrite Hres, <- app_assoc. f_equal. rewrite map_map, <- map_app.
      by rewrite (Nat.add_comm i W), <- skipn_skipn, firstn_skipn.
Qed.

End Cadence.

(** X6. A batch run of fewer than fifty chunks never reaches the fifty-chunk
    checkpoint: the save callback is called at most once, after the last
    chunk, with all the successful results of the run in order, and is not
    called at all when there is none. *)
Theorem short_run_saves_once_at_the_end
    (OPENAI_MODEL : JsValue) (systemPrompt : string)
    (openai : AIAnalyzer.Request -> AIAnalyzer.Reply) (elapsed : AIAnalyzer.Request -> Z)
    (S : Type) (save : list JsObj -> S -> S * Completion unit)
    (conversationData : list ConvData) (batchSize fuel : nat) (s0 : S) :
  (0 < batchSize)%nat -> (length conversationData <= fuel)%nat ->
  (length conversationData <= 49 * batchSize)%nat ->
  let successes :=
    filter (fun r => AIAnalyzer.analysisSuccess r = true)
      (map (fun d => snd (AIAnalyzer.analyzeItem OPENAI_MODEL systemPrompt openai elapsed d))
           conversationData) in
  exists st,
    AIAnalyzer.analyzeConversationsBatch OPENAI_MODEL systemPrompt openai elapsed S
      conversationData batchSize (Some save) fuel s0 = Some st
    /\ (successes = [] -> AIAnalyzer.flushes S st = [] /\ AIAnalyzer.saver S st = s0)
    /\ (successes <> [] ->
        map flushed (AIAnalyzer.flushes S st) = [successes]
        /\ AIAnalyzer.saver S st = fst (save successes s0)).
Proof.
  intros HW Hf Hn successes.
  destruct (batchLoop_early OPENAI_MODEL systemPrompt openai elapsed S conversationData
              batchSize save fuel 0 (AIAnalyzer.mkBatch S [] [] 0 s0 [] []) HW Hn)
    as (st & Hrun & Hres & Hacc & Hs & Hfl); [lia|reflexivity|reflexivity|].
  cbn [AIAnalyzer.results AIAnalyzer.saver AIAnalyzer.flushes app] in Hres, Hs, Hfl.
  rewrite skipn_O in Hres.
  exists (AIAnalyzer.finalSave S (Some save) st).
  unfold AIAnalyzer.analyzeConversationsBatch. rewrite Hrun. split; [reflexivity|].
  unfold AIAnalyzer.finalSave. rewrite Hacc, Hres. fold successes.
  destruct successes as [|r rs] eqn:Es.
  - split; [|done]. intros _. change (0 <? length (@nil JsObj))%nat with false.
    destruct (Nat.ltb _ _); by rewrite Hfl, Hs.
  - split; [done|]. intros _.
    assert (Hlen : (0 <? length (map (fun d => snd (AIAnalyzer.analyzeItem OPENAI_MODEL
                      systemPrompt openai elapsed d)) conversationData))%nat = true).
    { apply Nat.ltb_lt. destruct conversationData; [discriminate Es|cbn; lia]. }
    rewrite Hlen. cbn [length Nat.ltb Nat.leb]. unfold AIAnalyzer.trySave. rewrite Hs.
    destruct (save (r :: rs) s0) as [s' c]. cbn [AIAnalyzer.flushes AIAnalyzer.saver fst].
    rewrite Hfl. cbn [app map]. split; [|reflexivity]. by destruct c.
Qed.

Lemma short_run_witness :
  exists st,
    AIAnalyzer.analyzeConversationsBatch VUndefined "" Sample.unscored Sample.latency
      (Index.Saver Postgres.State) (Sample.chats 2) 1 (Some Sample.saveToPostgres) 2
      (Sample.saver0 []) = Some st.
Proof.
  destruct (short_run_saves_once_at_the_end VUndefined "" Sample.unscored Sample.latency
              (Index.Saver Postgres.State) Sample.saveToPostgres (Sample.chats 2) 1 2
              (Sample.saver0 []))
    as (st & H1 & _); [lia|cbn; lia|cbn; lia|].
  exists st. exact H1.
Defined.

(** ** The counts of a run *)

Lemma filter_bool_length {A} (f : A -> bool) (l : list A) :
  length (List.filter f l) = length (filter (fun x => f x = true) l).
Proof.
  induction l as [|x l IH]; [done|]. cbn [List.filter].
  destruct (f x) eqn:E.
  - rewrite filter_cons_True by done. cbn. by rewrite IH.
  - rewrite filter_cons_False by congruence. done.
Qed.

Section SavedBound2.

Context (OPENAI_MODEL : JsValue) (systemPrompt : string)
  (openai : AIAnalyzer.Request -> AIAnalyzer.Reply) (elapsed : AIAnalyzer.Request -> Z)
  (JSON_stringify : JsValue -> string) (parseInt parseFloat : JsValue -> JsValue)
  (nowISO : string) (DB : Type) (getClient : DB -> DB * Completion unit)
  (query : Stmt -> DB -> DB * Completion unit).

Local Abbreviation bulkInsert :=
  (DatabaseService.bulkInsertAnalysisResults JSON_stringify parseInt parseFloat nowISO DB
     getClient query).
Local Abbreviation callback :=
  (Index.incrementalSaveCallback JSON_stringify parseInt parseFloat nowISO DB getClient
     query).

Lemma callback_keeps items s fl :
  saverBound s fl ->
  saverBound (fst (callback items s))
    (fl ++ [match snd (callback items s) with
            | Normal _ => AIAnalyzer.SaveCompleted items
            | Throw e => AIAnalyzer.SaveFailed items (message e)
            end]).
Proof.
  intros (H1 & H2 & H3). unfold Index.incrementalSaveCallback.
  pose proof (bulkInsert_bound JSON_stringify parseInt parseFloat nowISO DB getClient query
                items (Index.database DB s)) as [Hb1 Hb2].
  destruct (bulkInsert items (Index.database DB s)) as [[db' sent] r].
  cbn [fst snd] in Hb1, Hb2.
  assert (Hlen : forall ev, flushed ev = items ->
            length (concat (map flushed (fl ++ [ev])))
            = (length (concat (map flushed fl)) + length items)%nat).
  { intros ev Hev. rewrite map_app, concat_app, length_app. cbn [map concat].
    by rewrite Hev, app_nil_r. }
  destruct r as [res|e]; cbn [fst snd]; unfold saverBound;
    cbn [Index.totalSaved Index.statements Index.saveAttempts];
    destruct (counts_app (Index.statements DB s) sent) as [-> _];
    rewrite Hlen by reflexivity; rewrite length_app; cbn [length].
  - specialize (Hb2 res eq_refl). lia.
  - lia.
Qed.

(** The counters of the save callback at the end of a batch analysis. *)
Lemma batch_saved_bound (data : list ConvData) (W fuel : nat) (db : DB) :
  (0 < W)%nat -> (length data <= fuel)%nat ->
  exists st,
    AIAnalyzer.analyzeConversationsBatch OPENAI_MODEL systemPrompt openai elapsed
      (Index.Saver DB) data W (Some callback) fuel (Index.mkSaver DB 0 0 db []) = Some st
    /\ AIAnalyzer.results _ st
       = map (fun d => snd (AIAnalyzer.analyzeItem OPENAI_MODEL systemPrompt openai elapsed d))
             data
    /\ (Index.totalSaved DB (AIAnalyzer.saver _ st)
        <= completedInserts (Index.statements DB (AIAnalyzer.saver _ st)))%nat
    /\ (completedInserts (Index.statements DB (AIAnalyzer.saver _ st))
        <= length (List.filter AIAnalyzer.analysisSuccess (AIAnalyzer.results _ st)))%nat
    /\ Index.saveAttempts DB (AIAnalyzer.saver _ st) = length (AIAnalyzer.flushes _ st).
Proof.
  intros HW Hf.
  destruct (batchLoop_total OPENAI_MODEL systemPrompt openai elapsed (Index.Saver DB) data
              W (Some callback) fuel 0
              (AIAnalyzer.mkBatch _ [] [] 0 (Index.mkSaver DB 0 0 db []) [] []) HW)
    as (st & Hrun & Hres & Hacc); [lia|reflexivity|].
  exists (AIAnalyzer.finalSave _ (Some callback) st).
  assert (Hall : AIAnalyzer.analyzeConversationsBatch OPENAI_MODEL systemPrompt openai
                   elapsed (Index.Saver DB) data W (Some callback) fuel
                   (Index.mkSaver DB 0 0 db [])
                 = Some (AIAnalyzer.finalSave _ (Some callback) st)).
  { unfold AIAnalyzer.analyzeConversationsBatch. by rewrite Hrun. }
  split; [exact Hall|].
  split. { rewrite finalSave_results, Hres. cbn [AIAnalyzer.results app]. by rewrite skipn_O. }
  pose proof (batch_keeps OPENAI_MODEL systemPrompt openai elapsed (Index.Saver DB) data W
                callback saverBound callback_keeps fuel _ _ Hall) as (H1 & H2 & H3).
  { unfold saverBound. cbn. unfold completedInserts. cbn. lia. }
  split; [exact H1|]. split; [|exact H3].
  pose proof (finalSave_handed (Index.Saver DB) (Some callback) callback st eq_refl Hacc)
    as Hh.
  unfold handed in Hh. rewrite Hh in H2. by rewrite filter_bool_length.
Qed.

End SavedBound2.

(** X7. When runAnalysis returns a report for a non-empty list of chats,
    stored <= successful <= attempts, quota failures <= attempts, 0 < attempts
    <= number of chats, and the run is reported as failed exactly when no
    analysis succeeded. *)
Theorem run_report_counts_are_ordered
    (OPENAI_MODEL : JsValue) (systemPrompt : string)
    (openai : AIAnalyzer.Request -> AIAnalyzer.Reply) (elapsed : AIAnalyzer.Request -> Z)
    (JSON_stringify : JsValue -> string) (parseInt parseFloat : JsValue -> JsValue)
    (nowISO : string) (toLocaleString : JsValue -> string) (toUpperCase : string -> string)
    (DB : Type) (getClient : DB -> DB * Completion unit)
    (query : Stmt -> DB -> DB * Completion unit)
    (getUnanalyzedChats : Completion (list ChatService.Chat))
    (selectCache : list string -> Completion (list ChatService.CacheRow))
    (getMessagesForChat : string -> Completion (list ChatService.Message))
    (getAnalysisStats : Completion JsValue)
    (concurrentChats fuel : nat) (db : DB) (chats : list ChatService.Chat) :
  (0 < concurrentChats)%nat ->
  getUnanalyzedChats = Normal chats ->
  (length chats <= fuel)%nat ->
  exists db' out,
    Index.runAnalysis OPENAI_MODEL systemPrompt openai elapsed JSON_stringify parseInt
      parseFloat nowISO toLocaleString toUpperCase DB getClient query getUnanalyzedChats
      selectCache getMessagesForChat getAnalysisStats concurrentChats fuel db
    = Some (db', out)
    /\ forall report, out = Normal (Some report) ->
         (Index.analysisResultsStored report <= Index.successfulAnalyses report)%nat
         /\ (Index.successfulAnalyses report <= Index.totalAnalysisAttempts report)%nat
         /\ (Index.quotaFailures report <= Index.totalAnalysisAttempts report)%nat
         /\ (0 < Index.totalAnalysisAttempts report <= length chats)%nat
         /\ (Index.run_success report = false <-> Index.successfulAnalyses report = 0%nat).
Proof.
  intros HW Hchats Hfuel. unfold Index.runAnalysis. rewrite Hchats.
  destruct (length chats =? 0)%nat eqn:E0.
  { eexists _, _. split; [reflexivity|]. intros report H. discriminate H. }
  destruct (processChatsBatch_total toLocaleString toUpperCase selectCache getMessagesForChat
              DB getClient query fuel chats concurrentChats db HW Hfuel)
    as (db1 & r & Hpc & Hr).
  rewrite Hpc. cbv beta iota delta [mbind option_bind].
  destruct r as [conversationData|e].
  2:{ eexists _, _. split; [reflexivity|]. intros report H. discriminate H. }
  destruct (Hr conversationData eq_refl) as [Hlen _].
  set (valid := List.filter (fun data => negb (truthy (error data))) conversationData).
  assert (Hv : (length valid <= length chats)%nat).
  { rewrite <- Hlen. apply List.filter_length_le. }
  destruct (length valid =? 0)%nat eqn:Ev.
  { eexists _, _. split; [reflexivity|]. intros report H. discriminate H. }
  apply Nat.eqb_neq in Ev.
  destruct (batch_saved_bound OPENAI_MODEL systemPrompt openai elapsed JSON_stringify
              parseInt parseFloat nowISO DB getClient query valid Index.aiConcurrency fuel db1)
    as (st & Hst & Hres & H1 & H2 & _); [unfold Index.aiConcurrency; lia|lia|].
  rewrite Hst.
  set (report0 := Index.statistics DB (AIAnalyzer.results _ st) (AIAnalyzer.saver _ st)).
  assert (Hrep : (Index.analysisResultsStored report0 <= Index.successfulAnalyses report0)%nat
         /\ (Index.successfulAnalyses report0 <= Index.totalAnalysisAttempts report0)%nat
         /\ (Index.quotaFailures report0 <= Index.totalAnalysisAttempts report0)%nat
         /\ (0 < Index.totalAnalysisAttempts report0 <= length chats)%nat
         /\ (Index.run_success report0 = false <-> Index.successfulAnalyses report0 = 0%nat)).
  { unfold report0, Index.statistics.
    cbn [Index.analysisResultsStored Index.successfulAnalyses Index.totalAnalysisAttempts
         Index.quotaFailures Index.run_success].
    pose proof (List.filter_length_le AIAnalyzer.analysisSuccess (AIAnalyzer.results _ st)).
    pose proof (List.filter_length_le AIAnalyzer.isQuotaError (AIAnalyzer.results _ st)).
    assert (length (AIAnalyzer.results _ st) = length valid) by (by rewrite Hres, length_map).
    repeat split; try lia.
    - intros Hs. apply negb_false_iff, andb_true_iff in Hs as [_ Hs].
      by apply Nat.eqb_eq in Hs.
    - intros Hs. apply negb_false_iff, andb_true_iff.
      split; apply Nat.eqb_eq; lia. }
  cbv beta iota zeta. fold report0.
  destruct (Index.run_success report0) eqn:Er.
  - eexists _, _. split; [reflexivity|]. intros report H.
    destruct getAnalysisStats; [|discriminate H]. cbn [bind] in H.
    injection H as <-. rewrite Er. exact Hrep.
  - eexists _, _. split; [reflexivity|]. intros report H. injection H as <-.
    rewrite Er. exact Hrep.
Qed.

Lemma run_report_witness :
  exists db' out,
    Sample.run Sample.unscored = Some (db', out)
    /\ forall report, out = Normal (Some report) ->
         (Index.analysisResultsStored report <= Index.successfulAnalyses report)%nat.
Proof.
  destruct (run_report_counts_are_ordered VUndefined "" Sample.unscored Sample.latency
              Sample.JSON_stringify Sample.parseInt Sample.parseFloat Sample.nowISO
              Sample.toLocaleString Sample.toUpperCase Postgres.State Postgres.getClient
              Postgres.query Sample.unanalyzed Sample.noCache Sample.messagesOf Sample.stats
              8 1 (Postgres.idle Postgres.noTables 0 [])
              [ChatService.mkChat Sample.jidA (VStr "Ann")])
    as (db' & out & H1 & H2); [lia|reflexivity|cbn; lia|].
  exists db', out. split; [exact H1|]. intros report Hr. exact (proj1 (H2 report Hr)).
Defined.

(** ** The cache and the chat batch *)

Lemma omap_cons_eq {A B} (f : A -> option B) (x : A) (l : list A) :
  omap f (x :: l) = match f x with Some y => y :: omap f l | None => omap f l end.
Proof. reflexivity. Qed.

Lemma cacheMap_lookup (rows : list ChatService.CacheRow) (k : string) :
  forall m0 : gmap string ChatService.Cached,
  fold_left (fun cacheMap row =>
               <[ChatService.row_remoteJid row := ChatService.cachedOfRow row]> cacheMap)
            rows m0 !! k
  = match last (rowsFor k rows) with
    | Some row => Some (ChatService.cachedOfRow row)
    | None => m0 !! k
    end.
Proof.
  induction rows as [|row rows IH] using rev_ind; intros m0; [done|].
  rewrite fold_left_app. cbn [fold_left]. unfold rowsFor. rewrite List.filter_app.
  cbn [List.filter]. destruct (String.eqb_spec (ChatService.row_remoteJid row) k) as [->|Hne].
  - rewrite lookup_insert_eq, last_snoc. done.
  - rewrite lookup_insert_ne by done. rewrite app_nil_r. apply IH.
Qed.

(** X8. When the cache query returns rows, getCachedConversations returns a
    map whose entry for an identifier is built from the last returned row with
    that identifier, and which has no entry for an identifier without a row. *)
Theorem cached_entry_comes_from_last_selected_row
    (selectCache : list string -> Completion (list ChatService.CacheRow))
    (remoteJids : list string) (rows : list ChatService.CacheRow) :
  remoteJids <> [] ->
  selectCache remoteJids = Normal rows ->
  exists cacheMap,
    ChatService.getCachedConversations selectCache remoteJids = Normal cacheMap
    /\ forall k,
         cacheMap !! k = ChatService.cachedOfRow <$> last (rowsFor k rows).
Proof.
  intros Hne Hsel. unfold ChatService.getCachedConversations.
  destruct remoteJids as [|j js]; [done|]. cbn [length Nat.eqb].
  rewrite Hsel. cbn [bind try_catch]. eexists. split; [reflexivity|].
  intros k. rewrite cacheMap_lookup. by destruct (last _).
Qed.

Lemma cached_entry_witness :
  exists cacheMap,
    ChatService.getCachedConversations
      (fun _ => Normal [ChatService.mkRow Sample.jidA (VStr "Customer: hi") (VNum 1) (VNum 0)
                          VNull (VStr "Ann") (VDate 0)])
      [Sample.jidA] = Normal cacheMap
    /\ forall k,
         cacheMap !! k
         = ChatService.cachedOfRow
             <$> last (rowsFor k [ChatService.mkRow Sample.jidA (VStr "Customer: hi") (VNum 1)
                                    (VNum 0) VNull (VStr "Ann") (VDate 0)]).
Proof.
  apply (cached_entry_comes_from_last_selected_row
           (fun _ => Normal [ChatService.mkRow Sample.jidA (VStr "Customer: hi") (VNum 1)
                               (VNum 0) VNull (VStr "Ann") (VDate 0)])
           [Sample.jidA]); [discriminate|reflexivity].
Defined.

Section ChatBatchProperties.

Context (toLocaleString : JsValue -> string) (toUpperCase : string -> string)
  (selectCache : list string -> Completion (list ChatService.CacheRow))
  (DB : Type) (getClient : DB -> DB * Completion unit)
  (query : Stmt -> DB -> DB * Completion unit).

Local Abbreviation processChat :=
  (ChatService.processChat toLocaleString toUpperCase).
Local Abbreviation chunkLoop :=
  (ChatService.chunkLoop toLocaleString toUpperCase).
Local Abbreviation save := (ChatService.saveConversationsToCache DB getClient query).

(** [processChat] reads the messages of its own chat only. *)
Lemma processChat_ext g g' chat :
  g (ChatService.chat_id chat) = g' (ChatService.chat_id chat) ->
  processChat g chat = processChat g' chat.
Proof. intros H. unfold ChatService.processChat. by rewrite H. Qed.

Lemma chunkLoop_ext g g' W chats : forall fuel i rs ns,
  Forall (fun chat => g (ChatService.chat_id chat) = g' (ChatService.chat_id chat)) chats ->
  chunkLoop g fuel W chats i rs ns = chunkLoop g' fuel W chats i rs ns.
Proof.
  induction fuel as [|fuel IH]; intros i rs ns Hall; cbn [ChatService.chunkLoop]; [done|].
  destruct (Nat.leb _ _); [done|].
  assert (Hm : map (processChat g) (firstn W (skipn i chats))
               = map (processChat g') (firstn W (skipn i chats))).
  { apply map_ext_Forall. apply Forall_take, Forall_drop.
    eapply Forall_impl; [exact Hall|]. intros chat. apply processChat_ext. }
  rewrite Hm. by apply IH.
Qed.

(** The cache write completes unless the connection cannot be acquired or
    the rollback itself fails. *)
Lemma save_returns convs db :
  (forall db, snd (getClient db) = Normal tt) ->
  (forall db, snd (query SRollback db) = Normal tt) ->
  snd (save convs db) = Normal tt.
Proof.
  intros Hc Hr. unfold ChatService.saveConversationsToCache.
  destruct (Nat.eqb _ _); [done|].
  specialize (Hc db). destruct (getClient db) as [db0 r0]. cbn [snd] in Hc. subst r0.
  destruct (ChatService.cacheTransaction DB query convs db0) as [db1 [[]|e]]; [done|].
  apply Hr.
Qed.

End ChatBatchProperties.

(** X9. When every chat of a batch has a row in the cache, processChatsBatch
    returns one entry per chat, in input order, built from the chat's last
    cached row (the cached chat name, or the chat's own when that is missing),
    marked hasMessages and fromCache, and leaves the database as it was:
    nothing is written. *)
Theorem fully_cached_batch_only_reads_the_cache
    (toLocaleString : JsValue -> string) (toUpperCase : string -> string)
    (selectCache : list string -> Completion (list ChatService.CacheRow))
    (getMessagesForChat : string -> Completion (list ChatService.Message))
    (DB : Type) (getClient : DB -> DB * Completion unit)
    (query : Stmt -> DB -> DB * Completion unit)
    (chats : list ChatService.Chat) (rows : list ChatService.CacheRow)
    (fuel batchSize : nat) (db : DB) :
  selectCache (map ChatService.chat_id chats) = Normal rows ->
  Forall (fun chat => rowsFor (ChatService.chat_id chat) rows <> []) chats ->
  exists results,
    ChatService.processChatsBatch toLocaleString toUpperCase selectCache getMessagesForChat
      DB getClient query fuel chats batchSize db
    = Some (db, Normal results)
    /\ length results = length chats
    /\ forall i chat, chats !! i = Some chat ->
         exists row,
           last (rowsFor (ChatService.chat_id chat) rows) = Some row
           /\ results !! i
              = Some (mkConv (ChatService.chat_id chat)
                        (or_else (ChatService.row_chat_name row) (ChatService.chat_name chat))
                        (ChatService.conversation_text row)
                        (ChatService.cached_metadata (ChatService.cachedOfRow row))
                        true true VUndefined).
Proof.
  intros Hsel Hall.
  assert (Hm : exists m,
    ChatService.getCachedConversations selectCache (map ChatService.chat_id chats) = Normal m
    /\ forall chat, chat ∈ chats ->
         m !! ChatService.chat_id chat
         = ChatService.cachedOfRow <$> last (rowsFor (ChatService.chat_id chat) rows)).
  { unfold ChatService.getCachedConversations. destruct chats as [|c cs].
    - exists ∅. split; [done|]. intros chat H. by apply elem_of_nil in H.
    - cbn [map length Nat.eqb]. cbn [map] in Hsel. rewrite Hsel. cbn [bind try_catch].
      eexists. split; [reflexivity|]. intros chat _. rewrite cacheMap_lookup.
      by destruct (last _). }
  destruct Hm as (m & Hm & Hlook).
  assert (Hsome : forall chat, chat ∈ chats ->
            exists row, last (rowsFor (ChatService.chat_id chat) rows) = Some row
                        /\ m !! ChatService.chat_id chat = Some (ChatService.cachedOfRow row)).
  { intros chat Hin. rewrite Forall_forall in Hall. specialize (Hall chat Hin).
    destruct (last (rowsFor (ChatService.chat_id chat) rows)) as [row|] eqn:El.
    - exists row. split; [done|]. by rewrite (Hlook chat Hin), El.
    - apply last_None in El. done. }
  assert (Hun : chatsToProcess m chats = []).
  { unfold chatsToProcess. clear -Hsome. induction chats as [|c cs IH]; [done|].
    cbn [List.filter].
    destruct (Hsome c) as (row & _ & Hc); [left|]. rewrite Hc.
    rewrite bool_decide_eq_false_2 by done. apply IH. intros chat Hin. apply Hsome. by right. }
  pose proof (processChatsBatch_shape toLocaleString toUpperCase selectCache DB getClient
                query getMessagesForChat fuel chats batchSize db m Hm) as Hshape.
  cbv zeta beta in Hshape. rewrite Hun in Hshape. cbn [map List.filter length Nat.ltb Nat.leb]
    in Hshape. rewrite app_nil_r in Hshape.
  eexists. split; [apply Hshape; [done|lia]|].
  assert (Hres : forall i chat, chats !! i = Some chat ->
            exists row, last (rowsFor (ChatService.chat_id chat) rows) = Some row
              /\ cachedResults m chats !! i
                 = Some (ChatService.cachedResult chat (ChatService.cachedOfRow row))).
  { unfold cachedResults. clear -Hsome.
    induction chats as [|c cs IH]; intros i chat Hi; [done|].
    destruct (Hsome c) as (row & Hl & Hc); [left|].
    rewrite omap_cons_eq, Hc. cbn [fmap option_fmap option_map].
    destruct i as [|i]; cbn in Hi |- *.
    - injection Hi as <-. by exists row.
    - apply IH; [|done]. intros ch Hin. apply Hsome. by right. }
  split.
  - unfold cachedResults. clear -Hsome. induction chats as [|c cs IH]; [done|].
    destruct (Hsome c) as (row & Hl & Hc); [left|].
    rewrite omap_cons_eq, Hc. cbn [fmap option_fmap option_map length]. f_equal.
    apply IH. intros ch Hin. apply Hsome. by right.
  - intros i chat Hi. destruct (Hres i chat Hi) as (row & Hl & Hr).
    exists row. split; [done|]. exact Hr.
Qed.

Lemma fully_cached_witness :
  exists results,
    ChatService.processChatsBatch Sample.toLocaleString Sample.toUpperCase Example.warmCache
      Example.unreadable Postgres.State Postgres.getClient Postgres.query 0
      [Example.annChat] 8 (Postgres.idle Postgres.noTables 0 [])
    = Some (Postgres.idle Postgres.noTables 0 [], Normal results)
    /\ length results = 1%nat.
Proof.
  destruct (fully_cached_batch_only_reads_the_cache Sample.toLocaleString Sample.toUpperCase
              Example.warmCache Example.unreadable Postgres.State Postgres.getClient
              Postgres.query [Example.annChat] [Example.cachedRow] 0 8
              (Postgres.idle Postgres.noTables 0 []))
    as (results & H1 & H2 & _); [reflexivity|by repeat constructor|].
  exists results. split; [exact H1|exact H2].
Defined.

(** X10. processChatsBatch reads the messages of the chats missing from the
    cache only: two message stores that agree on those chats give the same
    outcome, whatever they hold for the cached chats. *)
Theorem cached_chats_are_not_reread
    (toLocaleString : JsValue -> string) (toUpperCase : string -> string)
    (selectCache : list string -> Completion (list ChatService.CacheRow))
    (g g' : string -> Completion (list ChatService.Message))
    (DB : Type) (getClient : DB -> DB * Completion unit)
    (query : Stmt -> DB -> DB * Completion unit)
    (chats : list ChatService.Chat) (cacheMap : gmap string ChatService.Cached)
    (fuel batchSize : nat) (db : DB) :
  ChatService.getCachedConversations selectCache (map ChatService.chat_id chats)
    = Normal cacheMap ->
  (forall chat, chat ∈ chats -> cacheMap !! ChatService.chat_id chat = None ->
     g (ChatService.chat_id chat) = g' (ChatService.chat_id chat)) ->
  ChatService.processChatsBatch toLocaleString toUpperCase selectCache g
    DB getClient query fuel chats batchSize db
  = ChatService.processChatsBatch toLocaleString toUpperCase selectCache g'
      DB getClient query fuel chats batchSize db.
Proof.
  intros Hm Hg. unfold ChatService.processChatsBatch. rewrite Hm.
  rewrite (chunkLoop_ext toLocaleString toUpperCase g g'); [done|].
  apply Forall_forall. intros chat Hin. apply list_elem_of_In, filter_In in Hin as [Hin Hb].
  apply Hg; [by apply list_elem_of_In|]. by apply bool_decide_eq_true_1 in Hb.
Qed.

Lemma cached_chats_witness :
  ChatService.processChatsBatch Sample.toLocaleString Sample.toUpperCase Example.warmCache
    Sample.messagesOf Postgres.State Postgres.getClient Postgres.query 1
    [Example.annChat] 8 (Postgres.idle Postgres.noTables 0 [])
  = ChatService.processChatsBatch Sample.toLocaleString Sample.toUpperCase Example.warmCache
      Example.unreadable Postgres.State Postgres.getClient Postgres.query 1
      [Example.annChat] 8 (Postgres.idle Postgres.noTables 0 []).
Proof.
  apply (cached_chats_are_not_reread Sample.toLocaleString Sample.toUpperCase
           Example.warmCache Sample.messagesOf Example.unreadable Postgres.State
           Postgres.getClient Postgres.query [Example.annChat]
           (<[Sample.jidA := ChatService.cachedOfRow Example.cachedRow]> ∅)).
  - reflexivity.
  - intros chat Hin Hnone. apply list_elem_of_singleton in Hin. subst chat.
    change (ChatService.chat_id Example.annChat) with Sample.jidA in Hnone.
    rewrite lookup_insert_eq in Hnone. discriminate Hnone.
Defined.

(** X11. When the cache query fails, processChatsBatch treats every chat as
    uncached and, provided the connection for the cache write is obtained and
    a ROLLBACK completes, returns the entry built from the messages of each
    chat, in input order. *)
Theorem cache_outage_rebuilds_every_transcript
    (toLocaleString : JsValue -> string) (toUpperCase : string -> string)
    (selectCache : list string -> Completion (list ChatService.CacheRow))
    (getMessagesForChat : string -> Completion (list ChatService.Message))
    (DB : Type) (getClient : DB -> DB * Completion unit)
    (query : Stmt -> DB -> DB * Completion unit)
    (chats : list ChatService.Chat) (e : JsError) (fuel batchSize : nat) (db : DB) :
  selectCache (map ChatService.chat_id chats) = Throw e ->
  (0 < batchSize)%nat -> (length chats <= fuel)%nat ->
  (forall db, snd (getClient db) = Normal tt) ->
  (forall db, snd (query SRollback db) = Normal tt) ->
  exists db',
    ChatService.processChatsBatch toLocaleString toUpperCase selectCache getMessagesForChat
      DB getClient query fuel chats batchSize db
    = Some (db', Normal (map (ChatService.processChat toLocaleString toUpperCase
                                getMessagesForChat) chats)).
Proof.
  intros Hsel HW Hf Hc Hr.
  destruct (cache_read_map selectCache (map ChatService.chat_id chats))
    as (m & Hm & Hthrow & _).
  rewrite (Hthrow e Hsel) in Hm.
  assert (Hun : chatsToProcess ∅ chats = chats).
  { unfold chatsToProcess. clear. induction chats as [|c cs IH]; [done|]. cbn [List.filter].
    destruct (bool_decide _) eqn:Eb; [f_equal; exact IH|].
    apply bool_decide_eq_false_1 in Eb. destruct Eb. apply lookup_empty. }
  assert (Hca : cachedResults ∅ chats = []).
  { unfold cachedResults. clear. induction chats as [|c cs IH]; [done|].
    rewrite omap_cons_eq.
    destruct (_ !! _) as [x|] eqn:Eb; [|exact IH].
    rewrite lookup_empty in Eb. discriminate Eb. }
  pose proof (processChatsBatch_shape toLocaleString toUpperCase selectCache DB getClient
                query getMessagesForChat fuel chats batchSize db ∅ Hm) as Hshape.
  cbv zeta beta in Hshape. rewrite Hun, Hca in Hshape. cbn [app] in Hshape.
  rewrite Hshape by lia.
  destruct (Nat.ltb _ _); [|by exists db].
  rewrite (save_returns DB getClient query _ _ Hc Hr). cbn [bind]. by eexists.
Qed.

Lemma cache_outage_witness :
  exists db',
    ChatService.processChatsBatch Sample.toLocaleString Sample.toUpperCase Sample.cacheDown
      Sample.messagesOf unit Example.roClient Example.roQuery 1 [Example.annChat] 8 tt
    = Some (db', Normal (map (ChatService.processChat Sample.toLocaleString
                                Sample.toUpperCase Sample.messagesOf) [Example.annChat])).
Proof.
  apply (cache_outage_rebuilds_every_transcript Sample.toLocaleString Sample.toUpperCase
           Sample.cacheDown Sample.messagesOf unit Example.roClient Example.roQuery
           [Example.annChat] Postgres.connectionError 1 8 tt);
    [reflexivity|lia|cbn; lia|reflexivity|reflexivity].
Defined.

(** X12. Provided a connection is obtained and a ROLLBACK completes,
    processChatsBatch returns its entries, one per chat (the cached ones, then
    those built from the messages), whatever the statements of the cache write
    do: a failed BEGIN, upsert or COMMIT is rolled back and swallowed. *)
Theorem failed_cache_write_keeps_the_results
    (toLocaleString : JsValue -> string) (toUpperCase : string -> string)
    (selectCache : list string -> Completion (list ChatService.CacheRow))
    (getMessagesForChat : string -> Completion (list ChatService.Message))
    (DB : Type) (getClient : DB -> DB * Completion unit)
    (query : Stmt -> DB -> DB * Completion unit)
    (chats : list ChatService.Chat) (fuel batchSize : nat) (db : DB) :
  (0 < batchSize)%nat -> (length chats <= fuel)%nat ->
  (forall db, snd (getClient db) = Normal tt) ->
  (forall db, snd (query SRollback db) = Normal tt) ->
  exists db' cacheMap,
    ChatService.getCachedConversations selectCache (map ChatService.chat_id chats)
      = Normal cacheMap
    /\ ChatService.processChatsBatch toLocaleString toUpperCase selectCache
         getMessagesForChat DB getClient query fuel chats batchSize db
       = Some (db', Normal (cachedResults cacheMap chats
                              ++ map (ChatService.processChat toLocaleString toUpperCase
                                        getMessagesForChat)
                                     (chatsToProcess cacheMap chats)))
    /\ length (cachedResults cacheMap chats
                 ++ map (ChatService.processChat toLocaleString toUpperCase
                           getMessagesForChat)
                        (chatsToProcess cacheMap chats))
       = length chats.
Proof.
  intros HW Hf Hc Hr.
  destruct (cache_read_map selectCache (map ChatService.chat_id chats)) as (m & Hm & _).
  pose proof (processChatsBatch_shape toLocaleString toUpperCase selectCache DB getClient
                query getMessagesForChat fuel chats batchSize db m Hm) as Hshape.
  cbv zeta in Hshape.
  assert (Hlen : (length (chatsToProcess m chats) <= length chats)%nat)
    by apply List.filter_length_le.
  rewrite (save_returns DB getClient query _ _ Hc Hr) in Hshape. cbn [bind] in Hshape.
  assert (Hout : exists db',
    ChatService.processChatsBatch toLocaleString toUpperCase selectCache
      getMessagesForChat DB getClient query fuel chats batchSize db
    = Some (db', Normal (cachedResults m chats
                           ++ map (ChatService.processChat toLocaleString toUpperCase
                                     getMessagesForChat) (chatsToProcess m chats)))).
  { rewrite Hshape by lia. destruct (Nat.ltb _ _); by eexists. }
  destruct Hout as (db' & Hout). exists db', m. split; [exact Hm|]. split; [exact Hout|].
  destruct (processChatsBatch_total toLocaleString toUpperCase selectCache getMessagesForChat
              DB getClient query fuel chats batchSize db HW Hf) as (db2 & r & Hpc & Hres).
  rewrite Hout in Hpc. injection Hpc as _ <-. by destruct (Hres _ eq_refl).
Qed.

Lemma failed_cache_write_witness :
  exists db' cacheMap,
    ChatService.getCachedConversations Sample.noCache
      (map ChatService.chat_id [Example.annChat]) = Normal cacheMap
    /\ ChatService.processChatsBatch Sample.toLocaleString Sample.toUpperCase Sample.noCache
         Sample.messagesOf unit Example.roClient Example.roQuery 1 [Example.annChat] 8 tt
       = Some (db', Normal (cachedResults cacheMap [Example.annChat]
                              ++ map (ChatService.processChat Sample.toLocaleString
                                        Sample.toUpperCase Sample.messagesOf)
                                     (chatsToProcess cacheMap [Example.annChat]))).
Proof.
  destruct (failed_cache_write_keeps_the_results Sample.toLocaleString Sample.toUpperCase
              Sample.noCache Sample.messagesOf unit Example.roClient Example.roQuery
              [Example.annChat] 1 8 tt)
    as (db' & m & H1 & H2 & _); [lia|cbn; lia|reflexivity|reflexivity|].
  exists db', m. split; [exact H1|exact H2].
Defined.

(** ** The transcript *)

Section Transcript.

Context (toLocaleString : JsValue -> string) (toUpperCase : string -> string).

Local Abbreviation renderLoop := (ChatService.renderLoop toLocaleString toUpperCase).
Local Abbreviation build := (ChatService.buildConversationString toLocaleString toUpperCase).
Local Abbreviation messageText := (ChatService.messageText toUpperCase).
Local Abbreviation renderLine := (ChatService.renderLine toLocaleString).

Lemma lastN_all {A} (n : nat) (l : list A) :
  (length l <= n)%nat -> ChatService.lastN n l = l.
Proof.
  intros H. unfold ChatService.lastN. by replace (length l - n)%nat with 0%nat by lia.
Qed.

Lemma lastN_app {A} (n : nat) (old recent : list A) :
  length recent = n -> ChatService.lastN n (old ++ recent) = recent.
Proof.
  intros H. unfold ChatService.lastN. rewrite length_app.
  replace (length old + length recent - n)%nat with (length old) by lia.
  by rewrite skipn_app, skipn_all, Nat.sub_diag.
Qed.

Lemma renderLoop_app (l1 l2 : list ChatService.Message) : forall acc,
  renderLoop (l1 ++ l2) acc = bind (renderLoop l1 acc) (renderLoop l2).
Proof.
  induction l1 as [|m l1 IH]; intros acc; [done|]. cbn [app ChatService.renderLoop].
  destruct (messageText m) as [text|e]; cbn [bind]; [|done].
  destruct (ChatService.hasText text) as [keep|e]; cbn [bind]; [|done].
  destruct keep, text; apply IH.
Qed.

Lemma renderLoop_textless m l acc :
  textless toUpperCase m -> renderLoop (m :: l) acc = renderLoop l acc.
Proof.
  intros (v & Hv & Ht). cbn [ChatService.renderLoop]. rewrite Hv. cbn [bind].
  rewrite Ht. cbn [bind]. done.
Qed.

Lemma renderLoop_line m t l acc :
  messageText m = Normal (VStr t) -> all_space t = false ->
  renderLoop (m :: l) acc = renderLoop l (acc ++ renderLine m t).
Proof.
  intros Hv Hs. cbn [ChatService.renderLoop]. rewrite Hv. cbn [bind].
  assert (Ht : ChatService.hasText (VStr t) = Normal true).
  { unfold ChatService.hasText. f_equal.
    destruct t as [|c t]; [discriminate Hs|]. cbn [truthy String.eqb negb andb].
    apply negb_true_iff, String.eqb_neq. intros H%trim_empty_iff. congruence. }
  rewrite Ht. cbn [bind]. done.
Qed.

Lemma renderLoop_malformed m l acc :
  malformed toUpperCase m -> exists e, renderLoop (m :: l) acc = Throw e /\ message e <> "".
Proof.
  intros [(e & He)|(v & e & Hv & He)]; cbn [ChatService.renderLoop].
  - rewrite He. cbn [bind]. exists e. split; [done|].
    unfold ChatService.messageText in He. destruct (is_str _ _); [discriminate He|].
    destruct (ChatService.messageType m); try discriminate He; by injection He as <-.
  - rewrite Hv. cbn [bind]. rewrite He. cbn [bind]. exists e. split; [done|].
    unfold ChatService.hasText in He.
    destruct v; try discriminate He; destruct (truthy _); try discriminate He;
      by injection He as <-.
Qed.

(** The loop fails as soon as it meets a malformed message. *)
Lemma renderLoop_throws l : forall acc m,
  m ∈ l -> malformed toUpperCase m ->
  exists e, renderLoop l acc = Throw e /\ message e <> "".
Proof.
  induction l as [|x l IH]; intros acc m Hin Hm; [by apply elem_of_nil in Hin|].
  apply elem_of_cons in Hin as [<-|Hin]; [by apply renderLoop_malformed|].
  destruct (messageText x) as [text|e] eqn:Ex.
  2:{ apply renderLoop_malformed. left. by exists e. }
  destruct (ChatService.hasText text) as [keep|e] eqn:Et.
  2:{ apply renderLoop_malformed. right. by exists text, e. }
  cbn [ChatService.renderLoop]. rewrite Ex. cbn [bind]. rewrite Et. cbn [bind].
  destruct keep, text; by apply (IH _ m).
Qed.

End Transcript.

(** X13. buildConversationString renders the last maxMessages messages only:
    messages before them do not change the transcript. *)
Theorem transcript_uses_only_recent_messages
    (toLocaleString : JsValue -> string) (toUpperCase : string -> string)
    (old recent : list ChatService.Message) (maxMessages : nat) :
  (0 < maxMessages)%nat -> length recent = maxMessages ->
  ChatService.buildConversationString toLocaleString toUpperCase (old ++ recent) maxMessages
  = ChatService.buildConversationString toLocaleString toUpperCase recent maxMessages.
Proof.
  intros Hn Hlen. unfold ChatService.buildConversationString.
  rewrite lastN_app by done. rewrite lastN_all by lia. rewrite length_app.
  destruct recent as [|m recent]; [cbn in Hlen; lia|].
  cbn [length]. by rewrite Nat.add_succ_r.
Qed.

Lemma transcript_recent_witness :
  ChatService.buildConversationString Sample.toLocaleString Sample.toUpperCase
    ([ExampleMessages.question] ++ [ExampleMessages.answer]) 1
  = ChatService.buildConversationString Sample.toLocaleString Sample.toUpperCase
      [ExampleMessages.answer] 1.
Proof.
  apply (transcript_uses_only_recent_messages Sample.toLocaleString Sample.toUpperCase
           [ExampleMessages.question] [ExampleMessages.answer] 1); [lia|reflexivity].
Defined.





(** X16. One message among the last 200 that the renderer cannot handle (a
    type that is not a string, or a text that is a truthy non-string) makes
    the whole chat an error entry: no transcript, hasMessages false and the
    error's message. *)
Theorem malformed_message_fails_the_chat
    (toLocaleString : JsValue -> string) (toUpperCase : string -> string)
    (getMessagesForChat : string -> Completion (list ChatService.Message))
    (chat : ChatService.Chat) (messages : list ChatService.Message)
    (m : ChatService.Message) :
  getMessagesForChat (ChatService.chat_id chat) = Normal messages ->
  m ∈ ChatService.lastN 200 messages ->
  malformed toUpperCase m ->
  exists reason,
    reason <> ""
    /\ ChatService.processChat toLocaleString toUpperCase getMessagesForChat chat
       = mkConv (ChatService.chat_id chat) VUndefined VUndefined VUndefined false false
           (VStr reason).
Proof.
  intros Hg Hin Hm. unfold ChatService.processChat. rewrite Hg. cbn [bind].
  destruct (renderLoop_throws toLocaleString toUpperCase _ "" m Hin Hm) as (e & He & Hne).
  unfold ChatService.buildConversationString.
  destruct (length messages =? 0)%nat eqn:E.
  { apply Nat.eqb_eq in E. destruct messages; [|discriminate E].
    by apply elem_of_nil in Hin. }
  rewrite He. cbn [bind]. by exists (message e).
Qed.

Lemma malformed_message_witness :
  exists reason,
    reason <> ""
    /\ ChatService.processChat Sample.toLocaleString Sample.toUpperCase
         (fun _ => Normal [ExampleMessages.question; ExampleMessages.untyped])
         Example.annChat
       = mkConv (ChatService.chat_id Example.annChat) VUndefined VUndefined VUndefined
           false false (VStr reason).
Proof.
  apply (malformed_message_fails_the_chat Sample.toLocaleString Sample.toUpperCase
           (fun _ => Normal [ExampleMessages.question; ExampleMessages.untyped])
           Example.annChat [ExampleMessages.question; ExampleMessages.untyped]
           ExampleMessages.untyped).
  - reflexivity.
  - right. left.
  - left. eexists. reflexivity.
Defined.

(** ** The metadata of a conversation *)

(** The properties of an object literal with three distinct keys. *)
Lemma object3_get (k1 k2 k3 : string) (v1 v2 v3 : JsValue) :
  k1 <> k2 -> k1 <> k3 -> k2 <> k3 ->
  let o := VObj (list_to_map [(k1, v1); (k2, v2); (k3, v3)]) in
  get_opt o k1 = v1 /\ get_opt o k2 = v2 /\ get_opt o k3 = v3.
Proof.
  intros H12 H13 H23 o. subst o. unfold get_opt, get, list_to_map.
  cbn [foldr fst snd].
  rewrite lookup_insert_eq.
  rewrite (lookup_insert_ne _ k1 k2) by done. rewrite lookup_insert_eq.
  rewrite (lookup_insert_ne _ k1 k3), (lookup_insert_ne _ k2 k3) by done.
  rewrite lookup_insert_eq. done.
Qed.

Lemma last_map_Some {A} (l : list A) :
  List.last (map Some l) None = last l.
Proof.
  induction l as [|x l IH]; [done|]. destruct l as [|y l]; [done|].
  cbn [map List.last] in IH |- *. rewrite IH. done.
Qed.

Lemma last_default {A} (l : list A) (d x : A) :
  last l = Some x -> List.last l d = x.
Proof.
  revert d. induction l as [|y l IH]; intros d H; [discriminate H|].
  destruct l as [|z l]; [by injection H as ->|]. cbn [List.last]. by apply IH.
Qed.

(** X17. For a non-empty list of messages with dated first and last messages,
    the metadata holds the number of messages, the number of days between the
    first and the last message rounded up, and the time of the last message
    not sent by the agent (null when there is none). *)
Theorem metadata_summarises_the_messages
    (messages : list ChatService.Message) (firstMessage lastMessage : ChatService.Message)
    (ta tb : Z) :
  head messages = Some firstMessage -> last messages = Some lastMessage ->
  ChatService.sent_at firstMessage = VDate ta ->
  ChatService.sent_at lastMessage = VDate tb ->
  let md := ChatService.getConversationMetadata messages in
  get_opt md "totalMessages" = VNum (inject_Z (Z.of_nat (length messages)))
  /\ (exists days : Z,
        get_opt md "conversationDurationDays" = VNum (inject_Z days)
        /\ (86400000 * (days - 1) < tb - ta <= 86400000 * days)%Z)
  /\ get_opt md "lastCustomerMessageTime"
     = match last (List.filter fromCustomer messages) with
       | Some m => ChatService.sent_at m
       | None => VNull
       end.
Proof.
  intros Hh Hl Ha Hb md. subst md. unfold ChatService.getConversationMetadata.
  destruct messages as [|m0 rest]; [discriminate Hh|]. injection Hh as ->.
  pose proof (last_default _ firstMessage _ Hl) as Hlast.
  cbv zeta. rewrite Hlast, Ha, Hb. cbn [truthy andb ChatService.daysBetween].
  destruct (object3_get "totalMessages" "conversationDurationDays" "lastCustomerMessageTime"
              (VNum (inject_Z (Z.of_nat (length (firstMessage :: rest)))))
              (VNum (inject_Z (- (- (tb - ta) / 86400000))))
              (match List.last (map Some (List.filter
                         (fun m => negb (is_str (ChatService.from_me m) "true"))
                         (firstMessage :: rest))) None with
               | Some lastCustomerMessage => ChatService.sent_at lastCustomerMessage
               | None => VNull
               end)) as (H1 & H2 & H3); [done..|].
  split; [exact H1|]. split.
  - eexists. split; [exact H2|].
    pose proof (Z.div_mod (- (tb - ta)) 86400000 ltac:(lia)).
    pose proof (Z.mod_pos_bound (- (tb - ta)) 86400000 ltac:(lia)). lia.
  - rewrite H3, last_map_Some. reflexivity.
Qed.

Lemma metadata_witness :
  get_opt (ChatService.getConversationMetadata
             [ExampleMessages.question; ExampleMessages.answer]) "totalMessages"
  = VNum (inject_Z (Z.of_nat (length [ExampleMessages.question; ExampleMessages.answer]))).
Proof.
  refine (proj1 (metadata_summarises_the_messages
                   [ExampleMessages.question; ExampleMessages.answer]
                   ExampleMessages.question ExampleMessages.answer
                   1738404000000 1738407600000 _ _ _ _)); reflexivity.
Defined.

(** ** A chat without text *)

Lemma renderLoop_all_textless toLocaleString toUpperCase (l : list ChatService.Message) :
  forall acc, Forall (textless toUpperCase) l ->
  ChatService.renderLoop toLocaleString toUpperCase l acc = Normal acc.
Proof.
  induction l as [|m l IH]; intros acc Hall; [done|].
  apply Forall_cons in Hall as [Hm Hall]. rewrite renderLoop_textless by done. by apply IH.
Qed.

(** X18. A chat that has messages, none of the last 200 carrying text, gets
    the empty transcript and hasMessages true: the cache loop writes nothing
    for it, and the analyzer, without calling the classifier, returns the
    empty analysis marked analysisSuccess (confidence 0.3, 'No meaningful
    conversation detected'). *)
Theorem chat_without_text_is_analysed_without_request
    (OPENAI_MODEL : JsValue) (systemPrompt : string)
    (openai : AIAnalyzer.Request -> AIAnalyzer.Reply) (elapsed : AIAnalyzer.Request -> Z)
    (toLocaleString : JsValue -> string) (toUpperCase : string -> string)
    (getMessagesForChat : string -> Completion (list ChatService.Message))
    (DB : Type) (query : Stmt -> DB -> DB * Completion unit)
    (chat : ChatService.Chat) (messages : list ChatService.Message) (db : DB) :
  getMessagesForChat (ChatService.chat_id chat) = Normal messages ->
  messages <> [] ->
  Forall (textless toUpperCase) (ChatService.lastN 200 messages) ->
  let d := ChatService.processChat toLocaleString toUpperCase getMessagesForChat chat in
  let r := AIAnalyzer.analyzeItem OPENAI_MODEL systemPrompt openai elapsed d in
  conversation d = VStr "" /\ hasMessages d = true /\ error d = VUndefined
  /\ ChatService.cacheLoop DB query [d] db = (db, Normal tt)
  /\ fst r = []
  /\ AIAnalyzer.analysisSuccess (snd r) = true
  /\ get (snd r) "sales_status" = VStr "No meaningful conversation detected"
  /\ get (snd r) "analysisConfidence" = VNum 0.3.
Proof.
  intros Hg Hne Hall d r.
  assert (Hd : d = mkConv (ChatService.chat_id chat) (ChatService.chat_name chat) (VStr "")
                     (ChatService.getConversationMetadata messages) true false VUndefined).
  { subst d. unfold ChatService.processChat. rewrite Hg. cbn [bind].
    unfold ChatService.buildConversationString.
    destruct messages as [|m0 rest]; [done|]. cbn [length Nat.eqb].
    rewrite renderLoop_all_textless by done. cbn [bind]. reflexivity. }
  assert (Hmd : truthy (ChatService.getConversationMetadata messages) = true).
  { unfold ChatService.getConversationMetadata. by destruct messages. }
  assert (Hr : r = ([], <["analysisSuccess" := VBool true]>
                         (<["metadata" := ChatService.getConversationMetadata messages]>
                            (AIAnalyzer.getEmptyAnalysis (ChatService.chat_id chat))))).
  { subst r. rewrite Hd. unfold AIAnalyzer.analyzeItem.
    cbn [error hasMessages conversation remoteJid metadata truthy negb orb].
    rewrite (analyze_blank OPENAI_MODEL systemPrompt openai elapsed "") by reflexivity.
    unfold or_else. rewrite Hmd. reflexivity. }
  rewrite Hr, Hd. cbn [conversation hasMessages error fst snd].
  repeat split.
Qed.

Lemma chat_without_text_witness :
  let d := ChatService.processChat Sample.toLocaleString Sample.toUpperCase
             (fun _ => Normal [ExampleMessages.receipt]) Example.annChat in
  conversation d = VStr "" /\ hasMessages d = true.
Proof.
  destruct (chat_without_text_is_analysed_without_request VUndefined "" Sample.unscored
              Sample.latency Sample.toLocaleString Sample.toUpperCase
              (fun _ => Normal [ExampleMessages.receipt]) unit Example.roQuery
              Example.annChat [ExampleMessages.receipt] tt)
    as (H1 & H2 & _).
  - reflexivity.
  - discriminate.
  - repeat constructor. exists VNull. split; reflexivity.
  - split; [exact H1|exact H2].
Defined.

(** ** The parameters of the report insert *)

Section Columns.

Context (JSON_stringify : JsValue -> string) (parseInt parseFloat : JsValue -> JsValue)
  (nowISO : string).

Local Abbreviation prepare :=
  (DatabaseService.prepareInsertValues JSON_stringify parseInt parseFloat nowISO).
Local Abbreviation toInteger := (DatabaseService.toInteger parseInt).
Local Abbreviation toJsonb := (DatabaseService.toJsonb JSON_stringify).

Lemma toBoolean_spec v :
  DatabaseService.toBoolean v
  = VBool (match v with VBool true => true | VStr s => String.eqb s "true" | _ => false end).
Proof. destruct v as [| |[]| | | | | |]; reflexivity. Qed.

Lemma toJsonb_flat v : isStructured (toJsonb v) = false.
Proof. by destruct v. Qed.

Lemma toInteger_count v :
  (forall x, isNumber (parseInt x) = true \/ parseInt x = VNaN) ->
  isNumber (or_else (toInteger v) (VNum 0)) = true.
Proof.
  intros Hp. unfold DatabaseService.toInteger, or_else.
  destruct v; try reflexivity;
    match goal with |- context [parseInt ?x] => destruct (Hp x) as [H| ->] end;
    try reflexivity;
    (destruct (parseInt _); try discriminate H; cbn [truthy isNumber];
     by destruct (negb _)).
Qed.

Lemma toInteger_quantity v :
  (forall x, isNumber (parseInt x) = true \/ parseInt x = VNaN) ->
  isNumber (toInteger v) = true \/ toInteger v = VNull.
Proof.
  intros Hp. unfold DatabaseService.toInteger.
  destruct v; try (by right);
    match goal with |- context [parseInt ?x] => destruct (Hp x) as [H| ->] end;
    try (by right); (destruct (parseInt _); try discriminate H; by left).
Qed.

End Columns.

(** X19. prepareInsertValues always yields 37 parameters; the four boolean
    parameters are booleans, the JSONB parameters are never arrays or objects
    (they are serialised), the three count parameters are numbers, and
    quantity_mentioned is a number or NULL, given that parseInt returns a
    number or NaN. *)
Theorem typed_columns_receive_typed_values
    (JSON_stringify : JsValue -> string) (parseInt parseFloat : JsValue -> JsValue)
    (nowISO : string) (result : JsObj) :
  (forall x, isNumber (parseInt x) = true \/ parseInt x = VNaN) ->
  let values := DatabaseService.prepareInsertValues JSON_stringify parseInt parseFloat
                  nowISO result in
  length values = 37%nat
  /\ Forall (fun i => isBoolean (nth i values VUndefined) = true) [8; 28; 29; 30]%nat
  /\ Forall (fun i => isStructured (nth i values VUndefined) = false) jsonbColumns
  /\ Forall (fun i => isNumber (nth i values VUndefined) = true) countColumns
  /\ (isNumber (nth 5 values VUndefined) = true \/ nth 5 values VUndefined = VNull).
Proof.
  intros Hp values. subst values. unfold DatabaseService.prepareInsertValues.
  split; [reflexivity|]. split.
  { repeat constructor; cbn [nth]; rewrite toBoolean_spec; reflexivity. }
  split.
  { unfold jsonbColumns. repeat constructor; cbn [nth];
      apply toJsonb_flat. }
  split.
  { unfold countColumns. repeat constructor; cbn [nth]; by apply toInteger_count. }
  cbn [nth]. by apply toInteger_quantity.
Qed.

Lemma typed_columns_witness :
  length (DatabaseService.prepareInsertValues Sample.JSON_stringify Sample.parseInt
            Sample.parseFloat Sample.nowISO (Sample.reportRow Sample.jidA)) = 37%nat.
Proof.
  refine (proj1 (typed_columns_receive_typed_values Sample.JSON_stringify Sample.parseInt
                   Sample.parseFloat Sample.nowISO (Sample.reportRow Sample.jidA) _)).
  intros x. destruct x; try (by right). by left.
Defined.

(** X20. agent_handoff_detected, pricing_discussed and demo_scheduled are true
    exactly when the field is true or the string 'true'; follow_up_required is
    false only when the field is the boolean false, so the string 'false' is
    stored as true. *)
Theorem boolean_columns_read_strings_unevenly
    (JSON_stringify : JsValue -> string) (parseInt parseFloat : JsValue -> JsValue)
    (nowISO : string) (result : JsObj) :
  let values := DatabaseService.prepareInsertValues JSON_stringify parseInt parseFloat
                  nowISO result in
  Forall (fun c => nth (fst c) values VUndefined
                   = VBool (match get result (snd c) with
                            | VBool true => true
                            | VStr s => String.eqb s "true"
                            | _ => false
                            end)) booleanColumns
  /\ nth 30 values VUndefined
     = VBool (match get result "follow_up_required" with
              | VBool false => false
              | _ => true
              end).
Proof.
  intros values. subst values. unfold DatabaseService.prepareInsertValues. split.
  - unfold booleanColumns. repeat constructor; cbn [nth fst snd]; apply toBoolean_spec.
  - cbn [nth]. by destruct (get result "follow_up_required") as [| |[]| | | | | |].
Qed.

Section HappyPath.

Context (JSON_stringify : JsValue -> string) (parseInt parseFloat : JsValue -> JsValue)
  (nowISO : string) (DB : Type) (getClient : DB -> DB * Completion unit)
  (query : Stmt -> DB -> DB * Completion unit).

Hypothesis accepts : forall stmt db, snd (query stmt db) = Normal tt.

Local Abbreviation prepare :=
  (DatabaseService.prepareInsertValues JSON_stringify parseInt parseFloat nowISO).
Local Abbreviation insertLoop :=
  (DatabaseService.insertLoop JSON_stringify parseInt parseFloat nowISO DB query).
Local Abbreviation send := (DatabaseService.send DB query).

Lemma send_accepted stmt c :
  send stmt c = ((fst (query stmt (fst c)), snd c ++ [(stmt, true)]), Normal tt).
Proof using DB accepts query.
  unfold DatabaseService.send. pose proof (accepts stmt (fst c)) as H.
  destruct (query stmt (fst c)) as [db' r]. cbn [snd] in H. by subst r.
Qed.

Lemma insertLoop_accepted rows : forall k c,
  exists db',
    insertLoop rows k c
    = ((db', snd c ++ map (fun row => (SInsertReport (prepare row), true)) rows),
       Normal (DatabaseService.mkCounters
                 (DatabaseService.successCount k + length rows)
                 (DatabaseService.errorCount k) (DatabaseService.errs k))).
Proof using DB JSON_stringify accepts nowISO parseFloat parseInt query.
  induction rows as [|row rows IH]; intros k c.
  - exists (fst c). cbn [DatabaseService.insertLoop map length].
    rewrite app_nil_r, Nat.add_0_r. by destruct c, k.
  - cbn [DatabaseService.insertLoop]. rewrite send_accepted.
    destruct (IH (DatabaseService.mkCounters (Datatypes.S (DatabaseService.successCount k))
                    (DatabaseService.errorCount k) (DatabaseService.errs k))
                 (fst (query (SInsertReport (prepare row)) (fst c)),
                  snd c ++ [(SInsertReport (prepare row), true)])) as (db' & ->).
    exists db'. cbn [snd map length DatabaseService.successCount
                     DatabaseService.errorCount DatabaseService.errs].
    rewrite <- app_assoc. cbn [app]. do 3 f_equal. lia.
Qed.

End HappyPath.

(** X21. On a connection that accepts every statement, a bulk insert of a non-
    empty batch sends BEGIN, one insert per row in order and COMMIT, and
    reports every row as succeeded, none failed, with no error. *)
Theorem accepted_rows_are_all_reported_stored
    (JSON_stringify : JsValue -> string) (parseInt parseFloat : JsValue -> JsValue)
    (nowISO : string) (DB : Type) (getClient : DB -> DB * Completion unit)
    (query : Stmt -> DB -> DB * Completion unit)
    (analysisResults : list JsObj) (db : DB) :
  analysisResults <> [] ->
  (forall db, snd (getClient db) = Normal tt) ->
  (forall stmt db, snd (query stmt db) = Normal tt) ->
  let out := DatabaseService.bulkInsertAnalysisResults JSON_stringify parseInt parseFloat
               nowISO DB getClient query analysisResults db in
  snd out = Normal (DatabaseService.mkResult (length analysisResults) 0 [])
  /\ snd (fst out)
     = (SBegin, true)
       :: map (fun row => (SInsertReport (DatabaseService.prepareInsertValues JSON_stringify
                                            parseInt parseFloat nowISO row), true))
              analysisResults
       ++ [(SCommit, true)].
Proof.
  intros Hne Hc Hq out. subst out. unfold DatabaseService.bulkInsertAnalysisResults.
  destruct analysisResults as [|r0 rows]; [done|]. cbn [length Nat.eqb].
  specialize (Hc db). destruct (getClient db) as [db0 r]. cbn [snd] in Hc. subst r.
  unfold DatabaseService.transaction. rewrite (send_accepted DB query Hq).
  cbn [fst snd app].
  match goal with
  | |- context [DatabaseService.insertLoop _ _ _ _ _ _ ?rs ?k ?c] =>
      destruct (insertLoop_accepted JSON_stringify parseInt parseFloat nowISO DB query Hq
                  rs k c) as (db' & ->)
  end.
  rewrite (send_accepted DB query Hq). cbn [fst snd app DatabaseService.successCount
    DatabaseService.errorCount DatabaseService.errs length Nat.add].
  split; reflexivity.
Qed.

Lemma accepted_rows_witness :
  snd (DatabaseService.bulkInsertAnalysisResults Sample.JSON_stringify Sample.parseInt
         Sample.parseFloat Sample.nowISO unit (fun _ => (tt, Normal tt))
         (fun _ _ => (tt, Normal tt)) [Sample.reportRow Sample.jidA] tt)
  = Normal (DatabaseService.mkResult 1 0 []).
Proof.
  refine (proj1 (accepted_rows_are_all_reported_stored Sample.JSON_stringify Sample.parseInt
                   Sample.parseFloat Sample.nowISO unit (fun _ => (tt, Normal tt))
                   (fun _ _ => (tt, Normal tt)) [Sample.reportRow Sample.jidA] tt _ _ _));
    [discriminate|reflexivity|reflexivity].
Defined.

(** ** The logger *)

(** X22. A logger constructed with a level name other than 'error', 'warn',
    'info' and 'debug' logs nothing at any level, errors included. *)
Theorem unknown_log_level_silences_the_logger (logLevel : string) :
  logLevel ∉ map Logger.levelName [Logger.error; Logger.warn; Logger.info; Logger.debug] ->
  forall level, Logger.shouldLog logLevel level = false.
Proof.
  intros Hn level. unfold Logger.shouldLog.
  assert (Hl : Logger.logLevels logLevel = None).
  { cbn [map Logger.levelName] in Hn. rewrite !not_elem_of_cons in Hn.
    destruct Hn as (H1 & H2 & H3 & H4 & _). unfold Logger.logLevels.
    apply String.eqb_neq in H1, H2, H3, H4. by rewrite H1, H2, H3, H4. }
  rewrite Hl. destruct level; reflexivity.
Qed.

Lemma unknown_log_level_witness : Logger.shouldLog "INFO" Logger.error = false.
Proof.
  apply (unknown_log_level_silences_the_logger "INFO").
  cbn. rewrite !not_elem_of_cons. repeat split; try discriminate. apply not_elem_of_nil.
Defined.

